(** * Session hooks: registry, settings store, todo scanner, approval engine

    A shallow embedding of the Python hooks under [hooks/]:
    - [hook_utils.py]        the session registry document,
    - [session_settings.py]  the per-session settings documents,
    - [stop-hook.py]         the transcript scanner for todo lists,
    - [notification-hook.py] the status update on a notification,
    - [approval-hook.py]     the approval decision pipeline,
    - [session-start.py], [session-end.py]  the registration of a session,
    - [update_session_settings.py]          the commands on the settings,
    and of the retry loop of [chat] in [utils/llm_utils.py].

    Python values that come out of [json.load] are values of [json].
    Conventions of the embedding:
    - text is a [string] of bytes, the UTF-8 encoding of the Python text;
      [str.strip] removes the white space of Unicode, one to three bytes
      a character; [str.upper] and [str.lower] change the letters of
      ASCII only. The hooks compare the result with words of ASCII, and
      no other character has a capital or a small letter that makes one
      of these words appear ([upper] turns the long s into S, which can
      only make ASK of a word that gives ask anyway; [lower] turns the
      Kelvin sign into k and the dotted capital I into i followed by a
      combining dot, and no keyword has a k or ends with an i);
    - [repr] escapes the control characters of ASCII and leaves the bytes
      above 127 alone: it is Python's on the values whose text is made of
      printable characters. Text itself is never passed through [repr];
    - a JSON number is an integer; the clock readings of [time.time()] are
      integers as well, no arithmetic is ever done on them;
    - a dict is an association list in insertion order, as CPython keeps it;
    - a file holds a JSON document, or bytes on which [json.load] raises:
      a [JSONDecodeError] for text that is not JSON, a
      [UnicodeDecodeError] for bytes that are not UTF-8; the exception is
      part of what the file holds. [json.dump] followed by [json.load] is
      the identity on [json];
    - [SETTINGS_DIR] holds regular files only. A session identifier is
      put in the path of its settings file as it is: when it is a plain
      file name (text, not empty, without [/] and without a null byte,
      short enough for a file name) the path names a file of
      [SETTINGS_DIR]; for any other identifier the world says where the
      path leads, to a file of [SETTINGS_DIR], to the file of the
      registry, which is [../claude-sessions.json] from there, or
      nowhere, and then [open] raises;
    - the disk is reliable and there is one process at a time: on a path
      that exists [open], [os.rename] and [flock] succeed, so the
      [except] branch of [write_sessions] is not reached. *)

From Stdlib Require Import ZArith Ascii String List Bool Lia.
From stdpp Require Import base option strings gmap list pretty.

Local Open Scope string_scope.
Local Open Scope Z_scope.

(** ** JSON values *)

#[warnings="-register-all"]
Inductive json : Type :=
| JNull
| JBool (b : bool)
| JInt (n : Z)
| JStr (s : string)
| JArr (items : list json)
| JObj (fields : list (string * json)).

Abbreviation dict := (list (string * json)).

(** Exceptions that the hooks can meet. The text is what [str(e)] gives. *)
Inductive exn : Type :=
| AttributeError (msg : string)
| TypeError (msg : string)
| KeyError (msg : string)
| JSONDecodeError (msg : string)
| RuntimeError (msg : string)
| OSError (msg : string)              (* [IOError] and its subclasses *)
| UnicodeDecodeError (msg : string).

Definition exn_str (e : exn) : string :=
  match e with
  | AttributeError m | TypeError m | KeyError m
  | JSONDecodeError m | RuntimeError m
  | OSError m | UnicodeDecodeError m => m
  end.

Inductive res (A : Type) : Type :=
| Ok (a : A)
| Raise (e : exn).
Arguments Ok {A} a.
Arguments Raise {A} e.

Global Instance res_ret : MRet res := fun A a => Ok a.
Global Instance res_bind : MBind res := fun A B k r =>
  match r with
  | Ok a => k a
  | Raise e => Raise e
  end.

(** ** Python primitives on JSON values *)

Module Py.

Definition type_name (v : json) : string :=
  match v with
  | JNull => "NoneType"
  | JBool _ => "bool"
  | JInt _ => "int"
  | JStr _ => "str"
  | JArr _ => "list"
  | JObj _ => "dict"
  end.

(** [bool(v)] *)
Definition truthy (v : json) : bool :=
  match v with
  | JNull => false
  | JBool b => b
  | JInt n => negb (n =? 0)
  | JStr s => match s with EmptyString => false | _ => true end
  | JArr l => match l with [] => false | _ => true end
  | JObj d => match d with [] => false | _ => true end
  end.

(** [isinstance(v, dict)] *)
Definition is_dict (v : json) : bool :=
  match v with JObj _ => true | _ => false end.

Fixpoint dict_get (k : string) (d : dict) : option json :=
  match d with
  | [] => None
  | (k', v) :: d' => if String.eqb k' k then Some v else dict_get k d'
  end.

(** [d[k] = v]: replaces the value in place or appends a new key. *)
Fixpoint dict_set (k : string) (v : json) (d : dict) : dict :=
  match d with
  | [] => [(k, v)]
  | (k', v') :: d' =>
      if String.eqb k' k then (k', v) :: d' else (k', v') :: dict_set k v d'
  end.

(** [d.update(u)] *)
Definition dict_update (u d : dict) : dict :=
  fold_left (fun acc kv => dict_set (fst kv) (snd kv) acc) u d.

(** [a == b] on values read from JSON: [True == 1] and [False == 0] hold,
    lists are compared element by element and dicts key by key. *)
Fixpoint eq (a b : json) {struct a} : bool :=
  match a, b with
  | JNull, JNull => true
  | JBool x, JBool y => Bool.eqb x y
  | JBool x, JInt n => Z.b2z x =? n
  | JInt n, JBool x => n =? Z.b2z x
  | JInt m, JInt n => m =? n
  | JStr s, JStr t => String.eqb s t
  | JArr xs, JArr ys =>
      (fix eq_items (xs ys : list json) {struct xs} : bool :=
         match xs, ys with
         | [], [] => true
         | x :: xs', y :: ys' => eq x y && eq_items xs' ys'
         | _, _ => false
         end) xs ys
  | JObj d, JObj e =>
      Nat.eqb (length d) (length e) &&
      (fix eq_fields (d : dict) {struct d} : bool :=
         match d with
         | [] => true
         | (k, v) :: d' =>
             match dict_get k e with
             | Some w => eq v w
             | None => false
             end && eq_fields d'
         end) d
  | _, _ => false
  end.

(** [v in l] for a list [l] *)
Definition mem (v : json) (l : list json) : bool :=
  existsb (fun x => eq x v) l.

(** [hash(v)] succeeds on scalars and raises on lists and dicts. *)
Definition hashable (v : json) : bool :=
  match v with
  | JArr _ | JObj _ => false
  | _ => true
  end.

Definition unhashable (v : json) : exn :=
  TypeError ("unhashable type: '" ++ type_name v ++ "'").

(** [v.get(k, dflt)]: only a dict has the method. *)
Definition get (v : json) (k : string) (dflt : json) : res json :=
  match v with
  | JObj d => Ok (default dflt (dict_get k d))
  | _ => Raise (AttributeError
           ("'" ++ type_name v ++ "' object has no attribute 'get'"))
  end.

(** [v[k]] for a string key. *)
Definition getitem (v : json) (k : string) : res json :=
  match v with
  | JObj d =>
      match dict_get k d with
      | Some x => Ok x
      | None => Raise (KeyError ("'" ++ k ++ "'"))
      end
  | JArr _ => Raise (TypeError "list indices must be integers or slices, not str")
  | JStr _ => Raise (TypeError "string indices must be integers, not 'str'")
  | _ => Raise (TypeError
           ("'" ++ type_name v ++ "' object is not subscriptable"))
  end.

(** [v[k] = x] for a string key. *)
Definition setitem (v : json) (k : string) (x : json) : res json :=
  match v with
  | JObj d => Ok (JObj (dict_set k x d))
  | JArr _ => Raise (TypeError "list indices must be integers or slices, not str")
  | _ => Raise (TypeError
           ("'" ++ type_name v ++ "' object does not support item assignment"))
  end.

Fixpoint chars (s : string) : list json :=
  match s with
  | EmptyString => []
  | String c s' => JStr (String c EmptyString) :: chars s'
  end.

(** [for item in v]: the items that the loop visits. *)
Definition iter (v : json) : res (list json) :=
  match v with
  | JArr l => Ok l
  | JStr s => Ok (chars s)
  | JObj d => Ok (map (fun kv => JStr (fst kv)) d)
  | _ => Raise (TypeError ("'" ++ type_name v ++ "' object is not iterable"))
  end.


(** *** Text *)

Definition is_upper (c : ascii) : bool :=
  let n := N_of_ascii c in (65 <=? n)%N && (n <=? 90)%N.

Definition is_lower (c : ascii) : bool :=
  let n := N_of_ascii c in (97 <=? n)%N && (n <=? 122)%N.

Definition lower_char (c : ascii) : ascii :=
  if is_upper c then ascii_of_N (N_of_ascii c + 32) else c.

Definition upper_char (c : ascii) : ascii :=
  if is_lower c then ascii_of_N (N_of_ascii c - 32) else c.

Fixpoint map_chars (f : ascii -> ascii) (s : string) : string :=
  match s with
  | EmptyString => EmptyString
  | String c s' => String (f c) (map_chars f s')
  end.

(** [s.lower()] and [s.upper()] *)
Definition lower (s : string) : string := map_chars lower_char s.
Definition upper (s : string) : string := map_chars upper_char s.

(** The characters that [str.strip()] removes, as UTF-8 has them. In one
    byte: space, tab, newline, vertical tab, form feed, carriage return
    and the separators 28 to 31. *)
Definition is_space (c : ascii) : bool :=
  let n := N_of_ascii c in
  (n =? 32)%N || ((9 <=? n)%N && (n <=? 13)%N) || ((28 <=? n)%N && (n <=? 31)%N).

(** In two bytes: U+0085 and U+00A0. *)
Definition is_space2 (a b : ascii) : bool :=
  let m := N_of_ascii a in
  let n := N_of_ascii b in
  (m =? 194)%N && ((n =? 133)%N || (n =? 160)%N).

(** In three bytes: U+1680, U+2000 to U+200A, U+2028, U+2029, U+202F,
    U+205F and U+3000. *)
Definition is_space3 (a b c : ascii) : bool :=
  let l := N_of_ascii a in
  let m := N_of_ascii b in
  let n := N_of_ascii c in
  ((l =? 225)%N && (m =? 154)%N && (n =? 128)%N) ||
  ((l =? 226)%N && (m =? 128)%N &&
   (((128 <=? n)%N && (n <=? 138)%N) || (n =? 168)%N || (n =? 169)%N || (n =? 175)%N)) ||
  ((l =? 226)%N && (m =? 129)%N && (n =? 159)%N) ||
  ((l =? 227)%N && (m =? 128)%N && (n =? 128)%N).

(** The text is one white-space character. *)
Definition is_one_space (s : string) : bool :=
  match s with
  | String a EmptyString => is_space a
  | String a (String b EmptyString) => is_space2 a b
  | String a (String b (String c EmptyString)) => is_space3 a b c
  | _ => false
  end.

Fixpoint lstrip (s : string) : string :=
  match s with
  | EmptyString => EmptyString
  | String a s1 =>
      if is_space a then lstrip s1
      else
        match s1 with
        | String b s2 =>
            if is_space2 a b then lstrip s2
            else
              match s2 with
              | String c s3 => if is_space3 a b c then lstrip s3 else s
              | EmptyString => s
              end
        | EmptyString => s
        end
  end.

(** From the right: the bytes kept so far start with a white-space
    character only when they are that character alone. *)
Fixpoint rstrip (s : string) : string :=
  match s with
  | EmptyString => EmptyString
  | String c s' =>
      let kept := String c (rstrip s') in
      if is_one_space kept then EmptyString else kept
  end.

(** [s.strip()] *)
Definition strip (s : string) : string := rstrip (lstrip s).

(** [s.startswith(p)] *)
Fixpoint startswith (s p : string) {struct p} : bool :=
  match p, s with
  | EmptyString, _ => true
  | String a p', String b s' => Ascii.eqb a b && startswith s' p'
  | String _ _, EmptyString => false
  end.

(** [needle in hay] on text *)
Fixpoint contains (needle hay : string) : bool :=
  startswith hay needle ||
  match hay with
  | EmptyString => false
  | String _ hay' => contains needle hay'
  end.

(** *** [str] and [repr] *)

Definition hex_digit (n : N) : ascii :=
  ascii_of_N (if (n <? 10)%N then 48 + n else 87 + n).

Definition backslash : ascii := ascii_of_N 92.
Definition apostrophe : ascii := ascii_of_N 39.
Definition dquote : ascii := ascii_of_N 34.

Definition escaped (s : string) : string := String backslash s.

Definition repr_char (quote : ascii) (c : ascii) : string :=
  let n := N_of_ascii c in
  if Ascii.eqb c quote || Ascii.eqb c backslash then escaped (String c EmptyString)
  else if (n =? 9)%N then escaped "t"
  else if (n =? 10)%N then escaped "n"
  else if (n =? 13)%N then escaped "r"
  else if (n <? 32)%N || (n =? 127)%N then
    escaped (String "x"%char
      (String (hex_digit (n / 16)) (String (hex_digit (n mod 16)) EmptyString)))
  else String c EmptyString.

Fixpoint repr_chars (quote : ascii) (s : string) : string :=
  match s with
  | EmptyString => EmptyString
  | String c s' => repr_char quote c ++ repr_chars quote s'
  end.

Fixpoint has_char (c : ascii) (s : string) : bool :=
  match s with
  | EmptyString => false
  | String c' s' => Ascii.eqb c' c || has_char c s'
  end.

(** [repr(s)] for text: double quotes are chosen when the text has an
    apostrophe and no double quote. *)
Definition repr_str (s : string) : string :=
  let quote :=
    if has_char apostrophe s && negb (has_char dquote s) then dquote else apostrophe in
  String quote (repr_chars quote s ++ String quote EmptyString).

Fixpoint join (sep : string) (l : list string) : string :=
  match l with
  | [] => EmptyString
  | [x] => x
  | x :: l' => x ++ sep ++ join sep l'
  end.

Fixpoint repr (v : json) : string :=
  match v with
  | JNull => "None"
  | JBool true => "True"
  | JBool false => "False"
  | JInt n => pretty n
  | JStr s => repr_str s
  | JArr l => "[" ++ join ", " (map repr l) ++ "]"
  | JObj d =>
      "{" ++ join ", " (map (fun kv => repr_str (fst kv) ++ ": " ++ repr (snd kv)) d) ++ "}"
  end.

(** [str(v)], also what an f-string writes for [{v}] *)
Definition str (v : json) : string :=
  match v with
  | JStr s => s
  | _ => repr v
  end.

(** [k in v] for a text [k]: a key of a dict, an element of a list, a
    piece of a text. *)
Definition has (k : string) (v : json) : res bool :=
  match v with
  | JObj d => Ok (match dict_get k d with Some _ => true | None => false end)
  | JArr l => Ok (mem (JStr k) l)
  | JStr s => Ok (contains k s)
  | _ => Raise (TypeError
           ("argument of type '" ++ type_name v ++ "' is not iterable"))
  end.

(** [l[:n]] *)
Definition slice_to {A} (n : Z) (l : list A) : list A :=
  if (0 <=? n)%Z then firstn (Z.to_nat n) l
  else firstn (Z.to_nat (Z.of_nat (length l) + n)) l.

Definition newline : string := String (ascii_of_N 10) EmptyString.

End Py.

(** ** Words, whatever the case of their letters *)

Module Words.

(** The character [c] writes the character [k] of a keyword: it is [k],
    or it is the capital of [k] when [k] is one of the letters a to z. *)
Definition writes (k c : ascii) : Prop :=
  c = k \/
  ((97 <= N_of_ascii k)%N /\ (N_of_ascii k <= 122)%N /\
   (N_of_ascii c + 32 = N_of_ascii k)%N).

(** The text [word] spells [keyword], character by character. *)
Fixpoint spells (keyword word : string) : Prop :=
  match keyword, word with
  | EmptyString, EmptyString => True
  | String k keyword', String c word' => writes k c /\ spells keyword' word'
  | _, _ => False
  end.

(** The text [message] has the word [keyword] in it, in any case. *)
Definition has_word (keyword message : string) : Prop :=
  exists pre mid post, message = pre ++ mid ++ post /\ spells keyword mid.

(** A keyword without a capital letter. *)
Fixpoint no_capital (keyword : string) : bool :=
  match keyword with
  | EmptyString => true
  | String k keyword' =>
      negb ((65 <=? N_of_ascii k)%N && (N_of_ascii k <=? 90)%N) && no_capital keyword'
  end.

End Words.


(** ** The disk, the clock and the Judge *)

(** What a file, a line of a transcript or the standard input holds: a
    JSON document, or bytes on which the parser raises [error], a
    [JSONDecodeError] with its message when the text is not JSON, a
    [UnicodeDecodeError] when the bytes are not UTF-8. *)
Inductive text : Type :=
| Unreadable (error : exn)
| Document (doc : json).

(** A file without a JSON value in it, an empty file for one. *)
Definition Garbage : text :=
  Unreadable (JSONDecodeError "Expecting value: line 1 column 1 (char 0)").

(** [json.load] and [json.loads] *)
Definition json_load (t : text) : res json :=
  match t with
  | Unreadable e => Raise e
  | Document d => Ok d
  end.

(** The file that a path under [SETTINGS_DIR] leads to: a file of that
    directory, by its name without [.json], or, through [..], the file
    of the registry. *)
Inductive slot : Type :=
| InSettingsDir (name : string)
| RegistryFile.

Record world : Type := World {
  registry : option text;          (* ~/local/global/claude-sessions.json *)
  settings : gmap string text;     (* ~/local/global/session-settings/<id>.json *)
  ticks : nat;                     (* clock readings taken so far *)
  clock_time : nat -> Z;           (* what the n-th reading gives to [time.time()] *)
  clock_iso : nat -> string;       (* and to [datetime.utcnow().isoformat()] *)
  grok : json -> json -> json -> res string;
                                   (* the Judge: its answer, or the exception
                                      left after the retries of [chat] *)
  judged : list (json * json * json);  (* requests sent to the Judge so far *)
  elsewhere : json -> res slot     (* what the system makes of the path
                                      [SETTINGS_DIR / f"{session_id}.json"] when
                                      the identifier is not a plain file name:
                                      the file it leads to, or the error of
                                      [open], the path then does not exist *)
}.

Definition set_registry (f : option text) (w : world) : world :=
  World f (settings w) (ticks w) (clock_time w) (clock_iso w) (grok w) (judged w)
    (elsewhere w).
Definition set_settings (m : gmap string text) (w : world) : world :=
  World (registry w) m (ticks w) (clock_time w) (clock_iso w) (grok w) (judged w)
    (elsewhere w).
Definition set_ticks (n : nat) (w : world) : world :=
  World (registry w) (settings w) n (clock_time w) (clock_iso w) (grok w) (judged w)
    (elsewhere w).
Definition set_grok (j : json -> json -> json -> res string) (w : world) : world :=
  World (registry w) (settings w) (ticks w) (clock_time w) (clock_iso w) j (judged w)
    (elsewhere w).
Definition set_judged (l : list (json * json * json)) (w : world) : world :=
  World (registry w) (settings w) (ticks w) (clock_time w) (clock_iso w) (grok w) l
    (elsewhere w).

(** Reading, writing and removing the file of a slot. *)
Definition read_slot (w : world) (place : slot) : option text :=
  match place with
  | InSettingsDir name => settings w !! name
  | RegistryFile => registry w
  end.

Definition write_slot (place : slot) (f : text) (w : world) : world :=
  match place with
  | InSettingsDir name => set_settings (<[name := f]> (settings w)) w
  | RegistryFile => set_registry (Some f) w
  end.

Definition delete_slot (place : slot) (w : world) : world :=
  match place with
  | InSettingsDir name => set_settings (delete name (settings w)) w
  | RegistryFile => set_registry None w
  end.

(** A computation over a state [S]: it may change the state and it either
    returns or raises; the changes made before a [raise] stay. *)
Definition ST (S A : Type) : Type := S -> res A * S.

Global Instance ST_ret {S} : MRet (ST S) := fun A a s => (Ok a, s).
Global Instance ST_bind {S} : MBind (ST S) := fun A B k m s =>
  match m s with
  | (Ok a, s') => k a s'
  | (Raise e, s') => (Raise e, s')
  end.

Definition lift {S A} (r : res A) : ST S A := fun s => (r, s).
Definition get_state {S} : ST S S := fun s => (Ok s, s).
Definition modify {S} (f : S -> S) : ST S unit := fun s => (Ok tt, f s).

(** [try: m except E as e: h e], for the exceptions [E] that [handles] accepts *)
Definition try_except {S A} (m : ST S A) (handles : exn -> bool) (h : exn -> ST S A)
  : ST S A := fun s =>
  match m s with
  | (Ok a, s') => (Ok a, s')
  | (Raise e, s') => if handles e then h e s' else (Raise e, s')
  end.

(** [except Exception] *)
Definition any_exception (e : exn) : bool := true.

(** [except json.JSONDecodeError] *)
Definition is_JSONDecodeError (e : exn) : bool :=
  match e with JSONDecodeError _ => true | _ => false end.

(** [except (json.JSONDecodeError, IOError)] *)
Definition is_JSONDecodeError_or_IOError (e : exn) : bool :=
  match e with JSONDecodeError _ | OSError _ => true | _ => false end.

(** [for x in l: body x] *)
Fixpoint for_each {S A} (l : list A) (body : A -> ST S unit) : ST S unit :=
  match l with
  | [] => mret tt
  | x :: l' => _ ← body x; for_each l' body
  end.

(** [m] keeps [P], however it ends. *)
Definition keeps {S} (P : S -> Prop) {B} (m : ST S B) : Prop :=
  forall s r s', P s -> m s = (r, s') -> P s'.

(** The hooks run over the world. *)
Abbreviation M := (ST world).

Definition time_time : M json := fun w =>
  (Ok (JInt (clock_time w (ticks w))), set_ticks (S (ticks w)) w).

(** [datetime.utcnow().isoformat() + "Z"] *)
Definition utcnow_isoformat_Z : M json := fun w =>
  (Ok (JStr (clock_iso w (ticks w) ++ "Z")), set_ticks (S (ticks w)) w).

(** ** hook_utils.py *)

Module HookUtils.

Definition empty_structure : json :=
  JObj [("sessions", JArr []); ("last_updated", JNull)].

Definition read_sessions : M json := fun w =>
  match registry w with
  | None => (Ok empty_structure, w)
  | Some f =>
      try_except (lift (json_load f)) is_JSONDecodeError_or_IOError
        (fun _ => mret empty_structure) w
  end.

Definition write_sessions (data : json) : M bool := fun w =>
  (Ok true, set_registry (Some (Document data)) w).

(** [[s for s in sessions if s.get("session_id") != session_id]] *)
Fixpoint without_session (session_id : json) (sessions : list json) : res (list json) :=
  match sessions with
  | [] => Ok []
  | s :: rest =>
      sid ← Py.get s "session_id" JNull;
      rest' ← without_session session_id rest;
      Ok (if Py.eq sid session_id then rest' else s :: rest')
  end.

Definition add_session (session_data : json) : M bool :=
  data ← read_sessions;
  session_id ← lift (Py.get session_data "session_id" JNull);
  sessions ← lift (Py.getitem data "sessions");
  items ← lift (Py.iter sessions);
  existing_sessions ← lift (without_session session_id items);
  let existing_sessions := (existing_sessions ++ [session_data])%list in
  data ← lift (Py.setitem data "sessions" (JArr existing_sessions));
  now ← time_time;
  data ← lift (Py.setitem data "last_updated" now);
  write_sessions data.

Definition remove_session (session_id : json) : M bool :=
  data ← read_sessions;
  sessions ← lift (Py.getitem data "sessions");
  items ← lift (Py.iter sessions);
  kept ← lift (without_session session_id items);
  data ← lift (Py.setitem data "sessions" (JArr kept));
  now ← time_time;
  data ← lift (Py.setitem data "last_updated" now);
  write_sessions data.

(** The loop of [update_session]: the first session with the identifier is
    updated in place and the loop breaks. *)
Fixpoint update_first (session_id : json) (updates : dict) (sessions : list json)
  : res (list json) :=
  match sessions with
  | [] => Ok []
  | s :: rest =>
      sid ← Py.get s "session_id" JNull;
      if Py.eq sid session_id then
        match s with
        | JObj d => Ok (JObj (Py.dict_update updates d) :: rest)
        | _ => Ok (s :: rest)
        end
      else
        rest' ← update_first session_id updates rest;
        Ok (s :: rest')
  end.

Definition update_session (session_id : json) (updates : dict) : M bool :=
  data ← read_sessions;
  sessions ← lift (Py.getitem data "sessions");
  items ← lift (Py.iter sessions);
  items ← lift (update_first session_id updates items);
  (* the sessions are updated through the list that [data] holds *)
  data ← lift (match sessions with
               | JArr _ => Py.setitem data "sessions" (JArr items)
               | _ => Ok data
               end);
  now ← time_time;
  data ← lift (Py.setitem data "last_updated" now);
  write_sessions data.

(** A run of [add_session] calls, one after the other. *)
Definition add_sessions (calls : list json) : M unit :=
  for_each calls (fun session_data => _ ← add_session session_data; mret tt).

(** The session records that the registry file holds. *)
Definition sessions_of (w : world) : list json :=
  match fst (read_sessions w) with
  | Ok (JObj d) =>
      match Py.dict_get "sessions" d with
      | Some (JArr records) => records
      | _ => []
      end
  | _ => []
  end.

(** The identifier of a session record, when it is text. *)
Definition sid_of (record : json) : option string :=
  match record with
  | JObj d =>
      match Py.dict_get "session_id" d with
      | Some (JStr s) => Some s
      | _ => None
      end
  | _ => None
  end.

Definition has_sid (s : string) (record : json) : bool :=
  match sid_of record with
  | Some s' => String.eqb s' s
  | None => false
  end.

(** The argument of the last call made with the identifier [s]. *)
Definition last_call (s : string) (calls : list json) : option json :=
  List.find (has_sid s) (rev calls).

(** A registry document with the given records and time stamp. *)
Definition registry_doc (records : list json) (stamp : json) : json :=
  JObj [("sessions", JArr records); ("last_updated", stamp)].

(** The registry file holds a document of that shape, whose records have
    textual identifiers. *)
Definition holds_records (w : world) (records : list json) : Prop :=
  (exists stamp, fst (read_sessions w) = Ok (registry_doc records stamp)) /\
  Forall (fun r => is_Some (sid_of r)) records.

(** What one call does to the list of records. *)
Definition upsert (records : list json) (session_data : json) : list json :=
  match sid_of session_data with
  | Some s => (List.filter (fun r => negb (has_sid s r)) records ++ [session_data])%list
  | None => records
  end.

(** What [update_session] does to the list of records: the first record
    with the identifier [s] takes the updates. *)
Fixpoint patch_first (s : string) (updates : dict) (records : list json) : list json :=
  match records with
  | [] => []
  | r :: rest =>
      if has_sid s r then
        match r with
        | JObj d => JObj (Py.dict_update updates d) :: rest
        | _ => r :: rest
        end
      else r :: patch_first s updates rest
  end.

End HookUtils.

(** ** session_settings.py *)

Module SessionSettings.

(** The file name of a session under [SETTINGS_DIR], without [.json]. *)
Definition get_settings_path (session_id : json) : string := Py.str session_id.

(** A session identifier that is a plain file name: text that is not
    empty, of at most 250 bytes, without [/] and without the null byte.
    With [.json] after it, it names a file of [SETTINGS_DIR]. *)
Fixpoint no_separator (s : string) : bool :=
  match s with
  | EmptyString => true
  | String c s' =>
      negb (N_of_ascii c =? 47)%N && negb (N_of_ascii c =? 0)%N && no_separator s'
  end.

Definition plain_name (session_id : json) : bool :=
  match session_id with
  | JStr EmptyString => false
  | JStr s => no_separator s && (String.length s <=? 250)%nat
  | _ => false
  end.

(** The file that the path of a session leads to. For an identifier that
    is not a plain file name the answer depends on the directories that
    exist; [open] fails when the answer is an error. *)
Definition resolve (w : world) (session_id : json) : res slot :=
  if plain_name session_id then Ok (InSettingsDir (get_settings_path session_id))
  else elsewhere w session_id.

(** The file at the path of a session, when [settings_path.exists()]. *)
Definition file_of (w : world) (session_id : json) : option text :=
  match resolve w session_id with
  | Ok place => read_slot w place
  | Raise _ => None
  end.

Definition get_default_settings (session_id : json) : M json :=
  created_at ← utcnow_isoformat_Z;
  mret (JObj [
    ("session_id", session_id);
    ("created_at", created_at);
    ("hooks_enabled", JObj [
       ("stop-hook", JBool true);
       ("notification-hook", JBool true);
       ("session-start", JBool true);
       ("session-end", JBool true)]);
    ("metadata", JObj [("approval_mode", JStr "ai")])]).

(** [save_settings] stamps the dictionary that it is given; the result is
    that dictionary as the caller sees it after the call. *)
Definition save_settings (session_id : json) (settings_dict : json) : M json :=
  if negb (Py.truthy session_id) then mret settings_dict
  else
    updated_at ← utcnow_isoformat_Z;
    settings_dict ← lift (Py.setitem settings_dict "updated_at" updated_at);
    w ← get_state;
    place ← lift (resolve w session_id);
    _ ← modify (write_slot place (Document settings_dict));
    mret settings_dict.

Definition load_settings (session_id : json) : M json :=
  if negb (Py.truthy session_id) then get_default_settings (JStr "unknown")
  else
    w ← get_state;
    match file_of w session_id with
    | Some f =>
        try_except (lift (json_load f)) is_JSONDecodeError_or_IOError
          (fun _ => get_default_settings session_id)
    | None =>
        default_settings ← get_default_settings session_id;
        save_settings session_id default_settings
    end.

Definition is_hook_enabled (session_id : json) (hook_name : string) : M json :=
  settings_dict ← load_settings session_id;
  hooks_enabled ← lift (Py.get settings_dict "hooks_enabled" (JObj []));
  lift (Py.get hooks_enabled hook_name (JBool true)).

Definition get_metadata (session_id : json) (key : string) (dflt : json) : M json :=
  settings_dict ← load_settings session_id;
  metadata ← lift (Py.get settings_dict "metadata" (JObj []));
  lift (Py.get metadata key dflt).

(** [settings[outer][key] = value], after [settings[outer] = {}] when the
    key [outer] is not in the settings: the inner dict is the one that the
    settings hold, so the settings change with it. *)
Definition set_nested (settings_dict : json) (outer key : string) (value : json)
  : res json :=
  present ← Py.has outer settings_dict;
  settings_dict ←
    (if (present : bool) then Ok settings_dict
     else Py.setitem settings_dict outer (JObj []));
  inner ← Py.getitem settings_dict outer;
  inner ← Py.setitem inner key value;
  Py.setitem settings_dict outer inner.

Definition set_hook_enabled (session_id : json) (hook_name : string) (enabled : bool)
  : M unit :=
  settings_dict ← load_settings session_id;
  settings_dict ← lift (set_nested settings_dict "hooks_enabled" hook_name (JBool enabled));
  _ ← save_settings session_id settings_dict;
  mret tt.

Definition set_metadata (session_id : json) (key : string) (value : json) : M unit :=
  settings_dict ← load_settings session_id;
  settings_dict ← lift (set_nested settings_dict "metadata" key value);
  _ ← save_settings session_id settings_dict;
  mret tt.

Definition clear_settings (session_id : json) : M unit :=
  if negb (Py.truthy session_id) then mret tt
  else
    w ← get_state;
    _ ← (match resolve w session_id with
         | Ok place => modify (delete_slot place)
         | Raise _ => mret tt
         end);
    default_settings ← get_default_settings session_id;
    _ ← save_settings session_id default_settings;
    mret tt.

(** A settings document under whose key [outer] a value can be set: it is
    a dict, and what it holds under [outer], if anything, is a dict. *)
Definition nests (outer : string) (settings_dict : json) : Prop :=
  exists d, settings_dict = JObj d /\
    (Py.dict_get outer d = None \/ exists m, Py.dict_get outer d = Some (JObj m)).

(** The approval mode and a hook flag recorded in a settings document. *)
Definition approval_mode_in (doc : json) : option json :=
  match doc with
  | JObj d =>
      match Py.dict_get "metadata" d with
      | Some (JObj m) => Py.dict_get "approval_mode" m
      | _ => None
      end
  | _ => None
  end.




(** The document that [load_settings] writes for a session without one:
    the defaults, stamped by [save_settings]. *)
Definition fresh_settings (session_id : json) (w : world) : json :=
  JObj [
    ("session_id", session_id);
    ("created_at", JStr (clock_iso w (ticks w) ++ "Z"));
    ("hooks_enabled", JObj [
       ("stop-hook", JBool true);
       ("notification-hook", JBool true);
       ("session-start", JBool true);
       ("session-end", JBool true)]);
    ("metadata", JObj [("approval_mode", JStr "ai")]);
    ("updated_at", JStr (clock_iso w (S (ticks w)) ++ "Z"))].

End SessionSettings.

(** ** stop-hook.py *)

Module StopHook.

Definition rejection_phrase : string := "doesn't want to proceed".

(** The local variables of [parse_latest_todos]. *)
Record locals : Type := Locals {
  todos : json;
  rejected_tool_ids : list json
}.

(** [rejected_tool_ids.add(v)] *)
Definition rejected_add (v : json) : ST locals unit := fun l =>
  if Py.hashable v then
    (Ok tt, Locals (todos l)
              (if Py.mem v (rejected_tool_ids l) then rejected_tool_ids l
               else (rejected_tool_ids l ++ [v])%list))
  else (Raise (Py.unhashable v), l).

(** [v not in rejected_tool_ids] *)
Definition not_rejected (v : json) : ST locals bool := fun l =>
  if Py.hashable v then (Ok (negb (Py.mem v (rejected_tool_ids l))), l)
  else (Raise (Py.unhashable v), l).

Definition set_todos (v : json) : ST locals unit :=
  modify (fun l => Locals v (rejected_tool_ids l)).

(** The body of the inner loop of the first pass. *)
Definition collect_rejection (item : json) : ST locals unit :=
  if Py.is_dict item then
    type ← lift (Py.get item "type" JNull);
    if Py.eq type (JStr "tool_result") then
      error ← lift (Py.get item "content" JNull);
      tool_use_id ← lift (Py.get item "tool_use_id" JNull);
      if Py.truthy error && Py.contains rejection_phrase (Py.str error)
         && Py.truthy tool_use_id
      then rejected_add tool_use_id
      else mret tt
    else mret tt
  else mret tt.

(** The body of the inner loop of the second pass. *)
Definition take_todo_write (item : json) : ST locals unit :=
  if Py.is_dict item then
    type ← lift (Py.get item "type" JNull);
    if Py.eq type (JStr "tool_use") then
      name ← lift (Py.get item "name" JNull);
      if Py.eq name (JStr "TodoWrite") then
        tool_id ← lift (Py.get item "id" JNull);
        accepted ← not_rejected tool_id;
        if (accepted : bool) then
          input_data ← lift (Py.get item "input" (JObj []));
          extracted ← lift (Py.get input_data "todos" JNull);
          match extracted with
          | JNull => mret tt
          | _ => set_todos extracted
          end
        else mret tt
      else mret tt
    else mret tt
  else mret tt.

(** One line of a pass: a line that is not JSON is skipped. *)
Definition scan_line (body : json -> ST locals unit) (line : text) : ST locals unit :=
  try_except
    (entry ← lift (json_load line);
     message ← lift (Py.get entry "message" (JObj []));
     content ← lift (Py.get message "content" (JArr []));
     items ← lift (Py.iter content);
     for_each items body)
    is_JSONDecodeError
    (fun _ => mret tt).

(** One pass over the lines of the transcript. *)
Definition scan (body : json -> ST locals unit) (lines : list text) : ST locals unit :=
  for_each lines (scan_line body).

(** [transcript] is [None] when the path does not exist; the result is
    [JNull] for Python's [None]. *)
Definition parse_latest_todos (transcript : option (list text)) : json :=
  match transcript with
  | None => JNull
  | Some lines =>
      let body :=
        try_except
          (_ ← scan collect_rejection lines;
           scan take_todo_write lines)
          any_exception
          (fun _ => mret tt) in
      todos (snd (body (Locals JNull [])))
  end.

(** [[t for t in items if t.get("status") in ["pending", "in_progress"]]] *)
Fixpoint incomplete (items : list json) : res (list json) :=
  match items with
  | [] => Ok []
  | t :: rest =>
      status ← Py.get t "status" JNull;
      rest' ← incomplete rest;
      Ok (if Py.mem status [JStr "pending"; JStr "in_progress"]
          then t :: rest' else rest')
  end.

Definition get_pending_todos (todos : json) : res (list json) :=
  if negb (Py.truthy todos) then Ok []
  else
    items ← Py.iter todos;
    incomplete items.

(** The loop of [extract_todos_from_transcript_entry]: the first
    TodoWrite call whose [todos] are not empty. *)
Fixpoint first_todos (items : list json) : res json :=
  match items with
  | [] => Ok JNull
  | item :: rest =>
      if Py.is_dict item then
        type ← Py.get item "type" JNull;
        if Py.eq type (JStr "tool_use") then
          name ← Py.get item "name" JNull;
          if Py.eq name (JStr "TodoWrite") then
            input_data ← Py.get item "input" (JObj []);
            found ← Py.get input_data "todos" JNull;
            if Py.truthy found then Ok found else first_todos rest
          else first_todos rest
        else first_todos rest
      else first_todos rest
  end.

Definition extract_todos_from_transcript_entry (entry : json) : res json :=
  message ← Py.get entry "message" (JObj []);
  content ← Py.get message "content" (JArr []);
  items ← Py.iter content;
  first_todos items.

Definition is_todo_write_tool_call (entry : json) : res bool :=
  found ← extract_todos_from_transcript_entry entry;
  Ok (match found with JNull => false | _ => true end).

Definition extract_todos_from_entry (entry : json) : res json :=
  extract_todos_from_transcript_entry entry.

(** [[f"- {t.get('content', 'Unknown task')}" for t in shown]] *)
Fixpoint task_lines (shown : list json) : res (list string) :=
  match shown with
  | [] => Ok []
  | t :: rest =>
      content ← Py.get t "content" (JStr "Unknown task");
      lines ← task_lines rest;
      Ok (("- " ++ Py.str content) :: lines)
  end.

Definition block_header : string :=
  "<system>This is an automated message. The todo list is still full. Please continue. If in the very rare circumstance user must respond, then clear the todo list and wait</system>".

Definition create_block_decision (pending_todos : list json) (max_display : Z)
  : res json :=
  lines ← task_lines (Py.slice_to max_display pending_todos);
  let pending_list := Py.join Py.newline lines in
  let reason :=
    block_header ++ Py.newline ++ Py.newline ++
    pretty (length pending_todos) ++ " incomplete tasks remaining:" ++ Py.newline ++
    pending_list in
  Ok (JObj [("decision", JStr "block"); ("reason", JStr reason)]).

Definition update_session_activity (session_id : json) : M unit :=
  now ← time_time;
  let updates := [("last_activity", now); ("status", JStr "running")] in
  _ ← HookUtils.update_session session_id updates;
  mret tt.

Definition should_skip_hook (stop_hook_active : bool) : bool := stop_hook_active.

(** [main] returns what it prints on the standard output, if anything.
    [transcript_at] is what the file system makes of the value of
    [transcript_path]: the lines of the file, [None] when no file can be
    read there, an exception when the value is not a path. *)
Definition main (transcript_at : json -> res (option (list text))) (stdin : text)
  : M (option json) :=
  try_except
    (input_data ← lift (json_load stdin);
     session_id ← lift (Py.get input_data "session_id" JNull);
     transcript_path ← lift (Py.get input_data "transcript_path" (JStr EmptyString));
     enabled ← SessionSettings.is_hook_enabled session_id "stop-hook";
     if negb (Py.truthy enabled) then mret None
     else
       let stop_hook_active := false in
       if should_skip_hook stop_hook_active then mret None
       else
         transcript ← lift (transcript_at transcript_path);
         let latest := parse_latest_todos transcript in
         pending_todos ← lift (get_pending_todos latest);
         match pending_todos with
         | _ :: _ =>
             output ← lift (create_block_decision pending_todos 5);
             mret (Some output)
         | [] =>
             if Py.truthy session_id then
               _ ← update_session_activity session_id;
               mret None
             else mret None
         end)
    any_exception
    (fun _ => mret None).

(** *** The transcript, in the words of the specification *)

(** A line that holds a record whose message has content blocks. *)
Definition holds_blocks (line : text) (blocks : list json) : Prop :=
  exists e m,
    line = Document (JObj e) /\
    Py.dict_get "message" e = Some (JObj m) /\
    Py.dict_get "content" m = Some (JArr blocks).

(** A tool invocation named TodoWrite with identifier [id]. *)
Definition todo_write_call (id : json) (block : json) : Prop :=
  exists b,
    block = JObj b /\
    Py.dict_get "type" b = Some (JStr "tool_use") /\
    Py.dict_get "name" b = Some (JStr "TodoWrite") /\
    Py.dict_get "id" b = Some id.

(** A tool result for the call [id] that reports the rejection: its
    content is not empty and [str(content)], the text itself when the
    content is text, has the rejection phrase. *)
Definition rejection_of (id : json) (block : json) : Prop :=
  exists b content,
    block = JObj b /\
    Py.dict_get "type" b = Some (JStr "tool_result") /\
    Py.dict_get "tool_use_id" b = Some id /\
    Py.dict_get "content" b = Some content /\
    Py.truthy content = true /\
    Py.contains rejection_phrase (Py.str content) = true.

(** A tool invocation named TodoWrite, with or without an identifier. *)
Definition todo_write (block : json) : Prop :=
  exists b,
    block = JObj b /\
    Py.dict_get "type" b = Some (JStr "tool_use") /\
    Py.dict_get "name" b = Some (JStr "TodoWrite").

(** The [todos] payload of a call. *)
Definition carries_todos (block payload : json) : Prop :=
  exists b i,
    block = JObj b /\
    Py.dict_get "input" b = Some (JObj i) /\
    Py.dict_get "todos" i = Some payload.

(** A tool result that makes the call [id] a rejected one: its content,
    as text, has the rejection phrase and its identifier equals [id]. *)
Definition rejects (id : json) (block : json) : Prop :=
  exists b error tool_use_id,
    block = JObj b /\
    Py.dict_get "type" b = Some (JStr "tool_result") /\
    Py.dict_get "content" b = Some error /\
    Py.truthy error = true /\
    Py.contains rejection_phrase (Py.str error) = true /\
    Py.dict_get "tool_use_id" b = Some tool_use_id /\
    Py.truthy tool_use_id = true /\
    Py.eq tool_use_id id = true.

(** The shape of a transcript, as the docstring of
    [extract_todos_from_transcript_entry] draws it: a line that parses is a
    record; its [message], when it has one, is a record; the [content] of
    the message, when it has one, is a list of blocks or text; in a block
    that is a record the identifiers are scalars and the [input], when
    there is one, is a record. *)
Definition wf_block (block : json) : bool :=
  match block with
  | JObj b =>
      Py.hashable (default JNull (Py.dict_get "tool_use_id" b)) &&
      Py.hashable (default JNull (Py.dict_get "id" b)) &&
      Py.is_dict (default (JObj []) (Py.dict_get "input" b))
  | _ => true
  end.

Definition wf_line (line : text) : bool :=
  match line with
  | Unreadable e => is_JSONDecodeError e
  | Document (JObj e) =>
      match Py.dict_get "message" e with
      | None => true
      | Some (JObj m) =>
          match Py.dict_get "content" m with
          | None => true
          | Some (JArr blocks) => forallb wf_block blocks
          | Some (JStr _) => true
          | Some _ => false
          end
      | Some _ => false
      end
  | Document _ => false
  end.

Definition well_formed (lines : list text) : bool := forallb wf_line lines.

(** The identifier [x] is among the rejected ones. *)
Definition rejected (x : string) (l : locals) : Prop :=
  Py.mem (JStr x) (rejected_tool_ids l) = true.

(** The identifier [id] is not among the rejected ones. *)
Definition accepted (id : json) (l : locals) : Prop :=
  Py.mem id (rejected_tool_ids l) = false.

(** A todo whose status is the text [pending] or [in_progress]. *)
Definition unfinished (todo : json) : bool :=
  match todo with
  | JObj d =>
      match Py.dict_get "status" d with
      | Some (JStr status) => String.eqb status "pending" || String.eqb status "in_progress"
      | _ => false
      end
  | _ => false
  end.

(** The decision that [main] prints to keep the agent going. *)
Definition block_decision (out : json) : Prop :=
  exists reason, out = JObj [("decision", JStr "block"); ("reason", JStr reason)].

(** The fields of the event that [main] reads. *)
Definition event_session (ev : dict) : json := default JNull (Py.dict_get "session_id" ev).
Definition event_transcript (ev : dict) : json :=
  default (JStr EmptyString) (Py.dict_get "transcript_path" ev).

End StopHook.

(** ** notification-hook.py *)

Module NotificationHook.

(** [v.lower()]: only text has the method. *)
Definition lower_of (v : json) : res string :=
  match v with
  | JStr s => Ok (Py.lower s)
  | _ => Raise (AttributeError
           ("'" ++ Py.type_name v ++ "' object has no attribute 'lower'"))
  end.

(** The status that [main] derives from the message. *)
Definition status_of (message : json) : res string :=
  lowered ← lower_of message;
  if Py.contains "permission" lowered then Ok "needs_permission"
  else if Py.contains "waiting for your input" lowered || Py.contains "idle" lowered
  then Ok "waiting_for_input"
  else Ok "running".

Definition main (stdin : text) : M unit :=
  try_except
    (input_data ← lift (json_load stdin);
     session_id ← lift (Py.get input_data "session_id" JNull);
     message ← lift (Py.get input_data "message" (JStr EmptyString));
     if negb (Py.truthy session_id) then mret tt
     else
       status ← lift (status_of message);
       now ← time_time;
       let updates := [("status", JStr status);
                       ("last_activity", now);
                       ("last_notification", message)] in
       _ ← HookUtils.update_session session_id updates;
       mret tt)
    any_exception
    (fun _ => mret tt).

(** *** The status, in the words of the specification *)

(** The message contains the keyword, whatever the case of its letters. *)
Definition mentions (keyword message : string) : Prop :=
  Words.has_word keyword message.

Definition status_in_words (message status : string) : Prop :=
  (mentions "permission" message /\ status = "needs_permission") \/
  (~ mentions "permission" message /\
   (mentions "waiting for your input" message \/ mentions "idle" message) /\
   status = "waiting_for_input") \/
  (~ mentions "permission" message /\
   ~ mentions "waiting for your input" message /\
   ~ mentions "idle" message /\
   status = "running").

(** The updates that [main] passes to [update_session]. *)
Definition updates_for (status : string) (now : Z) (message : string) : dict :=
  [("status", JStr status); ("last_activity", JInt now);
   ("last_notification", JStr message)].

End NotificationHook.

(** ** approval-hook.py *)

Module ApprovalHook.

Definition core_claude_tools : list json :=
  [JStr "TodoWrite"; JStr "Task"; JStr "Skill"; JStr "SlashCommand";
   JStr "AskUserQuestion"; JStr "ExitPlanMode"].

Definition safe_temp_dirs : list string := ["/tmp/"; "/var/tmp/"; "/private/tmp/"].

(** [v.startswith(p)]: only text has the method. *)
Definition startswith_of (v : json) (p : string) : res bool :=
  match v with
  | JStr s => Ok (Py.startswith s p)
  | _ => Raise (AttributeError
           ("'" ++ Py.type_name v ++ "' object has no attribute 'startswith'"))
  end.

(** [any(file_path.startswith(temp_dir) for temp_dir in dirs)] *)
Fixpoint any_startswith (file_path : json) (dirs : list string) : res bool :=
  match dirs with
  | [] => Ok false
  | temp_dir :: rest =>
      b ← startswith_of file_path temp_dir;
      if (b : bool) then Ok true else any_startswith file_path rest
  end.

Definition is_safe_operation (tool_name tool_input cwd : json) : res (bool * string) :=
  let requires_review := Ok (false, "Operation requires review") in
  if Py.eq tool_name (JStr "Read") then
    Ok (true, "Read operation - safe (read-only)")
  else if Py.eq tool_name (JStr "Grep") then
    Ok (true, "Grep operation - safe (read-only)")
  else if Py.eq tool_name (JStr "Glob") then
    Ok (true, "Glob operation - safe (read-only)")
  else if Py.mem tool_name core_claude_tools then
    Ok (true, Py.str tool_name ++ " - core Claude Code tool (safe)")
  else if Py.mem tool_name [JStr "Write"; JStr "Edit"] then
    file_path ← Py.get tool_input "file_path" (JStr EmptyString);
    in_temp ← any_startswith file_path safe_temp_dirs;
    if (in_temp : bool) then
      Ok (true, "Write to temporary directory - safe (" ++ Py.str file_path ++ ")")
    else requires_review
  else requires_review.

(** [client.chat(messages)] with the client and the prompt built from the
    three arguments: the request goes to the Judge. *)
Definition chat (tool_name tool_input cwd : json) : M string := fun w =>
  (grok w tool_name tool_input cwd,
   set_judged (judged w ++ [(tool_name, tool_input, cwd)])%list w).

Definition judge_with_grok (tool_name tool_input cwd : json) : M string :=
  try_except
    (response ← chat tool_name tool_input cwd;
     let response := Py.upper (Py.strip response) in
     if Py.mem (JStr response) [JStr "ALLOW"; JStr "DENY"; JStr "ASK"] then
       mret (Py.lower response)
     else mret "ask")
    any_exception
    (fun _ => mret "ask").

(** The object that the hook prints. *)
Definition output (decision reason : string) : json :=
  JObj [("hookSpecificOutput", JObj [
    ("hookEventName", JStr "PreToolUse");
    ("permissionDecision", JStr decision);
    ("permissionDecisionReason", JStr reason)])].

(** The part of [main] that follows the reading of the approval mode:
    the chain of tests on the mode, each branch printing its object. *)
Definition decide (approval_mode tool_name tool_input cwd : json) : M (option json) :=
  if Py.eq approval_mode (JStr "disabled") then mret None
  else if Py.eq approval_mode (JStr "strict") then
    mret (Some (output "ask"
      "Strict mode: Manual approval required for all operations"))
  else if Py.eq approval_mode (JStr "auto") then
    mret (Some (output "allow" "Auto mode: Bypassing all permission checks"))
  else if Py.eq approval_mode (JStr "ai") then
    '(is_safe, reason) ← lift (is_safe_operation tool_name tool_input cwd);
    if (is_safe : bool) then
      mret (Some (output "allow" ("AI mode: " ++ reason ++ " (bypassing Grok)")))
    else
      decision ← judge_with_grok tool_name tool_input cwd;
      let reasons := [
        ("allow", "Grok judged this " ++ Py.str tool_name
                    ++ " operation as safe - auto-approved");
        ("deny", "Grok judged this " ++ Py.str tool_name
                    ++ " operation as dangerous - blocked");
        ("ask", "Grok needs user input to judge this " ++ Py.str tool_name
                    ++ " operation")] in
      mret (Some (output decision
        (default "Unknown"
           (snd <$> find (fun kv => String.eqb (fst kv) decision) reasons))))
  else
    mret (Some (output "ask"
      ("Unknown approval mode '" ++ Py.str approval_mode ++ "' - defaulting to ask"))).

(** [main] returns what it prints on the standard output, if anything. *)
Definition main (stdin : text) : M (option json) :=
  try_except
    (input_data ← lift (json_load stdin);
     session_id ← lift (Py.get input_data "session_id" JNull);
     tool_name ← lift (Py.get input_data "tool_name" JNull);
     tool_input ← lift (Py.get input_data "tool_input" (JObj []));
     cwd ← lift (Py.get input_data "cwd" (JStr EmptyString));
     approval_mode ← SessionSettings.get_metadata session_id "approval_mode" (JStr "ai");
     decide approval_mode tool_name tool_input cwd)
    any_exception
    (fun e => mret (Some (output "ask"
       ("Hook error: " ++ exn_str e ++ " - defaulting to ask")))).

(** Reading the printed object back. *)
Definition field (k : string) (out : option json) : option json :=
  match out with
  | Some (JObj d) =>
      match Py.dict_get "hookSpecificOutput" d with
      | Some (JObj h) => Py.dict_get k h
      | _ => None
      end
  | _ => None
  end.

Definition permissionDecision (out : option json) : option json :=
  field "permissionDecision" out.

Definition permissionDecisionReason (out : option json) : option json :=
  field "permissionDecisionReason" out.

(** What [main] reads from the event [d]. *)
Definition event_session (d : dict) : json :=
  default JNull (Py.dict_get "session_id" d).
Definition event_tool_name (d : dict) : json :=
  default JNull (Py.dict_get "tool_name" d).
Definition event_tool_input (d : dict) : json :=
  default (JObj []) (Py.dict_get "tool_input" d).
Definition event_cwd (d : dict) : json :=
  default (JStr EmptyString) (Py.dict_get "cwd" d).

(** The approval mode of the session of an event, as [main] obtains it. *)
Definition session_mode (d : dict) : M json :=
  SessionSettings.get_metadata (event_session d) "approval_mode" (JStr "ai").

(** The decision and the reason in the outcome of a run of [main]. *)
Definition decision_of (r : res (option json) * world) : option json :=
  match fst r with
  | Ok out => permissionDecision out
  | Raise _ => None
  end.

Definition reason_of (r : res (option json) * world) : option json :=
  match fst r with
  | Ok out => permissionDecisionReason out
  | Raise _ => None
  end.


End ApprovalHook.

(** ** session-start.py *)

Module SessionStart.

Definition main (stdin : text) : M unit :=
  try_except
    (input_data ← lift (json_load stdin);
     session_id ← lift (Py.get input_data "session_id" JNull);
     if negb (Py.truthy session_id) then mret tt
     else
       _ ← SessionSettings.load_settings session_id;
       cwd ← lift (Py.get input_data "cwd" (JStr EmptyString));
       transcript_path ← lift (Py.get input_data "transcript_path" (JStr EmptyString));
       permission_mode ← lift (Py.get input_data "permission_mode" (JStr "default"));
       started_at ← time_time;
       last_activity ← time_time;
       let session_data := JObj [
         ("session_id", session_id);
         ("cwd", cwd);
         ("transcript_path", transcript_path);
         ("permission_mode", permission_mode);
         ("status", JStr "running");
         ("started_at", started_at);
         ("last_activity", last_activity)] in
       _ ← HookUtils.add_session session_data;
       mret tt)
    any_exception
    (fun _ => mret tt).

(** The record that [main] registers for an event, from the two readings
    of the clock. *)
Definition session_record (ev : dict) (started_at last_activity : Z) : json :=
  JObj [
    ("session_id", default JNull (Py.dict_get "session_id" ev));
    ("cwd", default (JStr EmptyString) (Py.dict_get "cwd" ev));
    ("transcript_path", default (JStr EmptyString) (Py.dict_get "transcript_path" ev));
    ("permission_mode", default (JStr "default") (Py.dict_get "permission_mode" ev));
    ("status", JStr "running");
    ("started_at", JInt started_at);
    ("last_activity", JInt last_activity)].

End SessionStart.

(** ** session-end.py *)

Module SessionEnd.

Definition main (stdin : text) : M unit :=
  try_except
    (input_data ← lift (json_load stdin);
     session_id ← lift (Py.get input_data "session_id" JNull);
     if negb (Py.truthy session_id) then mret tt
     else
       _ ← HookUtils.remove_session session_id;
       mret tt)
    any_exception
    (fun _ => mret tt).

End SessionEnd.

(** ** update_session_settings.py *)

Module UpdateSessionSettings.

(** The check mark that starts the lines printed, in UTF-8. *)
Definition check_mark : string :=
  String (ascii_of_N 226) (String (ascii_of_N 156) (String (ascii_of_N 147) EmptyString)).

(** One turn of the loop of [fix_defaults] over the names of the hooks;
    [hooks] is the dict read before the loop. *)
Definition fix_hook (session_id : json) (hooks : json) (hook_name : string)
  : M (list string) :=
  flag ← lift (Py.get hooks hook_name (JBool false));
  if negb (Py.truthy flag) then
    _ ← SessionSettings.set_hook_enabled session_id hook_name true;
    mret [check_mark ++ " Enabled " ++ hook_name]
  else mret [].

Fixpoint fix_hooks (session_id : json) (hooks : json) (hook_names : list string)
  : M (list string) :=
  match hook_names with
  | [] => mret []
  | hook_name :: rest =>
      printed ← fix_hook session_id hooks hook_name;
      printed' ← fix_hooks session_id hooks rest;
      mret (printed ++ printed')%list
  end.

(** The command [fix_defaults]; the result is the lines printed. *)
Definition fix_defaults (session_id : json) : M (list string) :=
  settings_dict ← SessionSettings.load_settings session_id;
  metadata ← lift (Py.get settings_dict "metadata" (JObj []));
  approval_mode ← lift (Py.get metadata "approval_mode" JNull);
  printed ←
    (if negb (Py.truthy approval_mode) || Py.eq approval_mode (JStr "not_set") then
       _ ← SessionSettings.set_metadata session_id "approval_mode" (JStr "ai");
       mret [check_mark ++ " Fixed approval_mode to: ai"]
     else mret []);
  hooks ← lift (Py.get settings_dict "hooks_enabled" (JObj []));
  printed' ← fix_hooks session_id hooks
                ["stop-hook"; "notification-hook"; "session-start"; "session-end"];
  let last_line := (check_mark ++ " Defaults fixed")%string in
  mret (printed ++ printed' ++ [last_line])%list.

(** [main], from [sys.argv]: the exit status and the lines printed on the
    standard output when the command completes. *)
Definition main (argv : list string) : M (Z * list string) :=
  match argv with
  | _ :: session_id :: command :: args =>
      if String.eqb command "set_approval_mode" then
        match args with
        | mode :: _ =>
            _ ← SessionSettings.set_metadata (JStr session_id) "approval_mode" (JStr mode);
            mret (0, [check_mark ++ " Approval mode set to: " ++ mode])
        | [] => mret (1, [])
        end
      else if String.eqb command "set_hook" then
        match args with
        | hook_name :: word :: _ =>
            let enabled :=
              Py.mem (JStr (Py.lower word)) [JStr "true"; JStr "1"; JStr "yes"] in
            _ ← SessionSettings.set_hook_enabled (JStr session_id) hook_name enabled;
            mret (0, [check_mark ++ " " ++ hook_name ++ ": "
                        ++ (if enabled then "enabled" else "disabled")])
        | _ => mret (1, [])
        end
      else if String.eqb command "fix_defaults" then
        printed ← fix_defaults (JStr session_id);
        mret (0, printed)
      else mret (1, [])
  | _ => mret (1, [])
  end.

(** The file at the path of the session holds the record [d]. *)
Definition file_holds (session_id : json) (w : world) (d : dict) : Prop :=
  SessionSettings.file_of w session_id = Some (Document (JObj d)).

(** The flag of a hook in the record [d]. *)
Definition hooks_view (d : dict) (hook_name : string) : option json :=
  match Py.dict_get "hooks_enabled" d with
  | Some (JObj m) => Py.dict_get hook_name m
  | _ => None
  end.

(** The four hooks that [fix_defaults] enables. *)
Definition four_hooks : list string :=
  ["stop-hook"; "notification-hook"; "session-start"; "session-end"].

(** The reads that the hooks make find the defaults in place. *)
Definition defaults_in_place (sid : json) (w : world) : Prop :=
  (exists mode, fst (SessionSettings.get_metadata sid "approval_mode" JNull w) = Ok mode /\
                Py.truthy mode = true /\ mode <> JStr "not_set") /\
  (forall n, In n four_hooks ->
     exists flag, fst (SessionSettings.is_hook_enabled sid n w) = Ok flag /\ Py.truthy flag = true).

(** The words that [set_hook] is to read as a yes: [true], [1] and [yes],
    each letter in either case. *)
Definition says_yes (word : string) : Prop :=
  exists yes, In yes ["true"; "1"; "yes"] /\ Words.spells yes word.

End UpdateSessionSettings.

(** ** llm_utils.py: the retries of [chat] *)

Module LLMUtils.

(** What a call of [chat] leaves behind: the number of requests made and
    the pauses taken, in seconds. *)
Record trace : Type := Trace {
  requests : nat;
  pauses : list Z
}.

(** [self._invoke(payload)] followed by [self._extract_text(response)]:
    [invoke n] is the outcome of the request number [n]. *)
Definition request (invoke : nat -> res string) : ST trace string := fun t =>
  (invoke (requests t), Trace (S (requests t)) (pauses t)).

(** [time.sleep(backoff)] *)
Definition sleep (backoff : Z) : ST trace unit := fun t =>
  (Ok tt, Trace (requests t) (pauses t ++ [backoff])%list).

(** The loop [for attempt in range(7)], from the attempts left to make. *)
Fixpoint attempts (invoke : nat -> res string) (left : list nat) (backoff : Z)
  : ST trace string :=
  match left with
  | [] => mret EmptyString
  | attempt :: rest =>
      fun t =>
        match request invoke t with
        | (Ok text, t') => (Ok text, t')
        | (Raise exc, t') =>
            if Nat.eqb attempt 6 then (Raise exc, t')
            else
              (_ ← sleep backoff;
               attempts invoke rest (Z.min (backoff * 2) 16)) t'
        end
  end.

(** [chat]: [payload] is the outcome of [self._convert_messages]. *)
Definition chat (payload : res unit) (invoke : nat -> res string) : ST trace string :=
  _ ← lift payload;
  attempts invoke (seq 0 7) 1.

End LLMUtils.

(** ** Sample worlds and events *)

Module Sample.

Definition time (n : nat) : Z := 1761000000 + Z.of_nat n.
Definition iso (n : nat) : string :=
  nth n ["2025-10-20T22:40:10.120000"; "2025-10-20T22:40:10.121500";
         "2025-10-20T22:40:11.400000"; "2025-10-20T22:40:12.000000"]
    "2025-10-20T22:41:00.000000".

(** A Judge that cannot be reached. *)
Definition no_judge (tool_name tool_input cwd : json) : res string :=
  Raise (RuntimeError "XAI_API_KEY is required for Grok models.").

(** A Judge that answers with the given text. *)
Definition judge_says (answer : string) (tool_name tool_input cwd : json) : res string :=
  Ok answer.

(** A disk on which [SETTINGS_DIR] has no directory in it: a path that
    goes through [..] to the file of the registry leads there, any other
    path that is not a plain file name leads nowhere. *)
Definition no_such_file (session_id : json) : res slot :=
  if Py.eq session_id (JStr "../claude-sessions") then Ok RegistryFile
  else Raise (OSError ("[Errno 2] No such file or directory: '" ++
                       "/home/max/local/global/session-settings/" ++
                       Py.str session_id ++ ".json'")).

(** Nothing on the disk yet. *)
Definition blank : world := World None ∅ 0 time iso no_judge [] no_such_file.

(** A settings document without the [approval_mode] key. *)
Definition bare_settings : json :=
  JObj [("session_id", JStr "s1"); ("metadata", JObj [("project_name", JStr "demo")])].

Definition with_bare_settings : world :=
  set_settings {[ "s1" := Document bare_settings ]} blank.

(** The line of an assistant message with one TodoWrite call. *)
Definition todo_write_line (id : string) (todo_list : list json) : text :=
  Document (JObj [
    ("type", JStr "assistant");
    ("message", JObj [
       ("role", JStr "assistant");
       ("content", JArr [JObj [
          ("type", JStr "tool_use");
          ("id", JStr id);
          ("name", JStr "TodoWrite");
          ("input", JObj [("todos", JArr todo_list)])]])])]).

(** The same line once the call is taken out of it. *)
Definition emptied_line : text :=
  Document (JObj [
    ("type", JStr "assistant");
    ("message", JObj [
       ("role", JStr "assistant");
       ("content", JArr [])])]).

(** The line of the tool result that reports the rejection of a call. *)
Definition rejection_line (id : string) : text :=
  Document (JObj [
    ("type", JStr "user");
    ("message", JObj [
       ("role", JStr "user");
       ("content", JArr [JObj [
          ("type", JStr "tool_result");
          ("tool_use_id", JStr id);
          ("content", JStr "The user doesn't want to proceed with this tool use.");
          ("is_error", JBool true)]])])]).

(** The same report, with a list of text blocks as its content. *)
Definition rejection_blocks_line (id : string) : text :=
  Document (JObj [
    ("type", JStr "user");
    ("message", JObj [
       ("role", JStr "user");
       ("content", JArr [JObj [
          ("type", JStr "tool_result");
          ("tool_use_id", JStr id);
          ("content", JArr [JObj [
             ("type", JStr "text");
             ("text", JStr "The user doesn't want to proceed with this tool use.")]]);
          ("is_error", JBool true)]])])]).

Definition todo_A : json :=
  JObj [("content", JStr "A"); ("status", JStr "pending")].

(** The line of a TodoWrite call that clears the list and whose
    identifier is a list. *)
Definition odd_clearing_line : text :=
  Document (JObj [
    ("type", JStr "assistant");
    ("message", JObj [
       ("role", JStr "assistant");
       ("content", JArr [JObj [
          ("type", JStr "tool_use");
          ("id", JArr []);
          ("name", JStr "TodoWrite");
          ("input", JObj [("todos", JArr [])])]])])]).

(** A request to read a file, from session [s1]. *)
Definition read_event : dict :=
  [("session_id", JStr "s1"); ("tool_name", JStr "Read");
   ("tool_input", JObj [("file_path", JStr "/etc/hosts")]);
   ("cwd", JStr "/home/max/project")].

(** A request to read a file, from a session whose identifier leads from
    [SETTINGS_DIR] to the file of the registry. *)
Definition registry_path_event : dict :=
  [("session_id", JStr "../claude-sessions"); ("tool_name", JStr "Read");
   ("tool_input", JObj [("file_path", JStr "/etc/hosts")]);
   ("cwd", JStr "/home/max/project")].

(** A request to run a shell command. *)
Definition bash_event : dict :=
  [("session_id", JStr "s1"); ("tool_name", JStr "Bash");
   ("tool_input", JObj [("command", JStr "rm -rf build")]);
   ("cwd", JStr "/home/max/project")].


(** A request to write a file whose path is missing. *)
Definition write_nowhere_event : dict :=
  [("session_id", JStr "s1"); ("tool_name", JStr "Write");
   ("tool_input", JObj [("file_path", JNull); ("content", JStr "x")]);
   ("cwd", JStr "/home/max/project")].

(** The settings of session [s1] with a given approval mode. *)
Definition settings_with_mode (mode : string) : json :=
  JObj [("session_id", JStr "s1");
        ("created_at", JStr "2025-10-20T22:00:00.000000Z");
        ("hooks_enabled", JObj [("stop-hook", JBool true)]);
        ("metadata", JObj [("approval_mode", JStr mode)])].

Definition with_mode (mode : string) : world :=
  set_settings {[ "s1" := Document (settings_with_mode mode) ]} blank.

(** Session [s1] has a settings file that does not parse. *)
Definition with_garbage : world :=
  set_settings {[ "s1" := Garbage ]} blank.

(** Session [s1] has a settings file saved in Latin-1, with a byte that
    is not UTF-8 in it. *)
Definition latin1_file : text :=
  Unreadable (UnicodeDecodeError
    "'utf-8' codec can't decode byte 0xe9 in position 18: invalid continuation byte").

Definition with_latin1 : world :=
  set_settings {[ "s1" := latin1_file ]} blank.

(** The no-break space U+00A0, in UTF-8. *)
Definition nbsp : string :=
  String (ascii_of_N 194) (String (ascii_of_N 160) EmptyString).

(** Session [s1] has settings that another tool wrote: no [metadata]. *)
Definition with_hooks_only : world :=
  set_settings
    {[ "s1" := Document (JObj [("hooks_enabled", JObj [("stop-hook", JBool false)])]) ]}
    blank.

(** Three registrations: session [a], session [b], and [a] again. *)
Definition session (id cwd : string) : json :=
  JObj [("session_id", JStr id); ("cwd", JStr cwd); ("status", JStr "running")].

Definition registrations : list json :=
  [session "a" "/x"; session "b" "/y"; session "a" "/z"].

(** A registry with the sessions [a] and [b]. *)
Definition with_sessions : world :=
  set_registry
    (Some (Document (HookUtils.registry_doc [session "a" "/x"; session "b" "/y"]
                       (JInt 1760999999))))
    blank.

(** A registry file that parses, without the [sessions] key. *)
Definition without_sessions_key : world :=
  set_registry (Some (Document (JObj [("last_updated", JNull)]))) blank.

(** The end of a turn of session [b], and a file system that has the
    transcript of that session and no other file. *)
Definition stop_event : dict :=
  [("session_id", JStr "b");
   ("transcript_path", JStr "/home/max/.claude/projects/demo/b.jsonl")].

Definition transcript_file (lines : list text) (path : json) : res (option (list text)) :=
  match path with
  | JStr p =>
      Ok (if String.eqb p "/home/max/.claude/projects/demo/b.jsonl"
          then Some lines else None)
  | _ => Raise (TypeError "stat: path should be string, bytes, os.PathLike or integer")
  end.

(** The start of session [c]. *)
Definition start_event : dict :=
  [("session_id", JStr "c"); ("cwd", JStr "/home/max/project");
   ("transcript_path", JStr "/home/max/.claude/projects/demo/c.jsonl");
   ("hook_event_name", JStr "SessionStart")].

(** A provider that fails twice and then answers. *)
Definition third_time_lucky (n : nat) : res string :=
  match n with
  | 0%nat | 1%nat => Raise (RuntimeError "Connection error.")
  | _ => Ok "ALLOW"
  end.

(** A notification for session [b]. *)
Definition permission_event : dict :=
  [("session_id", JStr "b");
   ("message", JStr "Claude needs your PERMISSION to use Bash")].

(** A transcript with a first list of one pending task, a line that is not
    JSON, and a second call that clears the list. *)
Definition cleared_transcript : list text :=
  [todo_write_line "toolu_01" [todo_A]; Garbage; todo_write_line "toolu_02" []].

End Sample.

(** * Properties *)

(** ** Python equality against text *)

Lemma eq_JStr_r (v : json) (s : string) : Py.eq v (JStr s) = true <-> v = JStr s.
Proof.
  destruct v; simpl; try (split; [discriminate | congruence]).
  rewrite String.eqb_eq. split; congruence.
Qed.

Lemma eq_JStr_r_false (v : json) (s : string) : Py.eq v (JStr s) = false <-> v <> JStr s.
Proof.
  rewrite <- eq_JStr_r. destruct (Py.eq v (JStr s)); split; congruence.
Qed.

Lemma eq_JStr_l (s : string) (v : json) : Py.eq (JStr s) v = true <-> v = JStr s.
Proof.
  destruct v; simpl; try (split; [discriminate | congruence]).
  rewrite String.eqb_eq. split; congruence.
Qed.

Lemma eq_JStr_l_false (s : string) (v : json) : Py.eq (JStr s) v = false <-> v <> JStr s.
Proof.
  rewrite <- eq_JStr_l. destruct (Py.eq (JStr s) v); split; congruence.
Qed.

Lemma eq_JStr_refl (s : string) : Py.eq (JStr s) (JStr s) = true.
Proof. apply eq_JStr_r. reflexivity. Qed.

(** ** Dictionaries *)

Lemma dict_get_set_eq (k : string) (v : json) (d : dict) :
  Py.dict_get k (Py.dict_set k v d) = Some v.
Proof.
  induction d as [|[k' v'] d IH]; simpl.
  - rewrite String.eqb_refl. reflexivity.
  - destruct (String.eqb k' k) eqn:E; simpl; rewrite E; [reflexivity | exact IH].
Qed.

Lemma dict_get_set_ne (k k' : string) (v : json) (d : dict) :
  k <> k' -> Py.dict_get k' (Py.dict_set k v d) = Py.dict_get k' d.
Proof.
  intros Hne. induction d as [|[k0 v0] d IH]; simpl.
  - apply String.eqb_neq in Hne. rewrite Hne. reflexivity.
  - destruct (String.eqb k0 k) eqn:E; simpl.
    + apply String.eqb_eq in E. subst k0.
      apply String.eqb_neq in Hne. rewrite Hne. reflexivity.
    + destruct (String.eqb k0 k'); [reflexivity | exact IH].
Qed.

(** ** The judging step *)

Section Judge.
Import ApprovalHook.

Lemma judge_with_grok_raise w tool_name tool_input cwd e :
  grok w tool_name tool_input cwd = Raise e ->
  fst (judge_with_grok tool_name tool_input cwd w) = Ok "ask".
Proof.
  intros H. unfold judge_with_grok, try_except, mbind, ST_bind, chat.
  rewrite H. reflexivity.
Qed.

Lemma judge_with_grok_answer w tool_name tool_input cwd r :
  grok w tool_name tool_input cwd = Ok r ->
  fst (judge_with_grok tool_name tool_input cwd w) =
    Ok (let response := Py.upper (Py.strip r) in
        if Py.mem (JStr response) [JStr "ALLOW"; JStr "DENY"; JStr "ASK"]
        then Py.lower response else "ask").
Proof.
  intros H. unfold judge_with_grok, try_except, mbind, ST_bind, chat.
  rewrite H. cbv zeta.
  destruct (Py.mem _ _); reflexivity.
Qed.

(** C3. Whatever the tool name, the tool input and the working directory
    are: when the Judge raises, or answers with text whose stripped
    upper-case form is none of ALLOW, DENY and ASK, the judging step
    returns the decision ask. *)
Theorem judge_fails_to_ask w tool_name tool_input cwd :
  (exists e, grok w tool_name tool_input cwd = Raise e) \/
  (exists r, grok w tool_name tool_input cwd = Ok r /\
             Py.upper (Py.strip r) <> "ALLOW" /\
             Py.upper (Py.strip r) <> "DENY" /\
             Py.upper (Py.strip r) <> "ASK") ->
  fst (judge_with_grok tool_name tool_input cwd w) = Ok "ask".
Proof.
  intros [[e He] | (r & Hr & Hallow & Hdeny & Hask)].
  - eapply judge_with_grok_raise; eassumption.
  - rewrite (judge_with_grok_answer _ _ _ _ _ Hr). cbv zeta.
    unfold Py.mem, existsb.
    rewrite !(proj2 (eq_JStr_l_false _ _)); [reflexivity | congruence ..].
Qed.

End Judge.

(** ** The settings store *)

Section Settings.
Import SessionSettings.

(** *** Paths and slots *)

Lemma plain_name_truthy sid : plain_name sid = true -> Py.truthy sid = true.
Proof. destruct sid as [| ? | ? | [|c s] | ? | ?]; try discriminate. reflexivity. Qed.

Lemma resolve_plain sid w :
  plain_name sid = true -> resolve w sid = Ok (InSettingsDir (get_settings_path sid)).
Proof. intros H. unfold resolve. rewrite H. reflexivity. Qed.

Lemma file_of_plain sid w :
  plain_name sid = true -> file_of w sid = settings w !! get_settings_path sid.
Proof. intros H. unfold file_of. rewrite (resolve_plain sid w H). reflexivity. Qed.

Lemma resolve_elsewhere sid w w' :
  elsewhere w' = elsewhere w -> resolve w' sid = resolve w sid.
Proof. intros H. unfold resolve. rewrite H. reflexivity. Qed.

Lemma elsewhere_write_slot place f w : elsewhere (write_slot place f w) = elsewhere w.
Proof. destruct place; reflexivity. Qed.

Lemma elsewhere_delete_slot place w : elsewhere (delete_slot place w) = elsewhere w.
Proof. destruct place; reflexivity. Qed.

Lemma read_write_slot place f w : read_slot (write_slot place f w) place = Some f.
Proof.
  destruct place; cbn [read_slot write_slot settings registry set_settings set_registry];
    [apply lookup_insert_eq | reflexivity].
Qed.

Lemma read_slot_ticks n place w : read_slot (set_ticks n w) place = read_slot w place.
Proof. destruct place; reflexivity. Qed.

Lemma file_of_ticks n sid w : file_of (set_ticks n w) sid = file_of w sid.
Proof.
  unfold file_of. rewrite (resolve_elsewhere sid w (set_ticks n w) eq_refl).
  destruct (resolve w sid); [apply read_slot_ticks | reflexivity].
Qed.

Lemma file_of_written sid place f w :
  resolve w sid = Ok place -> file_of (write_slot place f w) sid = Some f.
Proof.
  intros H. unfold file_of.
  rewrite (resolve_elsewhere sid w _ (elsewhere_write_slot place f w)), H.
  apply read_write_slot.
Qed.

(** *** [load_settings] and [save_settings], case by case *)

Lemma get_default_settings_eq sid w :
  get_default_settings sid w =
    (Ok (JObj [
       ("session_id", sid);
       ("created_at", JStr (clock_iso w (ticks w) ++ "Z"));
       ("hooks_enabled", JObj [
          ("stop-hook", JBool true);
          ("notification-hook", JBool true);
          ("session-start", JBool true);
          ("session-end", JBool true)]);
       ("metadata", JObj [("approval_mode", JStr "ai")])]),
     set_ticks (S (ticks w)) w).
Proof. reflexivity. Qed.

Lemma load_settings_no_id sid w :
  Py.truthy sid = false ->
  load_settings sid w = get_default_settings (JStr "unknown") w.
Proof. intros H. unfold load_settings. rewrite H. reflexivity. Qed.

Lemma save_settings_at sid d w place :
  Py.truthy sid = true ->
  resolve w sid = Ok place ->
  save_settings sid (JObj d) w =
    let stamped :=
      JObj (Py.dict_set "updated_at" (JStr (clock_iso w (ticks w) ++ "Z")) d) in
    (Ok stamped, write_slot place (Document stamped) (set_ticks (S (ticks w)) w)).
Proof.
  intros Hid Hplace. unfold save_settings. rewrite Hid. cbn [negb].
  unfold mbind, ST_bind, utcnow_isoformat_Z, lift, get_state, modify. cbn [Py.setitem].
  rewrite (resolve_elsewhere sid w (set_ticks (S (ticks w)) w) eq_refl), Hplace.
  reflexivity.
Qed.

Lemma save_settings_fails sid d w e :
  Py.truthy sid = true ->
  resolve w sid = Raise e ->
  save_settings sid (JObj d) w = (Raise e, set_ticks (S (ticks w)) w).
Proof.
  intros Hid Hplace. unfold save_settings. rewrite Hid. cbn [negb].
  unfold mbind, ST_bind, utcnow_isoformat_Z, lift, get_state, modify. cbn [Py.setitem].
  rewrite (resolve_elsewhere sid w (set_ticks (S (ticks w)) w) eq_refl), Hplace.
  reflexivity.
Qed.

Lemma save_settings_dict sid d w :
  plain_name sid = true ->
  save_settings sid (JObj d) w =
    let stamped :=
      JObj (Py.dict_set "updated_at" (JStr (clock_iso w (ticks w) ++ "Z")) d) in
    (Ok stamped,
     set_settings (<[get_settings_path sid := Document stamped]> (settings w))
       (set_ticks (S (ticks w)) w)).
Proof.
  intros Hid.
  exact (save_settings_at sid d w _ (plain_name_truthy sid Hid) (resolve_plain sid w Hid)).
Qed.

Lemma load_settings_found sid w f :
  Py.truthy sid = true ->
  file_of w sid = Some f ->
  load_settings sid w =
    try_except (lift (json_load f)) is_JSONDecodeError_or_IOError
      (fun _ => get_default_settings sid) w.
Proof.
  intros Hid Hfile. unfold load_settings. rewrite Hid. cbn [negb].
  unfold mbind at 1, ST_bind at 1, get_state. rewrite Hfile. reflexivity.
Qed.

Lemma load_settings_reads sid w doc :
  Py.truthy sid = true ->
  file_of w sid = Some (Document doc) ->
  load_settings sid w = (Ok doc, w).
Proof. intros Hid Hfile. rewrite (load_settings_found sid w _ Hid Hfile). reflexivity. Qed.

Lemma load_settings_unreadable sid w e :
  Py.truthy sid = true ->
  file_of w sid = Some (Unreadable e) ->
  load_settings sid w =
    if is_JSONDecodeError_or_IOError e then get_default_settings sid w else (Raise e, w).
Proof.
  intros Hid Hfile. rewrite (load_settings_found sid w _ Hid Hfile).
  unfold try_except, lift, json_load.
  destruct (is_JSONDecodeError_or_IOError e); reflexivity.
Qed.

Lemma load_settings_creates sid w place :
  Py.truthy sid = true ->
  resolve w sid = Ok place ->
  read_slot w place = None ->
  load_settings sid w =
    (Ok (fresh_settings sid w),
     write_slot place (Document (fresh_settings sid w)) (set_ticks (S (S (ticks w))) w)).
Proof.
  intros Hid Hplace Hnone. unfold load_settings. rewrite Hid. cbn [negb].
  unfold mbind at 1, ST_bind at 1, get_state. unfold file_of. rewrite Hplace, Hnone.
  unfold mbind, ST_bind. rewrite get_default_settings_eq.
  erewrite save_settings_at;
    [reflexivity | exact Hid
    | rewrite (resolve_elsewhere sid w (set_ticks (S (ticks w)) w) eq_refl); exact Hplace].
Qed.

Lemma load_settings_nowhere sid w e :
  Py.truthy sid = true ->
  resolve w sid = Raise e ->
  load_settings sid w = (Raise e, set_ticks (S (S (ticks w))) w).
Proof.
  intros Hid Hplace. unfold load_settings. rewrite Hid. cbn [negb].
  unfold mbind at 1, ST_bind at 1, get_state. unfold file_of. rewrite Hplace.
  unfold mbind, ST_bind. rewrite get_default_settings_eq.
  erewrite save_settings_fails;
    [reflexivity | exact Hid
    | rewrite (resolve_elsewhere sid w (set_ticks (S (ticks w)) w) eq_refl); exact Hplace].
Qed.

Lemma load_settings_absent sid w :
  plain_name sid = true ->
  settings w !! get_settings_path sid = None ->
  load_settings sid w =
    (Ok (fresh_settings sid w),
     set_settings (<[get_settings_path sid := Document (fresh_settings sid w)]> (settings w))
       (set_ticks (S (S (ticks w))) w)).
Proof.
  intros Hid Hnone.
  exact (load_settings_creates sid w _ (plain_name_truthy sid Hid) (resolve_plain sid w Hid)
           Hnone).
Qed.

Lemma load_settings_document sid w doc :
  plain_name sid = true ->
  settings w !! get_settings_path sid = Some (Document doc) ->
  load_settings sid w = (Ok doc, w).
Proof.
  intros Hid Hsome. apply load_settings_reads; [apply plain_name_truthy, Hid |].
  rewrite (file_of_plain sid w Hid). exact Hsome.
Qed.

Lemma load_settings_garbage sid w e :
  plain_name sid = true ->
  settings w !! get_settings_path sid = Some (Unreadable e) ->
  is_JSONDecodeError_or_IOError e = true ->
  load_settings sid w = get_default_settings sid w.
Proof.
  intros Hid Hsome He.
  rewrite (load_settings_unreadable sid w e (plain_name_truthy sid Hid)), He; [reflexivity |].
  rewrite (file_of_plain sid w Hid). exact Hsome.
Qed.

(** C8. For a session identifier that is a plain file name and a settings
    dictionary, loading after saving returns a document that agrees with
    the saved dictionary on every field but [updated_at], and whose
    [updated_at] is the reading of the clock taken by the save. *)
Theorem save_then_load (session_id : json) (d : dict) (w : world) :
  plain_name session_id = true ->
  exists loaded,
    fst (load_settings session_id (snd (save_settings session_id (JObj d) w)))
      = Ok (JObj loaded) /\
    (forall k, k <> "updated_at" -> Py.dict_get k loaded = Py.dict_get k d) /\
    Py.dict_get "updated_at" loaded = Some (JStr (clock_iso w (ticks w) ++ "Z")).
Proof.
  intros Hid. rewrite (save_settings_dict _ _ _ Hid). cbv zeta. cbn [snd].
  eexists. split; [| split].
  - erewrite load_settings_document; [reflexivity | exact Hid |].
    cbn [settings set_settings]. apply lookup_insert_eq.
  - intros k Hk. apply dict_get_set_ne. congruence.
  - apply dict_get_set_eq.
Qed.

(** C8 fails as it is written: the identifier is put in the path as it
    is, and with [a/b], where [SETTINGS_DIR] has no directory [a],
    neither the save nor the load can open the file. *)
Lemma save_needs_a_plain_name :
  Py.truthy (JStr "a/b") = true /\
  (exists e, fst (save_settings (JStr "a/b") (JObj [("metadata", JObj [])]) Sample.blank)
               = Raise (OSError e)) /\
  (exists e, fst (load_settings (JStr "a/b")
                    (snd (save_settings (JStr "a/b") (JObj [("metadata", JObj [])])
                            Sample.blank)))
               = Raise (OSError e)) /\
  settings (snd (save_settings (JStr "a/b") (JObj [("metadata", JObj [])]) Sample.blank))
    = settings Sample.blank.
Proof.
  split; [reflexivity |].
  assert (Hnowhere : forall w, elsewhere w = Sample.no_such_file ->
            resolve w (JStr "a/b") = Sample.no_such_file (JStr "a/b")).
  { intros w Hw. unfold resolve. rewrite Hw. reflexivity. }
  rewrite (save_settings_fails (JStr "a/b") _ Sample.blank _ eq_refl
             (Hnowhere Sample.blank eq_refl)).
  cbn [fst snd]. split; [eexists; reflexivity |]. split; [| reflexivity].
  rewrite (load_settings_nowhere (JStr "a/b")
             (set_ticks (S (ticks Sample.blank)) Sample.blank) _ eq_refl
             (Hnowhere (set_ticks (S (ticks Sample.blank)) Sample.blank) eq_refl)).
  eexists. reflexivity.
Qed.




(** What [load_settings] does to the world: it reads the clock, and it
    writes one file when the path of the session leads to none. *)
Lemma load_settings_world sid w :
  snd (load_settings sid w) = w \/
  snd (load_settings sid w) = set_ticks (S (ticks w)) w \/
  snd (load_settings sid w) = set_ticks (S (S (ticks w))) w \/
  (exists place,
     Py.truthy sid = true /\
     resolve w sid = Ok place /\
     read_slot w place = None /\
     snd (load_settings sid w) =
       write_slot place (Document (fresh_settings sid w)) (set_ticks (S (S (ticks w))) w)).
Proof.
  destruct (Py.truthy sid) eqn:Hid.
  - destruct (resolve w sid) as [place|e] eqn:Hplace.
    + destruct (read_slot w place) as [[e|doc]|] eqn:Hfile.
      * assert (Hf : file_of w sid = Some (Unreadable e)).
        { unfold file_of. rewrite Hplace. exact Hfile. }
        rewrite (load_settings_unreadable _ _ _ Hid Hf).
        destruct (is_JSONDecodeError_or_IOError e); [right; left | left]; reflexivity.
      * assert (Hf : file_of w sid = Some (Document doc)).
        { unfold file_of. rewrite Hplace. exact Hfile. }
        left. rewrite (load_settings_reads _ _ _ Hid Hf). reflexivity.
      * right; right; right. exists place.
        rewrite (load_settings_creates _ _ _ Hid Hplace Hfile). auto.
    + right; right; left. rewrite (load_settings_nowhere _ _ _ Hid Hplace). reflexivity.
  - right; left. rewrite (load_settings_no_id _ _ Hid). reflexivity.
Qed.

Lemma load_settings_judged sid w : judged (snd (load_settings sid w)) = judged w.
Proof.
  destruct (load_settings_world sid w) as [-> | [-> | [-> | (place & _ & _ & _ & ->)]]];
    try reflexivity.
  destruct place; reflexivity.
Qed.

Lemma load_settings_oracles sid w :
  grok (snd (load_settings sid w)) = grok w /\
  elsewhere (snd (load_settings sid w)) = elsewhere w /\
  clock_time (snd (load_settings sid w)) = clock_time w.
Proof.
  destruct (load_settings_world sid w) as [-> | [-> | [-> | (place & _ & _ & _ & ->)]]];
    try (repeat split; reflexivity).
  destruct place; repeat split; reflexivity.
Qed.

(** With a plain file name, or without an identifier, the load leaves the
    registry alone. *)
Lemma load_settings_registry sid w :
  Py.truthy sid = false \/ plain_name sid = true ->
  registry (snd (load_settings sid w)) = registry w.
Proof.
  intros Hsid.
  destruct (load_settings_world sid w)
    as [-> | [-> | [-> | (place & Hid & Hplace & _ & ->)]]]; try reflexivity.
  destruct Hsid as [Hno | Hplain]; [congruence |].
  rewrite (resolve_plain sid w Hplain) in Hplace. injection Hplace as <-. reflexivity.
Qed.


Lemma get_metadata_world sid key dflt w :
  snd (get_metadata sid key dflt w) = snd (load_settings sid w).
Proof.
  unfold get_metadata, mbind, ST_bind.
  destruct (load_settings sid w) as [[doc|e] w1]; [| reflexivity].
  unfold lift. destruct (Py.get doc "metadata" (JObj [])); reflexivity.
Qed.



End Settings.

(** ** The decision pipeline *)

Section Pipeline.
Import SessionSettings ApprovalHook.

Lemma startswith_app (p rest : string) : Py.startswith (p ++ rest) p = true.
Proof.
  induction p as [|c p IH]; simpl; [reflexivity |].
  rewrite Ascii.eqb_refl. exact IH.
Qed.

Lemma startswith_inv (s p : string) :
  Py.startswith s p = true -> exists rest, s = p ++ rest.
Proof.
  revert s. induction p as [|c p IH]; intros s H.
  - exists s. reflexivity.
  - destruct s as [|b s]; simpl in H; [discriminate |].
    apply andb_true_iff in H as [Hc Hs]. apply Ascii.eqb_eq in Hc. subst b.
    destruct (IH _ Hs) as [rest ->]. exists rest. reflexivity.
Qed.


Lemma is_safe_operation_write tool_name tool_input cwd :
  In tool_name [JStr "Write"; JStr "Edit"] ->
  is_safe_operation tool_name tool_input cwd =
    (file_path ← Py.get tool_input "file_path" (JStr EmptyString);
     in_temp ← any_startswith file_path safe_temp_dirs;
     if (in_temp : bool) then
       Ok (true, "Write to temporary directory - safe (" ++ Py.str file_path ++ ")")
     else Ok (false, "Operation requires review")).
Proof.
  simpl. intros [<- | [<- | []]]; reflexivity.
Qed.


(** *** [main], mode by mode *)

Lemma main_event d w :
  main (Document (JObj d)) w =
    try_except
      (approval_mode ← session_mode d;
       decide approval_mode (event_tool_name d) (event_tool_input d) (event_cwd d))
      any_exception
      (fun e => mret (Some (output "ask"
         ("Hook error: " ++ exn_str e ++ " - defaulting to ask")))) w.
Proof. reflexivity. Qed.

Lemma main_with_mode d w w' mode :
  session_mode d w = (Ok mode, w') ->
  main (Document (JObj d)) w =
    try_except
      (decide mode (event_tool_name d) (event_tool_input d) (event_cwd d))
      any_exception
      (fun e => mret (Some (output "ask"
         ("Hook error: " ++ exn_str e ++ " - defaulting to ask")))) w'.
Proof.
  intros H. rewrite main_event. unfold try_except, mbind, ST_bind at 1.
  rewrite H. reflexivity.
Qed.

Lemma main_strict d w w' :
  session_mode d w = (Ok (JStr "strict"), w') ->
  main (Document (JObj d)) w =
    (Ok (Some (output "ask" "Strict mode: Manual approval required for all operations")), w').
Proof. intros H. rewrite (main_with_mode _ _ _ _ H). reflexivity. Qed.

Lemma main_auto d w w' :
  session_mode d w = (Ok (JStr "auto"), w') ->
  main (Document (JObj d)) w =
    (Ok (Some (output "allow" "Auto mode: Bypassing all permission checks")), w').
Proof. intros H. rewrite (main_with_mode _ _ _ _ H). reflexivity. Qed.

Lemma main_disabled d w w' :
  session_mode d w = (Ok (JStr "disabled"), w') ->
  main (Document (JObj d)) w = (Ok None, w').
Proof. intros H. rewrite (main_with_mode _ _ _ _ H). reflexivity. Qed.

Lemma main_unknown d w w' mode :
  session_mode d w = (Ok mode, w') ->
  mode <> JStr "ai" -> mode <> JStr "auto" ->
  mode <> JStr "strict" -> mode <> JStr "disabled" ->
  main (Document (JObj d)) w =
    (Ok (Some (output "ask"
       ("Unknown approval mode '" ++ Py.str mode ++ "' - defaulting to ask"))), w').
Proof.
  intros H Hai Hauto Hstrict Hdisabled. rewrite (main_with_mode _ _ _ _ H).
  unfold decide, try_except.
  rewrite !(proj2 (eq_JStr_r_false _ _)) by assumption. reflexivity.
Qed.



(** *** The rules come before the Judge *)


Lemma session_mode_judged d w : judged (snd (session_mode d w)) = judged w.
Proof. unfold session_mode. rewrite get_metadata_world. apply load_settings_judged. Qed.


(** *** What the pipeline leaves on the disk *)

Lemma judge_with_grok_world tool_name tool_input cwd w :
  snd (judge_with_grok tool_name tool_input cwd w) =
    set_judged (judged w ++ [(tool_name, tool_input, cwd)])%list w.
Proof.
  unfold judge_with_grok, try_except, mbind, ST_bind, chat.
  destruct (grok w tool_name tool_input cwd) as [r|e]; [| reflexivity].
  cbv zeta. destruct (Py.mem _ _); reflexivity.
Qed.

Lemma decide_disk mode tool_name tool_input cwd w :
  registry (snd (decide mode tool_name tool_input cwd w)) = registry w /\
  settings (snd (decide mode tool_name tool_input cwd w)) = settings w.
Proof.
  unfold decide.
  destruct (Py.eq mode (JStr "disabled")); [split; reflexivity |].
  destruct (Py.eq mode (JStr "strict")); [split; reflexivity |].
  destruct (Py.eq mode (JStr "auto")); [split; reflexivity |].
  destruct (Py.eq mode (JStr "ai")); [| split; reflexivity].
  unfold mbind, ST_bind, lift.
  destruct (is_safe_operation tool_name tool_input cwd) as [[[|] reason]|e];
    [split; reflexivity | | split; reflexivity].
  pose proof (judge_with_grok_world tool_name tool_input cwd w) as Hw.
  destruct (judge_with_grok tool_name tool_input cwd w) as [[decision|e] w1];
    cbn [snd] in *; subst w1; split; reflexivity.
Qed.

Lemma try_except_any_world {A} (m : M A) (f : exn -> A) w :
  snd (try_except m any_exception (fun e => mret (f e)) w) = snd (m w).
Proof.
  unfold try_except. destruct (m w) as [[a|e] w1]; reflexivity.
Qed.

(** What the load of the settings leaves on the disk, for an identifier
    that is empty or a plain file name. *)
Lemma load_settings_disk sid w :
  Py.truthy sid = false \/ plain_name sid = true ->
  registry (snd (load_settings sid w)) = registry w /\
  (settings (snd (load_settings sid w)) = settings w \/
   (plain_name sid = true /\
    settings w !! SessionSettings.get_settings_path sid = None /\
    settings (snd (load_settings sid w)) =
      <[SessionSettings.get_settings_path sid :=
          Document (SessionSettings.fresh_settings sid w)]> (settings w))).
Proof.
  intros Hsid. split; [apply load_settings_registry, Hsid |].
  destruct (load_settings_world sid w)
    as [-> | [-> | [-> | (place & Hid & Hplace & Hnone & ->)]]];
    try (left; reflexivity).
  destruct Hsid as [Hno | Hplain]; [congruence |].
  rewrite (resolve_plain sid w Hplain) in Hplace. injection Hplace as <-.
  right. split; [exact Hplain |]. split; [exact Hnone | reflexivity].
Qed.

(** C4, as the code has it. For an event whose session identifier is
    empty or a plain file name, and for an input that is not an event,
    the pipeline leaves the registry as it is and every settings
    document that exists as it is; the one change that it can make on
    the disk is to create the settings document of the session of the
    event, with the defaults, when that session has none. *)
Theorem pipeline_disk_effect (stdin : text) (w : world) :
  (forall d, stdin = Document (JObj d) ->
     Py.truthy (event_session d) = false \/
     SessionSettings.plain_name (event_session d) = true) ->
  let w' := snd (main stdin w) in
  registry w' = registry w /\
  (settings w' = settings w \/
   exists d, stdin = Document (JObj d) /\
     SessionSettings.plain_name (event_session d) = true /\
     settings w !! SessionSettings.get_settings_path (event_session d) = None /\
     settings w' =
       <[SessionSettings.get_settings_path (event_session d) :=
           Document (SessionSettings.fresh_settings (event_session d) w)]> (settings w)).
Proof.
  intros Hsid. cbv zeta. destruct stdin as [e|v]; [split; [| left]; reflexivity |].
  destruct v as [| b | n | s | items | d]; try (split; [| left]; reflexivity).
  specialize (Hsid d eq_refl).
  rewrite main_event, try_except_any_world.
  unfold mbind, ST_bind.
  pose proof (get_metadata_world (event_session d) "approval_mode" (JStr "ai") w) as Hw.
  fold (session_mode d) in Hw.
  destruct (load_settings_disk (event_session d) w Hsid) as [Hreg Hset].
  assert (Hgoal : forall w1, w1 = snd (SessionSettings.load_settings (event_session d) w) ->
            registry w1 = registry w /\
            (settings w1 = settings w \/
             exists d0, Document (JObj d) = Document (JObj d0) /\
               SessionSettings.plain_name (event_session d0) = true /\
               settings w !! SessionSettings.get_settings_path (event_session d0) = None /\
               settings w1 =
                 <[SessionSettings.get_settings_path (event_session d0) :=
                     Document (SessionSettings.fresh_settings (event_session d0) w)]>
                   (settings w))).
  { intros w1 ->. split; [exact Hreg |].
    destruct Hset as [Hset | (Hplain & Hnone & Hset)]; [left; exact Hset |].
    right. exists d. auto. }
  destruct (session_mode d w) as [[mode|e] w1]; cbn [snd] in *.
  2: { apply Hgoal, Hw. }
  destruct (decide_disk mode (event_tool_name d) (event_tool_input d) (event_cwd d) w1)
    as [-> ->].
  apply Hgoal, Hw.
Qed.

(** C4 fails as it is written: for a session without a settings file, a
    run of the pipeline on a request to read creates that file. *)
Lemma pipeline_creates_settings :
  let w' := snd (main (Document (JObj Sample.read_event)) Sample.blank) in
  settings Sample.blank !! "s1" = None /\
  settings w' !! "s1" = Some (Document (SessionSettings.fresh_settings (JStr "s1") Sample.blank)) /\
  decision_of (main (Document (JObj Sample.read_event)) Sample.blank) = Some (JStr "allow").
Proof. cbv zeta. split; [| split]; vm_compute; reflexivity. Qed.

(** Outside the plain file names the registry is within reach: with the
    identifier [../claude-sessions] the path of the settings is the path
    of the registry, and on a disk without a registry the pipeline
    creates that file, with the default settings in it. *)
Lemma pipeline_reaches_registry :
  SessionSettings.plain_name (event_session Sample.registry_path_event) = false /\
  registry Sample.blank = None /\
  registry (snd (main (Document (JObj Sample.registry_path_event)) Sample.blank))
    = Some (Document (SessionSettings.fresh_settings (JStr "../claude-sessions")
                        Sample.blank)) /\
  decision_of (main (Document (JObj Sample.registry_path_event)) Sample.blank)
    = Some (JStr "allow").
Proof. split; [| split; [| split]]; vm_compute; reflexivity. Qed.

End Pipeline.


(** ** Loops over a state *)

Section Loops.
Context {S A : Type}.
Implicit Types (body : A -> ST S unit) (P : S -> Prop).

Lemma for_each_cons body x l s :
  for_each (x :: l) body s =
    match body x s with
    | (Ok _, s') => for_each l body s'
    | (Raise e, s') => (Raise e, s')
    end.
Proof. reflexivity. Qed.

Lemma keeps_for_each P body l :
  (forall x, In x l -> keeps P (body x)) -> keeps P (for_each l body).
Proof.
  induction l as [|x l IH]; intros Hbody s r s' Hs Hrun.
  - inversion Hrun. subst. exact Hs.
  - rewrite for_each_cons in Hrun.
    destruct (body x s) as [[u|e] s1] eqn:Hx.
    + apply (IH (fun y Hy => Hbody y (or_intror Hy)) s1 r s'); [| exact Hrun].
      exact (Hbody x (or_introl eq_refl) s _ s1 Hs Hx).
    + inversion Hrun. subst.
      exact (Hbody x (or_introl eq_refl) s _ s' Hs Hx).
Qed.

(** An element on which the body does nothing can be taken out. *)
Lemma for_each_delete P body a x b s :
  P s ->
  (forall y, In y a -> keeps P (body y)) ->
  (forall s1, P s1 -> body x s1 = (Ok tt, s1)) ->
  for_each (a ++ x :: b) body s = for_each (a ++ b) body s.
Proof.
  revert s. induction a as [|y a IH]; intros s Hs Ha Hx.
  - cbn [app]. rewrite for_each_cons, (Hx s Hs). reflexivity.
  - cbn [app]. rewrite !for_each_cons.
    destruct (body y s) as [[u|e] s1] eqn:Hy; [| reflexivity].
    apply IH; [| intros z Hz; apply Ha; right; exact Hz | exact Hx].
    exact (Ha y (or_introl eq_refl) s _ s1 Hs Hy).
Qed.

(** An element can be replaced by one on which the body does the same. *)
Lemma for_each_replace P body a x x' b s :
  P s ->
  (forall y, In y a -> keeps P (body y)) ->
  (forall s1, P s1 -> body x s1 = body x' s1) ->
  for_each (a ++ x :: b) body s = for_each (a ++ x' :: b) body s.
Proof.
  revert s. induction a as [|y a IH]; intros s Hs Ha Hx.
  - cbn [app]. rewrite !for_each_cons, (Hx s Hs). reflexivity.
  - cbn [app]. rewrite !for_each_cons.
    destruct (body y s) as [[u|e] s1] eqn:Hy; [| reflexivity].
    apply IH; [| intros z Hz; apply Ha; right; exact Hz | exact Hx].
    exact (Ha y (or_introl eq_refl) s _ s1 Hs Hy).
Qed.

(** When the loop completes, what one of its elements establishes, and
    every element keeps, holds at the end. *)
Lemma for_each_reaches P body l x s s' :
  for_each l body s = (Ok tt, s') ->
  In x l ->
  (forall y, In y l -> keeps P (body y)) ->
  (forall s1 s2, body x s1 = (Ok tt, s2) -> P s2) ->
  P s'.
Proof.
  revert s. induction l as [|y l IH]; intros s Hrun Hin Hkeep Hx; [destruct Hin |].
  rewrite for_each_cons in Hrun.
  destruct (body y s) as [[[]|e] s1] eqn:Hy; [| discriminate].
  destruct Hin as [-> | Hin].
  - exact (keeps_for_each P body l (fun z Hz => Hkeep z (or_intror Hz))
             s1 (Ok tt) s' (Hx s s1 Hy) Hrun).
  - exact (IH s1 Hrun Hin (fun z Hz => Hkeep z (or_intror Hz)) Hx).
Qed.

Lemma for_each_raises body l s e s' :
  for_each l body s = (Raise e, s') ->
  exists x s1, In x l /\ body x s1 = (Raise e, s').
Proof.
  revert s. induction l as [|x l IH]; intros s Hrun; [discriminate |].
  rewrite for_each_cons in Hrun.
  destruct (body x s) as [[u|e0] s1] eqn:Hx.
  - destruct (IH s1 Hrun) as (y & s2 & Hin & Hy).
    exists y, s2. split; [right; exact Hin | exact Hy].
  - inversion Hrun. subst. exists x, s. split; [left; reflexivity | exact Hx].
Qed.

Lemma keeps_lift P {B} (r : res B) : keeps P (lift r).
Proof. intros s r' s' Hs H. inversion H. subst. exact Hs. Qed.

Lemma keeps_mret P {B} (b : B) : keeps P (mret b).
Proof. intros s r' s' Hs H. inversion H. subst. exact Hs. Qed.

Lemma keeps_bind P {B C} (m : ST S B) (k : B -> ST S C) :
  keeps P m -> (forall b, keeps P (k b)) -> keeps P (m ≫= k).
Proof.
  intros Hm Hk s r s' Hs H. unfold mbind, ST_bind in H.
  destruct (m s) as [[b|e] s1] eqn:Hms.
  - exact (Hk b s1 r s' (Hm s _ s1 Hs Hms) H).
  - inversion H. subst. exact (Hm s _ s' Hs Hms).
Qed.

Lemma keeps_try_except P {B} (m : ST S B) handles (h : exn -> ST S B) :
  keeps P m -> (forall e, keeps P (h e)) -> keeps P (try_except m handles h).
Proof.
  intros Hm Hh s r s' Hs H. unfold try_except in H.
  destruct (m s) as [[b|e] s1] eqn:Hms.
  - inversion H. subst. exact (Hm s _ s' Hs Hms).
  - destruct (handles e).
    + exact (Hh e s1 r s' (Hm s _ s1 Hs Hms) H).
    + inversion H. subst. exact (Hm s _ s' Hs Hms).
Qed.

Lemma for_each_app body a b s :
  for_each (a ++ b) body s =
    match for_each a body s with
    | (Ok _, s') => for_each b body s'
    | (Raise e, s') => (Raise e, s')
    end.
Proof.
  revert s. induction a as [|x a IH]; intros s; [reflexivity |].
  cbn [app]. rewrite !for_each_cons.
  destruct (body x s) as [[u|e] s1]; [apply IH | reflexivity].
Qed.

(** A loop whose body completes on every element, keeping [P], completes. *)
Lemma for_each_completes P body l s :
  (forall x s1, In x l -> P s1 -> exists s2, body x s1 = (Ok tt, s2) /\ P s2) ->
  P s ->
  exists s', for_each l body s = (Ok tt, s') /\ P s'.
Proof.
  revert s. induction l as [|x l IH]; intros s Hbody Hs.
  - exists s. split; [reflexivity | exact Hs].
  - rewrite for_each_cons.
    destruct (Hbody x s (or_introl eq_refl) Hs) as (s1 & -> & Hs1).
    apply IH; [| exact Hs1].
    intros y s2 Hy. apply Hbody. right. exact Hy.
Qed.

Lemma for_each_idle body l s :
  (forall x s1, In x l -> body x s1 = (Ok tt, s1)) ->
  for_each l body s = (Ok tt, s).
Proof.
  intros Hbody.
  destruct (for_each_completes (fun s1 => s1 = s) body l s) as (s' & -> & ->);
    [| reflexivity | reflexivity].
  intros x s1 Hx ->. exists s. split; [apply Hbody, Hx | reflexivity].
Qed.

End Loops.

(** ** The todo scanner *)

Section Scanner.
Import StopHook.

Lemma scan_line_blocks body line blocks s :
  holds_blocks line blocks ->
  scan_line body line s =
    try_except (for_each blocks body) is_JSONDecodeError (fun _ => mret tt) s.
Proof.
  intros (e & m & -> & Hm & Hc).
  unfold scan_line, try_except, mbind at 1 2 3 4, ST_bind, lift, json_load, Py.get.
  rewrite Hm. cbn [default from_option id]. rewrite Hc. reflexivity.
Qed.

Lemma keeps_scan_line (P : locals -> Prop) body line :
  (forall item, keeps P (body item)) -> keeps P (scan_line body line).
Proof.
  intros Hbody. unfold scan_line.
  apply keeps_try_except; [| intros; apply keeps_mret].
  repeat (apply keeps_bind; [apply keeps_lift | intros ?]).
  apply keeps_for_each. intros; apply Hbody.
Qed.

Lemma keeps_scan (P : locals -> Prop) body lines :
  (forall item, keeps P (body item)) -> keeps P (scan body lines).
Proof.
  intros Hbody. apply keeps_for_each. intros; apply keeps_scan_line, Hbody.
Qed.

Lemma mem_app_l v l u : Py.mem v l = true -> Py.mem v (l ++ [u])%list = true.
Proof. unfold Py.mem. rewrite existsb_app. intros ->. reflexivity. Qed.

Lemma mem_app_new x l : Py.mem (JStr x) (l ++ [JStr x])%list = true.
Proof.
  unfold Py.mem. rewrite existsb_app. cbn [existsb].
  rewrite eq_JStr_refl. apply orb_true_iff. right. reflexivity.
Qed.

(** *** First pass *)

Lemma collect_rejection_skips_calls id block s :
  todo_write_call id block -> collect_rejection block s = (Ok tt, s).
Proof.
  intros (b & -> & Hty & _). unfold collect_rejection, mbind, ST_bind, lift, Py.get.
  cbn [Py.is_dict]. rewrite Hty. reflexivity.
Qed.

Lemma rejected_add_keeps x v : keeps (rejected x) (rejected_add v).
Proof.
  intros s r s' Hs H. unfold rejected_add in H.
  destruct (Py.hashable v); inversion H; subst; [| exact Hs].
  unfold rejected. cbn [rejected_tool_ids].
  destruct (Py.mem v (rejected_tool_ids s)); [exact Hs | apply mem_app_l, Hs].
Qed.

Lemma collect_rejection_keeps x item : keeps (rejected x) (collect_rejection item).
Proof.
  unfold collect_rejection.
  destruct (Py.is_dict item); [| apply keeps_mret].
  apply keeps_bind; [apply keeps_lift | intros ty].
  destruct (Py.eq ty (JStr "tool_result")); [| apply keeps_mret].
  apply keeps_bind; [apply keeps_lift | intros error].
  apply keeps_bind; [apply keeps_lift | intros tool_use_id].
  destruct (_ && _); [apply rejected_add_keeps | apply keeps_mret].
Qed.

Lemma contains_nonempty needle c hay :
  Py.contains (String c needle) hay = true -> hay <> EmptyString.
Proof. intros H ->. discriminate. Qed.

Lemma collect_rejection_records x block s :
  x <> EmptyString ->
  rejection_of (JStr x) block ->
  exists s', collect_rejection block s = (Ok tt, s') /\ rejected x s'.
Proof.
  intros Hx (b & content & -> & Hty & Hid & Hcontent & Htext & Hphrase).
  unfold collect_rejection, mbind, ST_bind, lift, Py.get.
  cbn [Py.is_dict]. rewrite Hty, Hcontent, Hid. cbn [default from_option id].
  rewrite eq_JStr_refl. rewrite Hphrase.
  assert (Htid : Py.truthy (JStr x) = true).
  { destruct x; [congruence | reflexivity]. }
  rewrite Htext, Htid. cbn [andb]. unfold rejected_add. cbn [Py.hashable].
  eexists. split; [reflexivity |].
  unfold rejected. cbn [rejected_tool_ids].
  destruct (Py.mem (JStr x) (rejected_tool_ids s)) eqn:Hmem;
    [exact Hmem | apply mem_app_new].
Qed.

Lemma collect_rejection_no_decode_error item s e s' :
  collect_rejection item s = (Raise e, s') -> is_JSONDecodeError e = false.
Proof.
  unfold collect_rejection, mbind, ST_bind, lift, rejected_add, Py.get.
  destruct item; cbn [Py.is_dict]; try discriminate.
  repeat case_match; intros Hrun; inversion Hrun; subst; reflexivity.
Qed.

Lemma first_pass_records x lines s s' marker_line blocks marker :
  x <> EmptyString ->
  scan collect_rejection lines s = (Ok tt, s') ->
  In marker_line lines ->
  holds_blocks marker_line blocks ->
  In marker blocks ->
  rejection_of (JStr x) marker ->
  rejected x s'.
Proof.
  intros Hx Hrun Hline Hblocks Hmarker Hrej.
  apply (for_each_reaches (rejected x) _ _ marker_line _ _ Hrun Hline).
  - intros line _. apply keeps_scan_line. intros item. apply collect_rejection_keeps.
  - intros s1 s2. rewrite (scan_line_blocks _ _ _ _ Hblocks). unfold try_except.
    destruct (for_each blocks collect_rejection s1) as [[[]|e] s3] eqn:Hinner.
    + intros Heq. inversion Heq. subst s3.
      apply (for_each_reaches (rejected x) _ _ marker _ _ Hinner Hmarker).
      * intros item _. apply collect_rejection_keeps.
      * intros s4 s5 Hs.
        destruct (collect_rejection_records x marker s4 Hx Hrej) as (s6 & Hs6 & Hr).
        rewrite Hs6 in Hs. inversion Hs. subst. exact Hr.
    + destruct (for_each_raises _ _ _ _ _ Hinner) as (item & s4 & _ & Hitem).
      rewrite (collect_rejection_no_decode_error _ _ _ _ Hitem). discriminate.
Qed.

(** *** Second pass *)

Lemma take_todo_write_skips_rejected x block s :
  todo_write_call (JStr x) block -> rejected x s ->
  take_todo_write block s = (Ok tt, s).
Proof.
  intros (b & -> & Hty & Hname & Hid) Hrej.
  unfold take_todo_write, mbind, ST_bind, lift, Py.get, not_rejected.
  cbn [Py.is_dict]. rewrite Hty, Hname, Hid. cbn [default from_option id].
  rewrite !eq_JStr_refl. cbn [Py.hashable]. unfold rejected in Hrej. rewrite Hrej.
  reflexivity.
Qed.

Lemma not_rejected_keeps (P : locals -> Prop) v : keeps P (not_rejected v).
Proof.
  intros s r s' Hs H. unfold not_rejected in H.
  destruct (Py.hashable v); inversion H; subst; exact Hs.
Qed.

Lemma set_todos_keeps x v : keeps (rejected x) (set_todos v).
Proof. intros s r s' Hs H. inversion H. subst. exact Hs. Qed.

Lemma take_todo_write_keeps x item : keeps (rejected x) (take_todo_write item).
Proof.
  unfold take_todo_write.
  destruct (Py.is_dict item); [| apply keeps_mret].
  apply keeps_bind; [apply keeps_lift | intros ty].
  destruct (Py.eq ty (JStr "tool_use")); [| apply keeps_mret].
  apply keeps_bind; [apply keeps_lift | intros name].
  destruct (Py.eq name (JStr "TodoWrite")); [| apply keeps_mret].
  apply keeps_bind; [apply keeps_lift | intros tool_id].
  apply keeps_bind; [apply not_rejected_keeps | intros [|]]; [| apply keeps_mret].
  apply keeps_bind; [apply keeps_lift | intros input_data].
  apply keeps_bind; [apply keeps_lift | intros extracted].
  destruct extracted; first [apply keeps_mret | apply set_todos_keeps].
Qed.

(** *** Taking a rejected call out of the transcript *)

Lemma scan_without_call (P : locals -> Prop) body pre post line line' before call after s :
  P s ->
  (forall item, keeps P (body item)) ->
  (forall s1, P s1 -> body call s1 = (Ok tt, s1)) ->
  holds_blocks line (before ++ call :: after) ->
  holds_blocks line' (before ++ after) ->
  scan body (pre ++ line :: post) s = scan body (pre ++ line' :: post) s.
Proof.
  intros Hs Hkeep Hcall Hline Hline'. unfold scan.
  apply (for_each_replace P); [exact Hs | |].
  - intros l _. apply keeps_scan_line, Hkeep.
  - intros s1 Hs1.
    rewrite (scan_line_blocks _ _ _ _ Hline), (scan_line_blocks _ _ _ _ Hline').
    unfold try_except.
    rewrite (for_each_delete P body before call after s1 Hs1
               (fun y _ => Hkeep y) Hcall).
    reflexivity.
Qed.

Lemma parse_without_rejected_call x pre post line line' before call after
    marker_line blocks marker :
  x <> EmptyString ->
  holds_blocks line (before ++ call :: after) ->
  holds_blocks line' (before ++ after) ->
  todo_write_call (JStr x) call ->
  In marker_line (pre ++ line :: post) ->
  holds_blocks marker_line blocks ->
  In marker blocks ->
  rejection_of (JStr x) marker ->
  parse_latest_todos (Some (pre ++ line :: post)%list)
    = parse_latest_todos (Some (pre ++ line' :: post)%list).
Proof.
  intros Hx Hline Hline' Hcall Hin Hblocks Hmarker Hrej.
  unfold parse_latest_todos, try_except, mbind, ST_bind.
  pose proof (scan_without_call (fun _ => True) collect_rejection pre post line line'
                before call after (Locals JNull []) I
                (fun item s r s' _ _ => I)
                (fun s1 _ => collect_rejection_skips_calls _ _ s1 Hcall)
                Hline Hline') as Hfirst.
  rewrite <- Hfirst.
  destruct (scan collect_rejection (pre ++ line :: post) (Locals JNull []))
    as [[[]|e] s1] eqn:Hpass1; [| reflexivity].
  pose proof (first_pass_records x _ _ _ _ _ _ Hx Hpass1 Hin Hblocks Hmarker Hrej) as Hs1.
  rewrite (scan_without_call (rejected x) take_todo_write pre post line line'
             before call after s1 Hs1
             (take_todo_write_keeps x)
             (fun s2 Hs2 => take_todo_write_skips_rejected x call s2 Hcall Hs2)
             Hline Hline').
  reflexivity.
Qed.

Lemma sample_lines_hold_blocks x todo_list :
  holds_blocks (Sample.todo_write_line x todo_list)
    ([] ++ JObj [("type", JStr "tool_use"); ("id", JStr x);
                 ("name", JStr "TodoWrite");
                 ("input", JObj [("todos", JArr todo_list)])] :: []) /\
  holds_blocks Sample.emptied_line ([] ++ []) /\
  holds_blocks (Sample.rejection_line x)
    [JObj [("type", JStr "tool_result"); ("tool_use_id", JStr x);
           ("content", JStr "The user doesn't want to proceed with this tool use.");
           ("is_error", JBool true)]].
Proof. repeat split; do 2 eexists; repeat split; reflexivity. Qed.

(** C5, as the code has it. When a TodoWrite call whose identifier is a
    text that is not empty appears in a transcript, and a tool result
    anywhere in the transcript carries that identifier and a content
    that is not empty and whose text, [str(content)], has the rejection
    phrase, the scanner gives what it gives on the transcript without
    the call; and on the transcript made of one TodoWrite call with the
    list of the pending task A and of the tool result that rejects it,
    the scanner returns no todos. *)
Theorem rejected_call_is_excluded (x : string) :
  x <> EmptyString ->
  (forall pre post line line' before call after marker_line blocks marker,
     holds_blocks line (before ++ call :: after) ->
     holds_blocks line' (before ++ after) ->
     todo_write_call (JStr x) call ->
     In marker_line (pre ++ line :: post) ->
     holds_blocks marker_line blocks ->
     In marker blocks ->
     rejection_of (JStr x) marker ->
     parse_latest_todos (Some (pre ++ line :: post)%list)
       = parse_latest_todos (Some (pre ++ line' :: post)%list)) /\
  parse_latest_todos
    (Some [Sample.todo_write_line x [Sample.todo_A]; Sample.rejection_line x]) = JNull.
Proof.
  intros Hx. split.
  - intros. eapply parse_without_rejected_call; eassumption.
  - destruct (sample_lines_hold_blocks x [Sample.todo_A]) as (Hcall & Hempty & Hrej).
    transitivity
      (parse_latest_todos (Some [Sample.emptied_line; Sample.rejection_line x])).
    + eapply (parse_without_rejected_call x [] [Sample.rejection_line x]);
        [exact Hx | exact Hcall | exact Hempty | | | exact Hrej | |].
      * eexists. repeat split; reflexivity.
      * right; left; reflexivity.
      * left; reflexivity.
      * do 2 eexists. repeat split; reflexivity.
    + destruct x as [|c x]; [congruence | reflexivity].
Qed.

(** C5 fails as it is written: with the empty identifier, the call that a
    tool result rejects is the one whose list the scanner returns. *)
Lemma empty_identifier_is_not_rejected :
  (exists call marker,
     holds_blocks (Sample.todo_write_line EmptyString [Sample.todo_A]) [call] /\
     holds_blocks (Sample.rejection_line EmptyString) [marker] /\
     todo_write_call (JStr EmptyString) call /\
     rejection_of (JStr EmptyString) marker) /\
  parse_latest_todos
    (Some [Sample.todo_write_line EmptyString [Sample.todo_A];
           Sample.rejection_line EmptyString])
    = JArr [Sample.todo_A] /\
  parse_latest_todos (Some [Sample.emptied_line; Sample.rejection_line EmptyString])
    = JNull.
Proof.
  split; [| split; reflexivity].
  do 2 eexists. repeat split.
  - do 2 eexists. repeat split; reflexivity.
  - do 2 eexists. repeat split; reflexivity.
  - eexists. repeat split; reflexivity.
  - do 2 eexists. repeat split; reflexivity.
Qed.

(** *** The scan of a well-formed transcript *)

Lemma default_truthy (o : option json) :
  Py.truthy (default JNull o) = true -> o = Some (default JNull o).
Proof. destruct o; [reflexivity | discriminate]. Qed.

Lemma default_eq_str (o : option json) (t : string) :
  Py.eq (default JNull o) (JStr t) = true -> o = Some (JStr t).
Proof.
  intros H. apply eq_JStr_r in H. destruct o as [v|]; [| discriminate].
  cbn in H. congruence.
Qed.

Lemma collect_rejection_completes id t block s :
  wf_block block = true ->
  ~ rejects id block ->
  todos s = t /\ accepted id s ->
  exists s', collect_rejection block s = (Ok tt, s') /\
             (todos s' = t /\ accepted id s').
Proof.
  intros Hwf Hnot Hs. destruct block as [| | | | |b];
    try (exists s; split; [reflexivity | exact Hs]).
  cbn [wf_block] in Hwf.
  apply andb_true_iff in Hwf as [Hwf _]. apply andb_true_iff in Hwf as [Hhash _].
  unfold collect_rejection, mbind, ST_bind, lift, Py.get. cbn [Py.is_dict].
  destruct (Py.eq (default JNull (Py.dict_get "type" b)) (JStr "tool_result")) eqn:Hty;
    [| exists s; split; [reflexivity | exact Hs]].
  destruct (Py.truthy (default JNull (Py.dict_get "content" b))) eqn:Herr;
    [| exists s; split; [reflexivity | exact Hs]].
  destruct (Py.contains rejection_phrase
              (Py.str (default JNull (Py.dict_get "content" b)))) eqn:Hphrase;
    [| exists s; split; [reflexivity | exact Hs]].
  destruct (Py.truthy (default JNull (Py.dict_get "tool_use_id" b))) eqn:Hid;
    [| exists s; split; [reflexivity | exact Hs]].
  cbn [andb]. unfold rejected_add. rewrite Hhash.
  eexists. split; [reflexivity |]. destruct Hs as [Ht Hacc].
  split; [exact Ht |]. unfold accepted in *. cbn [rejected_tool_ids].
  destruct (Py.mem (default JNull (Py.dict_get "tool_use_id" b)) (rejected_tool_ids s));
    [exact Hacc |].
  unfold Py.mem in *. rewrite existsb_app, Hacc. cbn [existsb orb].
  destruct (Py.eq (default JNull (Py.dict_get "tool_use_id" b)) id) eqn:Heq;
    [| reflexivity].
  exfalso. apply Hnot.
  exists b, (default JNull (Py.dict_get "content" b)),
    (default JNull (Py.dict_get "tool_use_id" b)).
  split; [reflexivity |].
  split; [exact (default_eq_str _ _ Hty) |].
  split; [exact (default_truthy _ Herr) |].
  split; [exact Herr |]. split; [exact Hphrase |].
  split; [exact (default_truthy _ Hid) |].
  split; [exact Hid | exact Heq].
Qed.

Lemma chars_not_dict s item : In item (Py.chars s) -> Py.is_dict item = false.
Proof.
  induction s as [|c s IH]; [intros [] |].
  intros [<- | H]; [reflexivity | exact (IH H)].
Qed.

(** What a pass does on a well-formed line: it runs the body over the
    blocks of the line, and a line without blocks is passed over. *)
Lemma scan_line_wf body line s :
  (forall item s1, Py.is_dict item = false -> body item s1 = (Ok tt, s1)) ->
  wf_line line = true ->
  scan_line body line s = (Ok tt, s) \/
  exists blocks,
    holds_blocks line blocks /\ forallb wf_block blocks = true /\
    scan_line body line s =
      try_except (for_each blocks body) is_JSONDecodeError (fun _ => mret tt) s.
Proof.
  intros Hskip Hwf. destruct line as [error|v].
  { left. cbn [wf_line] in Hwf. destruct error; try discriminate. reflexivity. }
  destruct v as [| | | | |e]; try discriminate.
  cbn [wf_line] in Hwf.
  destruct (Py.dict_get "message" e) as [msg|] eqn:Hmsg.
  2: { left. unfold scan_line, try_except, mbind at 1 2 3 4, ST_bind, lift,
         json_load, Py.get. rewrite Hmsg. reflexivity. }
  destruct msg as [| | | | |m]; try discriminate.
  destruct (Py.dict_get "content" m) as [content|] eqn:Hcontent.
  2: { left. unfold scan_line, try_except, mbind at 1 2 3 4, ST_bind, lift,
         json_load, Py.get. rewrite Hmsg. cbn [default from_option id].
       rewrite Hcontent. reflexivity. }
  destruct content as [| | | text | blocks |]; try discriminate.
  - left. unfold scan_line, try_except, mbind at 1 2 3 4, ST_bind, lift,
      json_load, Py.get. rewrite Hmsg. cbn [default from_option id].
    rewrite Hcontent. cbn [default from_option id Py.iter].
    rewrite for_each_idle; [reflexivity |].
    intros item s1 Hitem. apply Hskip. exact (chars_not_dict _ _ Hitem).
  - right. exists blocks.
    assert (Hholds : holds_blocks (Document (JObj e)) blocks).
    { exists e, m. auto. }
    split; [exact Hholds |]. split; [exact Hwf |].
    apply scan_line_blocks, Hholds.
Qed.

Lemma collect_rejection_not_dict item s :
  Py.is_dict item = false -> collect_rejection item s = (Ok tt, s).
Proof. intros H. unfold collect_rejection. rewrite H. reflexivity. Qed.

Lemma take_todo_write_not_dict item s :
  Py.is_dict item = false -> take_todo_write item s = (Ok tt, s).
Proof. intros H. unfold take_todo_write. rewrite H. reflexivity. Qed.

Lemma first_pass_completes id lines s :
  well_formed lines = true ->
  (forall line blocks block,
     In line lines -> holds_blocks line blocks -> In block blocks ->
     ~ rejects id block) ->
  accepted id s ->
  exists s', scan collect_rejection lines s = (Ok tt, s') /\
             (todos s' = todos s /\ accepted id s').
Proof.
  intros Hwf Hnot Hacc. unfold scan.
  apply (for_each_completes (fun l => todos l = todos s /\ accepted id l));
    [| split; [reflexivity | exact Hacc]].
  intros line s1 Hline Hs1.
  assert (Hwfl : wf_line line = true).
  { unfold well_formed in Hwf. rewrite forallb_forall in Hwf. exact (Hwf line Hline). }
  destruct (scan_line_wf collect_rejection line s1
              collect_rejection_not_dict Hwfl)
    as [-> | (blocks & Hholds & Hblocks & ->)];
    [exists s1; split; [reflexivity | exact Hs1] |].
  unfold try_except.
  destruct (for_each_completes (fun l => todos l = todos s /\ accepted id l)
              collect_rejection blocks s1) as (s2 & -> & Hs2); [| exact Hs1 |].
  - intros block s3 Hblock Hs3.
    apply collect_rejection_completes; [| exact (Hnot _ _ _ Hline Hholds Hblock) | exact Hs3].
    rewrite forallb_forall in Hblocks. exact (Hblocks block Hblock).
  - exists s2. split; [reflexivity | exact Hs2].
Qed.

Lemma take_todo_write_completes block s :
  wf_block block = true ->
  exists s', take_todo_write block s = (Ok tt, s') /\
             rejected_tool_ids s' = rejected_tool_ids s.
Proof.
  intros Hwf. destruct block as [| | | | |b];
    try (exists s; split; reflexivity).
  cbn [wf_block] in Hwf.
  apply andb_true_iff in Hwf as [Hwf Hinput]. apply andb_true_iff in Hwf as [_ Hhash].
  unfold take_todo_write, mbind, ST_bind, lift, Py.get, not_rejected.
  cbn [Py.is_dict].
  destruct (Py.eq (default JNull (Py.dict_get "type" b)) (JStr "tool_use"));
    [| exists s; split; reflexivity].
  destruct (Py.eq (default JNull (Py.dict_get "name" b)) (JStr "TodoWrite"));
    [| exists s; split; reflexivity].
  rewrite Hhash.
  destruct (negb (Py.mem (default JNull (Py.dict_get "id" b)) (rejected_tool_ids s)));
    [| exists s; split; reflexivity].
  destruct (default (JObj []) (Py.dict_get "input" b)) as [| | | | |i]; try discriminate.
  destruct (default JNull (Py.dict_get "todos" i));
    eexists; split; reflexivity.
Qed.

Lemma take_todo_write_idle block s :
  ~ todo_write block -> take_todo_write block s = (Ok tt, s).
Proof.
  intros Hnot. destruct block as [| | | | |b]; try reflexivity.
  unfold take_todo_write, mbind, ST_bind, lift, Py.get. cbn [Py.is_dict].
  destruct (Py.eq (default JNull (Py.dict_get "type" b)) (JStr "tool_use")) eqn:Hty;
    [| reflexivity].
  destruct (Py.eq (default JNull (Py.dict_get "name" b)) (JStr "TodoWrite")) eqn:Hname;
    [| reflexivity].
  exfalso. apply Hnot. exists b.
  split; [reflexivity |].
  split; [exact (default_eq_str _ _ Hty) | exact (default_eq_str _ _ Hname)].
Qed.

Lemma take_todo_write_takes call_id call payload s :
  todo_write_call call_id call ->
  carries_todos call payload ->
  payload <> JNull ->
  wf_block call = true ->
  accepted call_id s ->
  take_todo_write call s = (Ok tt, Locals payload (rejected_tool_ids s)).
Proof.
  intros (b & -> & Hty & Hname & Hid) (b' & i & Hb & Hinput & Htodos) Hpayload Hwf Hacc.
  inversion Hb. subst b'. cbn [wf_block] in Hwf.
  apply andb_true_iff in Hwf as [Hwf _]. apply andb_true_iff in Hwf as [_ Hhash].
  rewrite Hid in Hhash. cbn [default from_option id] in Hhash.
  unfold take_todo_write, mbind, ST_bind, lift, Py.get, not_rejected.
  cbn [Py.is_dict]. rewrite Hty, Hname, Hid, Hinput. cbn [default from_option id].
  rewrite !eq_JStr_refl, Hhash. unfold accepted in Hacc. rewrite Hacc.
  cbn [negb]. rewrite Htodos. cbn [default from_option id].
  destruct payload; [congruence | reflexivity ..].
Qed.

Lemma wf_line_blocks line blocks :
  wf_line line = true -> holds_blocks line blocks -> forallb wf_block blocks = true.
Proof.
  intros Hwf (e & m & -> & Hm & Hc). cbn [wf_line] in Hwf.
  rewrite Hm, Hc in Hwf. exact Hwf.
Qed.

Lemma second_pass_blocks_complete blocks s :
  forallb wf_block blocks = true ->
  exists s', for_each blocks take_todo_write s = (Ok tt, s') /\
             rejected_tool_ids s' = rejected_tool_ids s.
Proof.
  intros Hwf.
  apply (for_each_completes (fun l => rejected_tool_ids l = rejected_tool_ids s));
    [| reflexivity].
  intros block s1 Hblock Hs1. rewrite forallb_forall in Hwf.
  destruct (take_todo_write_completes block s1 (Hwf block Hblock)) as (s2 & Hrun & Hs2).
  exists s2. split; [exact Hrun | congruence].
Qed.

Lemma second_pass_line_completes line s :
  wf_line line = true ->
  exists s', scan_line take_todo_write line s = (Ok tt, s') /\
             rejected_tool_ids s' = rejected_tool_ids s.
Proof.
  intros Hwf.
  destruct (scan_line_wf take_todo_write line s take_todo_write_not_dict Hwf)
    as [-> | (blocks & _ & Hblocks & ->)];
    [exists s; split; reflexivity |].
  unfold try_except.
  destruct (second_pass_blocks_complete blocks s Hblocks) as (s' & -> & Hs').
  exists s'. split; [reflexivity | exact Hs'].
Qed.

Lemma second_pass_line_idle line s :
  wf_line line = true ->
  (forall blocks block, holds_blocks line blocks -> In block blocks -> ~ todo_write block) ->
  scan_line take_todo_write line s = (Ok tt, s).
Proof.
  intros Hwf Hnone.
  destruct (scan_line_wf take_todo_write line s take_todo_write_not_dict Hwf)
    as [-> | (blocks & Hholds & _ & ->)]; [reflexivity |].
  unfold try_except. rewrite for_each_idle; [reflexivity |].
  intros block s1 Hblock. apply take_todo_write_idle. exact (Hnone _ _ Hholds Hblock).
Qed.

(** The second pass ends with the payload of the last call, when that call
    is not rejected. *)
Lemma second_pass_takes_last call_id payload pre line post before call after s :
  well_formed (pre ++ line :: post) = true ->
  holds_blocks line (before ++ call :: after) ->
  todo_write_call call_id call ->
  carries_todos call payload ->
  payload <> JNull ->
  (forall block, In block after -> ~ todo_write block) ->
  (forall l blocks block,
     In l post -> holds_blocks l blocks -> In block blocks -> ~ todo_write block) ->
  accepted call_id s ->
  scan take_todo_write (pre ++ line :: post) s
    = (Ok tt, Locals payload (rejected_tool_ids s)).
Proof.
  intros Hwf Hline Hcall Hcarries Hpayload Hafter Hpost Hacc.
  unfold well_formed in Hwf. rewrite forallb_app in Hwf.
  apply andb_true_iff in Hwf as [Hwf_pre Hwf]. cbn [forallb] in Hwf.
  apply andb_true_iff in Hwf as [Hwf_line Hwf_post].
  pose proof (wf_line_blocks _ _ Hwf_line Hline) as Hblocks.
  rewrite forallb_app in Hblocks.
  apply andb_true_iff in Hblocks as [Hwf_before Hblocks]. cbn [forallb] in Hblocks.
  apply andb_true_iff in Hblocks as [Hwf_call _].
  unfold scan. rewrite for_each_app.
  destruct (for_each_completes
              (fun l => rejected_tool_ids l = rejected_tool_ids s)
              (scan_line take_todo_write) pre s) as (s1 & -> & Hs1); [| reflexivity |].
  { intros l s0 Hl Hs0. rewrite forallb_forall in Hwf_pre.
    destruct (second_pass_line_completes l s0 (Hwf_pre l Hl)) as (s' & Hrun & Hs').
    exists s'. split; [exact Hrun | congruence]. }
  rewrite for_each_cons, (scan_line_blocks _ _ _ _ Hline).
  unfold try_except at 1. rewrite for_each_app.
  destruct (second_pass_blocks_complete before s1 Hwf_before) as (s2 & -> & Hs2).
  rewrite for_each_cons.
  rewrite (take_todo_write_takes call_id call payload s2 Hcall Hcarries Hpayload Hwf_call).
  2: { unfold accepted in *. rewrite Hs2, Hs1. exact Hacc. }
  rewrite for_each_idle.
  2: { intros block s3 Hblock. apply take_todo_write_idle, Hafter, Hblock. }
  rewrite for_each_idle.
  2: { intros l s3 Hl. rewrite forallb_forall in Hwf_post.
       apply second_pass_line_idle; [exact (Hwf_post l Hl) |].
       intros blocks block. exact (Hpost l blocks block Hl). }
  rewrite Hs2, Hs1. reflexivity.
Qed.

(** C6. On a well-formed transcript whose last TodoWrite call is not
    rejected and carries the empty list, the scanner returns the empty
    list, whatever the calls before it carry, and [get_pending_todos]
    answers with the empty list. *)
Theorem empty_list_overwrites (call_id : json) pre line post before call after :
  well_formed (pre ++ line :: post) = true ->
  holds_blocks line (before ++ call :: after) ->
  todo_write_call call_id call ->
  carries_todos call (JArr []) ->
  (forall l blocks block,
     In l (pre ++ line :: post) -> holds_blocks l blocks -> In block blocks ->
     ~ rejects call_id block) ->
  (forall block, In block after -> ~ todo_write block) ->
  (forall l blocks block,
     In l post -> holds_blocks l blocks -> In block blocks -> ~ todo_write block) ->
  parse_latest_todos (Some (pre ++ line :: post)%list) = JArr [] /\
  get_pending_todos (parse_latest_todos (Some (pre ++ line :: post)%list)) = Ok [].
Proof.
  intros Hwf Hline Hcall Hcarries Hnot Hafter Hpost.
  assert (Hparse : parse_latest_todos (Some (pre ++ line :: post)%list) = JArr []).
  { unfold parse_latest_todos, try_except, mbind, ST_bind.
    destruct (first_pass_completes call_id (pre ++ line :: post) (Locals JNull [])
                Hwf Hnot eq_refl) as (s1 & -> & _ & Hacc).
    rewrite (second_pass_takes_last call_id (JArr []) pre line post before call after s1
               Hwf Hline Hcall Hcarries ltac:(discriminate) Hafter Hpost Hacc).
    reflexivity. }
  rewrite Hparse. split; reflexivity.
Qed.

(** C6 fails as it is written, for a transcript that is not well formed.
    When the later call, the one that clears the list, has a list as its
    identifier, the look-up of the identifier among the rejected ones
    raises a [TypeError], the scan stops there and the list of the
    earlier call is the result: the task A is still pending. And when a
    line holds a number, the first pass raises and the result is [None],
    not the empty list of the last call. No call is rejected in either
    transcript. *)
Lemma empty_list_needs_a_well_formed_transcript :
  let transcript :=
    [Sample.todo_write_line "toolu_01" [Sample.todo_A]; Sample.odd_clearing_line] in
  let transcript' :=
    [Sample.todo_write_line "toolu_01" [Sample.todo_A];
     Sample.todo_write_line "toolu_02" []; Document (JInt 7)] in
  (exists call call',
     holds_blocks (Sample.todo_write_line "toolu_01" [Sample.todo_A]) [call] /\
     holds_blocks Sample.odd_clearing_line [call'] /\
     todo_write_call (JStr "toolu_01") call /\
     todo_write_call (JArr []) call' /\
     carries_todos call' (JArr [])) /\
  (forall l blocks block id,
     In l (transcript ++ transcript') -> holds_blocks l blocks -> In block blocks ->
     ~ rejects id block) /\
  parse_latest_todos (Some transcript) = JArr [Sample.todo_A] /\
  get_pending_todos (parse_latest_todos (Some transcript)) = Ok [Sample.todo_A] /\
  well_formed transcript = false /\
  parse_latest_todos (Some transcript') = JNull /\
  well_formed transcript' = false.
Proof.
  cbv zeta. split; [| split; [| repeat split; reflexivity]].
  - do 2 eexists. repeat split.
    + do 2 eexists. repeat split; reflexivity.
    + do 2 eexists. repeat split; reflexivity.
    + eexists. repeat split; reflexivity.
    + eexists. repeat split; reflexivity.
    + do 2 eexists. repeat split; reflexivity.
  - intros l blocks block id Hl (e & m & Hline & Hm & Hc) Hblock
      (b & error & tool_use_id & -> & Htype & _).
    cbn [app In] in Hl.
    destruct Hl as [<- | [<- | [<- | [<- | [<- | []]]]]];
      try discriminate Hline;
      injection Hline as <-; injection Hm as <-; injection Hc as <-;
      cbn [In] in Hblock; destruct Hblock as [Hb | []];
      injection Hb as <-; discriminate Htype.
Qed.

End Scanner.

(** ** The session registry *)

Section Registry.
Import HookUtils.

Lemma sid_of_get record s :
  sid_of record = Some s -> Py.get record "session_id" JNull = Ok (JStr s).
Proof.
  destruct record as [| | | | |d]; try discriminate. cbn [sid_of Py.get].
  destruct (Py.dict_get "session_id" d) as [[| | |s'| |]|]; try discriminate.
  intros [= ->]. reflexivity.
Qed.

Lemma has_sid_eq record s s' :
  sid_of record = Some s' -> Py.eq (JStr s') (JStr s) = has_sid s record.
Proof. intros H. unfold has_sid. rewrite H. reflexivity. Qed.

(** On records with textual identifiers, the comprehension of
    [add_session] is a filter. *)
Lemma without_session_filter s records :
  Forall (fun r => is_Some (sid_of r)) records ->
  without_session (JStr s) records
    = Ok (List.filter (fun r => negb (has_sid s r)) records).
Proof.
  induction 1 as [|r records [s' Hr] _ IH]; [reflexivity |].
  cbn [without_session]. rewrite (sid_of_get _ _ Hr). cbn [mbind res_bind].
  rewrite IH. cbn [mbind res_bind].
  rewrite (has_sid_eq _ s _ Hr). cbn [List.filter].
  destruct (has_sid s r); reflexivity.
Qed.

Lemma read_sessions_world w : snd (read_sessions w) = w.
Proof.
  unfold read_sessions. destruct (registry w) as [[e|doc]|]; [| reflexivity | reflexivity].
  unfold try_except, lift, json_load.
  destruct (is_JSONDecodeError_or_IOError e); reflexivity.
Qed.

Lemma read_sessions_eq w : read_sessions w = (fst (read_sessions w), w).
Proof. rewrite <- (read_sessions_world w) at 3. apply surjective_pairing. Qed.

Lemma add_session_step session_data s records stamp w :
  fst (read_sessions w) = Ok (registry_doc records stamp) ->
  Forall (fun r => is_Some (sid_of r)) records ->
  sid_of session_data = Some s ->
  add_session session_data w =
    (Ok true,
     set_registry
       (Some (Document (registry_doc (upsert records session_data)
                          (JInt (clock_time w (ticks w))))))
       (set_ticks (S (ticks w)) w)).
Proof.
  intros Hread Hrecords Hsid. unfold add_session, upsert. rewrite Hsid.
  unfold mbind at 1, ST_bind at 1. rewrite read_sessions_eq, Hread.
  unfold mbind at 1, ST_bind at 1, lift at 1. rewrite (sid_of_get _ _ Hsid).
  unfold mbind, ST_bind, lift, registry_doc, Py.getitem, Py.iter.
  cbn [Py.dict_get String.eqb Ascii.eqb Bool.eqb]. cbn match.
  rewrite (without_session_filter s records Hrecords). reflexivity.
Qed.

Lemma sessions_of_written records stamp w :
  sessions_of (set_registry (Some (Document (registry_doc records stamp))) w) = records.
Proof. reflexivity. Qed.

Lemma holds_records_written records stamp w :
  Forall (fun r => is_Some (sid_of r)) records ->
  holds_records (set_registry (Some (Document (registry_doc records stamp))) w) records.
Proof. intros H. split; [exists stamp; reflexivity | exact H]. Qed.

Lemma upsert_typed records session_data :
  Forall (fun r => is_Some (sid_of r)) records ->
  is_Some (sid_of session_data) ->
  Forall (fun r => is_Some (sid_of r)) (upsert records session_data).
Proof.
  intros Hrecords [s Hs]. unfold upsert. rewrite Hs.
  apply List.Forall_forall. intros r Hr. rewrite List.Forall_forall in Hrecords.
  apply in_app_or in Hr as [Hr | [<- | []]].
  - apply Hrecords. apply filter_In in Hr. tauto.
  - exists s. exact Hs.
Qed.

Lemma add_sessions_cons d calls w b w' :
  add_session d w = (Ok b, w') ->
  add_sessions (d :: calls) w = add_sessions calls w'.
Proof.
  intros H. unfold add_sessions. rewrite for_each_cons.
  unfold mbind at 1, ST_bind at 1. rewrite H. reflexivity.
Qed.

(** A run of calls completes and leaves the fold of [upsert] in the file. *)
Lemma add_sessions_run calls w records :
  holds_records w records ->
  Forall (fun d => is_Some (sid_of d)) calls ->
  fst (add_sessions calls w) = Ok tt /\
  holds_records (snd (add_sessions calls w)) (fold_left upsert calls records).
Proof.
  revert w records. induction calls as [|d calls IH]; intros w records Hw Hcalls.
  - split; [reflexivity | exact Hw].
  - inversion Hcalls as [|? ? Hd Hrest]; subst.
    destruct Hw as [[stamp Hread] Hrecords]. destruct Hd as [s Hs].
    rewrite (add_sessions_cons _ _ _ _ _
               (add_session_step d s records stamp w Hread Hrecords Hs)).
    cbn [fold_left].
    apply IH; [| exact Hrest].
    apply holds_records_written, upsert_typed; [exact Hrecords | exists s; exact Hs].
Qed.

(** *** The fold of [upsert], on lists *)

Lemma has_sid_true s r : has_sid s r = true <-> sid_of r = Some s.
Proof.
  unfold has_sid. destruct (sid_of r) as [s'|]; [| split; discriminate].
  rewrite String.eqb_eq. split; congruence.
Qed.

Lemma NoDup_map_filter {A B} (f : A -> B) (keep : A -> bool) l :
  NoDup (map f l) -> NoDup (map f (List.filter keep l)).
Proof.
  induction l as [|x l IH]; cbn [map List.filter]; intros H; [constructor |].
  apply NoDup_cons in H as [Hx Hl].
  destruct (keep x); [| exact (IH Hl)].
  cbn [map]. apply NoDup_cons. split; [| exact (IH Hl)].
  intros Hin. apply Hx. apply list_elem_of_In. apply list_elem_of_In in Hin.
  apply in_map_iff in Hin as (y & Hy & Hyin).
  apply in_map_iff. exists y. apply filter_In in Hyin. tauto.
Qed.

Lemma upsert_no_duplicate records session_data :
  NoDup (map sid_of records) -> NoDup (map sid_of (upsert records session_data)).
Proof.
  intros H. unfold upsert. destruct (sid_of session_data) as [s|] eqn:Hs; [| exact H].
  rewrite map_app. cbn [map]. rewrite Hs.
  apply NoDup_app. split; [apply NoDup_map_filter, H |].
  split; [| apply NoDup_singleton].
  intros x Hx Hx'. apply list_elem_of_In in Hx, Hx'.
  destruct Hx' as [<- | []]. apply in_map_iff in Hx as (r & Hr & Hin).
  apply filter_In in Hin as [_ Hkeep]. apply has_sid_true in Hr.
  rewrite Hr in Hkeep. discriminate.
Qed.

Lemma last_call_snoc s calls d :
  last_call s (calls ++ [d]) = if has_sid s d then Some d else last_call s calls.
Proof. unfold last_call. rewrite rev_app_distr. reflexivity. Qed.

Lemma last_call_sid s calls r : last_call s calls = Some r -> sid_of r = Some s.
Proof. intros H. apply find_some in H as [_ H]. apply has_sid_true, H. Qed.

Lemma upserts_members calls :
  Forall (fun d => is_Some (sid_of d)) calls ->
  forall r, In r (fold_left upsert calls []) <-> exists s, last_call s calls = Some r.
Proof.
  induction calls as [|d calls IH] using rev_ind; intros Hcalls r.
  - split; [intros [] | intros [s Hs]; discriminate].
  - apply Forall_app in Hcalls as [Hcalls Hd]. inversion Hd as [|? ? [s Hs] _]; subst.
    rewrite fold_left_app. cbn [fold_left]. unfold upsert at 1. rewrite Hs.
    rewrite in_app_iff, filter_In, (IH Hcalls r). cbn [In]. split.
    + intros [[[s' Hs'] Hkeep] | [<- | []]].
      * exists s'. rewrite last_call_snoc.
        destruct (has_sid s' d) eqn:Hd'; [| exact Hs'].
        apply has_sid_true in Hd'. apply last_call_sid in Hs'.
        apply has_sid_true in Hs'. rewrite Hs in Hd'. inversion Hd'. subst s'.
        rewrite Hs' in Hkeep. discriminate.
      * exists s. rewrite last_call_snoc.
        rewrite (proj2 (has_sid_true s d) Hs). reflexivity.
    + intros [s' Hs']. rewrite last_call_snoc in Hs'.
      destruct (has_sid s' d) eqn:Hd'.
      * right. left. congruence.
      * left. split; [exists s'; exact Hs' |].
        apply last_call_sid in Hs'.
        destruct (has_sid s r) eqn:Hr; [| reflexivity].
        apply has_sid_true in Hr. rewrite Hs' in Hr. inversion Hr. subst s'.
        rewrite (proj2 (has_sid_true s d) Hs) in Hd'. discriminate.
Qed.

Lemma upserts_no_duplicate calls records :
  NoDup (map sid_of records) -> NoDup (map sid_of (fold_left upsert calls records)).
Proof.
  revert records. induction calls as [|d calls IH]; intros records H; [exact H |].
  cbn [fold_left]. apply IH, upsert_no_duplicate, H.
Qed.

Lemma sessions_of_holds w records : holds_records w records -> sessions_of w = records.
Proof.
  intros [[stamp Hread] _]. unfold sessions_of. rewrite Hread. reflexivity.
Qed.

(** C7. From an empty registry, after a run of [add_session] calls with
    textual identifiers, no two records of the registry have the same
    identifier, and the records are the arguments of the last call made
    with each identifier; and one call, on a registry that has at most one
    record for each identifier, leaves a registry of that kind. *)
Theorem add_session_is_an_upsert (calls : list json) (w : world) :
  fst (read_sessions w) = Ok empty_structure ->
  Forall (fun session_data => is_Some (sid_of session_data)) calls ->
  fst (add_sessions calls w) = Ok tt /\
  NoDup (map sid_of (sessions_of (snd (add_sessions calls w)))) /\
  (forall record,
     In record (sessions_of (snd (add_sessions calls w))) <->
     exists s, last_call s calls = Some record) /\
  (forall w0 records session_data,
     holds_records w0 records ->
     NoDup (map sid_of records) ->
     is_Some (sid_of session_data) ->
     NoDup (map sid_of (sessions_of (snd (add_session session_data w0))))).
Proof.
  intros Hempty Hcalls.
  assert (Hw : holds_records w []).
  { split; [exists JNull; exact Hempty | constructor]. }
  destruct (add_sessions_run calls w [] Hw Hcalls) as [Hok Hrecords].
  rewrite (sessions_of_holds _ _ Hrecords).
  split; [exact Hok |].
  split; [apply upserts_no_duplicate; constructor |].
  split; [exact (upserts_members calls Hcalls) |].
  intros w0 records session_data [[stamp Hread] Htyped] Hnodup [s Hs].
  rewrite (add_session_step session_data s records stamp w0 Hread Htyped Hs).
  cbn [snd]. rewrite sessions_of_written. apply upsert_no_duplicate, Hnodup.
Qed.

End Registry.

(** ** Text *)

Section Text.

Lemma contains_startswith needle hay :
  Py.startswith hay needle = true -> Py.contains needle hay = true.
Proof. intros H. destruct hay; cbn [Py.contains]; rewrite H; reflexivity. Qed.

Lemma contains_intro needle pre post :
  Py.contains needle (pre ++ needle ++ post) = true.
Proof.
  induction pre as [|c pre IH].
  - change (EmptyString ++ needle ++ post) with (needle ++ post).
    apply contains_startswith, startswith_app.
  - change (String c pre ++ needle ++ post) with (String c (pre ++ needle ++ post)).
    cbn [Py.contains]. rewrite IH. apply orb_true_r.
Qed.

Lemma contains_inv needle hay :
  Py.contains needle hay = true -> exists pre post, hay = pre ++ needle ++ post.
Proof.
  induction hay as [|c hay IH]; cbn [Py.contains]; intros H.
  - rewrite orb_false_r in H. apply startswith_inv in H as [rest ->].
    exists EmptyString, rest. reflexivity.
  - apply orb_true_iff in H as [H | H].
    + apply startswith_inv in H as [rest ->]. exists EmptyString, rest. reflexivity.
    + destruct (IH H) as (pre & post & ->). exists (String c pre), post. reflexivity.
Qed.

Lemma map_chars_app f a b :
  Py.map_chars f (a ++ b) = Py.map_chars f a ++ Py.map_chars f b.
Proof.
  induction a as [|c a IH]; [reflexivity |].
  change (Py.map_chars f (String c a ++ b))
    with (String (f c) (Py.map_chars f (a ++ b))).
  rewrite IH. reflexivity.
Qed.

Lemma map_chars_split f s x y :
  Py.map_chars f s = x ++ y ->
  exists a b, s = a ++ b /\ Py.map_chars f a = x /\ Py.map_chars f b = y.
Proof.
  revert s. induction x as [|c x IH]; intros s H.
  - exists EmptyString, s. auto.
  - destruct s as [|c' s]; [discriminate |].
    change (String (f c') (Py.map_chars f s) = String c (x ++ y)) in H.
    inversion H as [[Hc Hs]].
    destruct (IH s Hs) as (a & b & -> & Ha & Hb).
    exists (String c' a), b.
    split; [reflexivity |]. split; [| exact Hb].
    cbn [Py.map_chars]. rewrite Ha. reflexivity.
Qed.

(** [c.lower()] is the character [k] of a keyword exactly when [c]
    writes [k]. *)
Lemma lower_char_writes k c :
  Py.is_upper k = false -> (Py.lower_char c = k <-> Words.writes k c).
Proof.
  intros Hk. unfold Words.writes, Py.lower_char. split.
  - destruct (Py.is_upper c) eqn:Hc; [| intros ->; left; reflexivity].
    unfold Py.is_upper in Hc. cbv zeta in Hc.
    apply andb_true_iff in Hc as [Hlo Hhi].
    apply N.leb_le in Hlo. apply N.leb_le in Hhi.
    intros <-. right. rewrite N_ascii_embedding by lia. lia.
  - intros [-> | (Hlo & Hhi & Hsum)]; [rewrite Hk; reflexivity |].
    assert (Hc : Py.is_upper c = true).
    { unfold Py.is_upper. cbv zeta. apply andb_true_iff.
      split; apply N.leb_le; lia. }
    rewrite Hc, Hsum. apply ascii_N_embedding.
Qed.

Lemma lower_spells keyword word :
  Words.no_capital keyword = true ->
  (Py.lower word = keyword <-> Words.spells keyword word).
Proof.
  revert word. induction keyword as [|k keyword IH]; intros word Hkeyword.
  - destruct word; cbn [Words.spells]; [tauto |]. split; [discriminate | intros []].
  - cbn [Words.no_capital] in Hkeyword. apply andb_true_iff in Hkeyword as [Hk Hrest].
    apply negb_true_iff in Hk.
    destruct word as [|c word]; cbn [Words.spells]; [split; [discriminate | intros []] |].
    unfold Py.lower. cbn [Py.map_chars]. fold (Py.lower word).
    rewrite <- (lower_char_writes k c Hk), <- (IH word Hrest).
    split; [intros H; injection H; auto | intros [-> ->]; reflexivity].
Qed.

(** [needle in message.lower()] says that the message mentions the needle. *)
Lemma contains_lower_mentions needle message :
  Words.no_capital needle = true ->
  (Py.contains needle (Py.lower message) = true <-> Words.has_word needle message).
Proof.
  intros Hneedle. unfold Words.has_word. split.
  - intros H. apply contains_inv in H as (pre & post & H). unfold Py.lower in H.
    apply map_chars_split in H as (a & rest & -> & Ha & H).
    apply map_chars_split in H as (mid & b & -> & Hmid & Hb).
    exists a, mid, b. split; [reflexivity |].
    apply (lower_spells needle mid Hneedle). exact Hmid.
  - intros (pre & mid & post & -> & Hmid).
    apply (lower_spells needle mid Hneedle) in Hmid.
    unfold Py.lower in *. rewrite !map_chars_app, Hmid. apply contains_intro.
Qed.

End Text.

(** ** The notification hook *)

Section Notification.
Import HookUtils NotificationHook.

Lemma update_first_patch s updates records :
  Forall (fun r => is_Some (sid_of r)) records ->
  update_first (JStr s) updates records = Ok (patch_first s updates records).
Proof.
  induction 1 as [|r records [s' Hr] _ IH]; [reflexivity |].
  cbn [update_first patch_first]. rewrite (sid_of_get _ _ Hr). cbn [mbind res_bind].
  rewrite (has_sid_eq _ s _ Hr).
  destruct (has_sid s r).
  - destruct r; reflexivity.
  - rewrite IH. reflexivity.
Qed.

Lemma update_session_step s updates records stamp w :
  fst (read_sessions w) = Ok (registry_doc records stamp) ->
  Forall (fun r => is_Some (sid_of r)) records ->
  update_session (JStr s) updates w =
    (Ok true,
     set_registry
       (Some (Document (registry_doc (patch_first s updates records)
                          (JInt (clock_time w (ticks w))))))
       (set_ticks (S (ticks w)) w)).
Proof.
  intros Hread Hrecords. unfold update_session.
  unfold mbind at 1, ST_bind at 1. rewrite read_sessions_eq, Hread.
  unfold mbind, ST_bind, lift, registry_doc, Py.getitem, Py.iter.
  cbn [Py.dict_get String.eqb Ascii.eqb Bool.eqb]. cbn match.
  rewrite (update_first_patch s updates records Hrecords). reflexivity.
Qed.

Lemma patch_first_at s updates before d after :
  sid_of (JObj d) = Some s ->
  Forall (fun r => sid_of r <> Some s) before ->
  patch_first s updates (before ++ JObj d :: after)
    = (before ++ JObj (Py.dict_update updates d) :: after)%list.
Proof.
  intros Hd. induction 1 as [|r before Hr _ IH].
  - cbn [app patch_first]. rewrite (proj2 (has_sid_true s (JObj d)) Hd). reflexivity.
  - cbn [app patch_first].
    destruct (has_sid s r) eqn:E; [apply has_sid_true in E; contradiction |].
    rewrite IH. reflexivity.
Qed.

Lemma patch_first_none s updates records :
  Forall (fun r => sid_of r <> Some s) records ->
  patch_first s updates records = records.
Proof.
  induction 1 as [|r records Hr _ IH]; [reflexivity |].
  cbn [patch_first].
  destruct (has_sid s r) eqn:E; [apply has_sid_true in E; contradiction |].
  rewrite IH. reflexivity.
Qed.

(** The status that [main] computes is the one that the words give. *)
Lemma status_of_in_words message :
  exists status,
    status_of (JStr message) = Ok status /\ status_in_words message status.
Proof.
  unfold status_of, lower_of, status_in_words. cbn [mbind res_bind].
  pose proof (contains_lower_mentions "permission" message eq_refl) as Hp.
  pose proof (contains_lower_mentions "waiting for your input" message eq_refl) as Hw.
  pose proof (contains_lower_mentions "idle" message eq_refl) as Hi.
  fold (mentions "permission" message) in Hp.
  fold (mentions "waiting for your input" message) in Hw.
  fold (mentions "idle" message) in Hi.
  destruct (Py.contains "permission" (Py.lower message)).
  - eexists. split; [reflexivity |]. left. split; [apply Hp |]; reflexivity.
  - assert (Hnp : ~ mentions "permission" message).
    { intros H. apply Hp in H. discriminate. }
    destruct (Py.contains "waiting for your input" (Py.lower message)).
    + eexists. split; [reflexivity |]. right; left.
      split; [exact Hnp |]. split; [left; apply Hw |]; reflexivity.
    + destruct (Py.contains "idle" (Py.lower message)).
      * eexists. split; [reflexivity |]. right; left.
        split; [exact Hnp |]. split; [right; apply Hi |]; reflexivity.
      * eexists. split; [reflexivity |]. right; right.
        split; [exact Hnp |].
        split; [intros H; apply Hw in H; discriminate |].
        split; [intros H; apply Hi in H; discriminate | reflexivity].
Qed.

Lemma read_sessions_ticks n w :
  fst (read_sessions (set_ticks n w)) = fst (read_sessions w).
Proof.
  unfold read_sessions. cbn [registry set_ticks].
  destruct (registry w) as [[e|doc]|]; [| reflexivity | reflexivity].
  unfold try_except, lift, json_load.
  destruct (is_JSONDecodeError_or_IOError e); reflexivity.
Qed.

Lemma main_run ev sid message status records stamp w :
  Py.dict_get "session_id" ev = Some (JStr sid) ->
  sid <> EmptyString ->
  default (JStr EmptyString) (Py.dict_get "message" ev) = JStr message ->
  status_of (JStr message) = Ok status ->
  fst (read_sessions w) = Ok (registry_doc records stamp) ->
  Forall (fun r => is_Some (sid_of r)) records ->
  main (Document (JObj ev)) w =
    (Ok tt,
     set_registry
       (Some (Document (registry_doc
          (patch_first sid
             (updates_for status (clock_time w (ticks w)) message) records)
          (JInt (clock_time w (S (ticks w)))))))
       (set_ticks (S (S (ticks w))) w)).
Proof.
  intros Hsid Hne Hmsg Hstatus Hread Hrecords.
  unfold main, try_except, mbind at 1 2 3, ST_bind at 1 2 3, lift at 1 2 3,
    json_load, Py.get.
  rewrite Hsid, Hmsg. cbn [default from_option id].
  assert (Ht : Py.truthy (JStr sid) = true) by (destruct sid; [congruence | reflexivity]).
  rewrite Ht. cbn [negb].
  unfold mbind at 1, ST_bind at 1, lift at 1. rewrite Hstatus.
  unfold mbind at 1, ST_bind at 1, time_time at 1.
  unfold mbind at 1, ST_bind at 1.
  rewrite <- (read_sessions_ticks (S (ticks w)) w) in Hread.
  rewrite (update_session_step sid _ records stamp _ Hread Hrecords).
  reflexivity.
Qed.

Lemma updated_record status now message d :
  let d' := Py.dict_update (updates_for status now message) d in
  Py.dict_get "status" d' = Some (JStr status) /\
  Py.dict_get "last_activity" d' = Some (JInt now) /\
  Py.dict_get "last_notification" d' = Some (JStr message) /\
  forall k, k <> "status" -> k <> "last_activity" -> k <> "last_notification" ->
            Py.dict_get k d' = Py.dict_get k d.
Proof.
  cbv zeta. unfold Py.dict_update, updates_for. cbn [fold_left fst snd].
  split; [| split; [| split]].
  - rewrite !dict_get_set_ne by discriminate. apply dict_get_set_eq.
  - rewrite dict_get_set_ne by discriminate. apply dict_get_set_eq.
  - apply dict_get_set_eq.
  - intros k Hs Ha Hn. rewrite !dict_get_set_ne by congruence. reflexivity.
Qed.

(** C10. For a notification with a session identifier that is not empty
    and a message that is text: the status is the one that the words of
    the message give, whatever their case, with permission first, then
    waiting for your input or idle, then running; the record of the
    session takes that status, the reading of the clock as last activity
    and the message as last notification, in one write of the registry,
    and its other fields and the other records stay as they are. *)
Theorem notification_sets_status ev sid message records w :
  Py.dict_get "session_id" ev = Some (JStr sid) ->
  sid <> EmptyString ->
  default (JStr EmptyString) (Py.dict_get "message" ev) = JStr message ->
  holds_records w records ->
  exists status,
    status_in_words message status /\
    (forall before d after,
       records = (before ++ JObj d :: after)%list ->
       sid_of (JObj d) = Some sid ->
       Forall (fun r => sid_of r <> Some sid) before ->
       exists d',
         sessions_of (snd (main (Document (JObj ev)) w))
           = (before ++ JObj d' :: after)%list /\
         Py.dict_get "status" d' = Some (JStr status) /\
         Py.dict_get "last_activity" d' = Some (JInt (clock_time w (ticks w))) /\
         Py.dict_get "last_notification" d' = Some (JStr message) /\
         forall k, k <> "status" -> k <> "last_activity" -> k <> "last_notification" ->
                   Py.dict_get k d' = Py.dict_get k d) /\
    (Forall (fun r => sid_of r <> Some sid) records ->
     sessions_of (snd (main (Document (JObj ev)) w)) = records).
Proof.
  intros Hsid Hne Hmsg [[stamp Hread] Hrecords].
  destruct (status_of_in_words message) as (status & Hstatus & Hwords).
  exists status. split; [exact Hwords |].
  rewrite (main_run ev sid message status records stamp w
             Hsid Hne Hmsg Hstatus Hread Hrecords).
  cbn [snd]. rewrite sessions_of_written. split.
  - intros before d after -> Hd Hbefore.
    rewrite (patch_first_at sid _ before d after Hd Hbefore).
    eexists. split; [reflexivity |].
    apply updated_record.
  - intros Hnone. apply patch_first_none, Hnone.
Qed.

End Notification.

(** ** Worked examples *)

Section Examples.
Import ApprovalHook.

Lemma judge_fails_to_ask_witness :
  Py.upper (Py.strip " maybe ") <> "ALLOW" /\
  fst (judge_with_grok (JStr "Bash") (JObj []) (JStr "/")
         (set_grok (Sample.judge_says " maybe ") Sample.blank)) = Ok "ask" /\
  fst (judge_with_grok (JStr "Bash") (JObj []) (JStr "/")
         (set_grok (Sample.judge_says (Sample.nbsp ++ "allowed" ++ Sample.nbsp))
            Sample.blank)) = Ok "ask" /\
  fst (judge_with_grok (JStr "Bash") (JObj []) (JStr "/")
         (set_grok (Sample.judge_says (Sample.nbsp ++ "ALLOW" ++ Sample.nbsp))
            Sample.blank)) = Ok "allow".
Proof.
  split; [discriminate |]. split; [| split; [| reflexivity]].
  - apply (judge_fails_to_ask (set_grok (Sample.judge_says " maybe ") Sample.blank)).
    right. exists " maybe ". repeat split; discriminate.
  - apply (judge_fails_to_ask
             (set_grok (Sample.judge_says (Sample.nbsp ++ "allowed" ++ Sample.nbsp))
                Sample.blank)).
    right. exists (Sample.nbsp ++ "allowed" ++ Sample.nbsp). repeat split; discriminate.
Defined.



Lemma rejected_call_is_excluded_witness :
  "toolu_01" <> EmptyString /\
  StopHook.parse_latest_todos
    (Some [Sample.rejection_line "toolu_01";
           Sample.todo_write_line "toolu_01" [Sample.todo_A]])
    = StopHook.parse_latest_todos
        (Some [Sample.rejection_line "toolu_01"; Sample.emptied_line]) /\
  StopHook.parse_latest_todos
    (Some [Sample.todo_write_line "toolu_01" [Sample.todo_A];
           Sample.rejection_line "toolu_01"]) = JNull /\
  StopHook.parse_latest_todos
    (Some [Sample.todo_write_line "toolu_01" [Sample.todo_A];
           Sample.rejection_blocks_line "toolu_01"])
    = StopHook.parse_latest_todos
        (Some [Sample.emptied_line; Sample.rejection_blocks_line "toolu_01"]).
Proof.
  assert (Hx : "toolu_01" <> EmptyString) by discriminate.
  destruct (rejected_call_is_excluded "toolu_01" Hx) as [Hany Hone].
  destruct (sample_lines_hold_blocks "toolu_01" [Sample.todo_A])
    as (Hcall & Hempty & Hrej).
  split; [exact Hx |]. split; [| split; [exact Hone |]].
  - refine (Hany [Sample.rejection_line "toolu_01"] []
              (Sample.todo_write_line "toolu_01" [Sample.todo_A]) Sample.emptied_line
              [] _ [] (Sample.rejection_line "toolu_01") _ _
              Hcall Hempty _ _ Hrej _ _).
    + eexists. repeat split; reflexivity.
    + left; reflexivity.
    + left; reflexivity.
    + do 2 eexists. repeat split; reflexivity.
  - refine (Hany [] [Sample.rejection_blocks_line "toolu_01"]
              (Sample.todo_write_line "toolu_01" [Sample.todo_A]) Sample.emptied_line
              [] _ [] (Sample.rejection_blocks_line "toolu_01") _ _
              Hcall Hempty _ _ _ _ _).
    + eexists. repeat split; reflexivity.
    + right; left; reflexivity.
    + do 2 eexists. repeat split; reflexivity.
    + left; reflexivity.
    + do 2 eexists. repeat split; reflexivity.
Defined.

Lemma empty_list_overwrites_witness :
  StopHook.well_formed Sample.cleared_transcript = true /\
  StopHook.parse_latest_todos (Some Sample.cleared_transcript) = JArr [] /\
  StopHook.get_pending_todos (StopHook.parse_latest_todos (Some Sample.cleared_transcript))
    = Ok [].
Proof.
  split; [reflexivity |].
  apply (empty_list_overwrites (JStr "toolu_02")
           [Sample.todo_write_line "toolu_01" [Sample.todo_A]; Garbage]
           (Sample.todo_write_line "toolu_02" []) [] []
           (JObj [("type", JStr "tool_use"); ("id", JStr "toolu_02");
                  ("name", JStr "TodoWrite");
                  ("input", JObj [("todos", JArr [])])]) []).
  - reflexivity.
  - do 2 eexists. repeat split; reflexivity.
  - eexists. repeat split; reflexivity.
  - do 2 eexists. repeat split; reflexivity.
  - intros l blocks block Hl (e & m & -> & Hm & Hc) Hblock
      (b & error & tool_use_id & -> & Hty & _).
    destruct Hl as [Hl | [Hl | [Hl | []]]]; inversion Hl; subst e;
      inversion Hm; subst m; inversion Hc; subst blocks;
      destruct Hblock as [Hb | []]; inversion Hb; subst b; discriminate.
  - intros block [].
  - intros l blocks block [].
Defined.

Lemma add_session_is_an_upsert_witness :
  fst (HookUtils.read_sessions Sample.blank) = Ok HookUtils.empty_structure /\
  Forall (fun d => is_Some (HookUtils.sid_of d)) Sample.registrations /\
  fst (HookUtils.add_sessions Sample.registrations Sample.blank) = Ok tt /\
  NoDup (map HookUtils.sid_of
           (HookUtils.sessions_of
              (snd (HookUtils.add_sessions Sample.registrations Sample.blank)))) /\
  In (Sample.session "a" "/z")
    (HookUtils.sessions_of
       (snd (HookUtils.add_sessions Sample.registrations Sample.blank))).
Proof.
  assert (Hcalls : Forall (fun d => is_Some (HookUtils.sid_of d)) Sample.registrations).
  { repeat constructor; eexists; reflexivity. }
  destruct (add_session_is_an_upsert Sample.registrations Sample.blank eq_refl Hcalls)
    as (Hok & Hnodup & Hmembers & _).
  split; [reflexivity |]. split; [exact Hcalls |].
  split; [exact Hok |]. split; [exact Hnodup |].
  apply Hmembers. exists "a". reflexivity.
Defined.

Lemma save_then_load_witness :
  SessionSettings.plain_name (JStr "s1") = true /\
  exists loaded,
    fst (SessionSettings.load_settings (JStr "s1")
           (snd (SessionSettings.save_settings (JStr "s1")
                   (JObj [("metadata", JObj [("approval_mode", JStr "strict")]);
                          ("updated_at", JStr "2025-01-01T00:00:00Z")])
                   Sample.blank)))
      = Ok (JObj loaded) /\
    Py.dict_get "metadata" loaded
      = Some (JObj [("approval_mode", JStr "strict")]) /\
    Py.dict_get "updated_at" loaded = Some (JStr "2025-10-20T22:40:10.120000Z").
Proof.
  split; [reflexivity |].
  destruct (save_then_load (JStr "s1")
              [("metadata", JObj [("approval_mode", JStr "strict")]);
               ("updated_at", JStr "2025-01-01T00:00:00Z")]
              Sample.blank eq_refl) as (loaded & Hload & Hsame & Hstamp).
  exists loaded. split; [exact Hload |]. split; [| exact Hstamp].
  rewrite Hsame; [reflexivity | discriminate].
Defined.


Lemma notification_sets_status_witness :
  HookUtils.holds_records Sample.with_sessions
    [Sample.session "a" "/x"; Sample.session "b" "/y"] /\
  NotificationHook.mentions "permission" "Claude needs your PERMISSION to use Bash" /\
  exists d',
    HookUtils.sessions_of
      (snd (NotificationHook.main (Document (JObj Sample.permission_event))
              Sample.with_sessions))
      = [Sample.session "a" "/x"; JObj d'] /\
    Py.dict_get "status" d' = Some (JStr "needs_permission") /\
    Py.dict_get "last_notification" d'
      = Some (JStr "Claude needs your PERMISSION to use Bash") /\
    Py.dict_get "cwd" d' = Some (JStr "/y").
Proof.
  assert (Hw : HookUtils.holds_records Sample.with_sessions
                 [Sample.session "a" "/x"; Sample.session "b" "/y"]).
  { split; [eexists; reflexivity | repeat constructor; eexists; reflexivity]. }
  assert (Hmentions : NotificationHook.mentions "permission"
                        "Claude needs your PERMISSION to use Bash").
  { exists "Claude needs your ", "PERMISSION", " to use Bash".
    split; [reflexivity |]. cbn [Words.spells].
    repeat split; right; repeat split;
      try reflexivity; vm_compute; discriminate. }
  split; [exact Hw |]. split; [exact Hmentions |].
  destruct (notification_sets_status Sample.permission_event "b"
              "Claude needs your PERMISSION to use Bash"
              [Sample.session "a" "/x"; Sample.session "b" "/y"]
              Sample.with_sessions eq_refl ltac:(discriminate) eq_refl Hw)
    as (status & Hwords & Hrecord & _).
  assert (Hstatus : status = "needs_permission").
  { destruct Hwords as [[_ ->] | [[Hno _] | [Hno _]]];
      [reflexivity | destruct (Hno Hmentions) | destruct (Hno Hmentions)]. }
  subst status.
  destruct (Hrecord [Sample.session "a" "/x"]
              [("session_id", JStr "b"); ("cwd", JStr "/y"); ("status", JStr "running")]
              [] eq_refl eq_refl)
    as (d' & Hsessions & Hstatus & _ & Hnote & Hother).
  { repeat constructor. discriminate. }
  exists d'. split; [exact Hsessions |]. split; [exact Hstatus |].
  split; [exact Hnote |].
  rewrite Hother; [reflexivity | discriminate ..].
Defined.

Lemma pipeline_disk_effect_witness :
  SessionSettings.plain_name (event_session Sample.read_event) = true /\
  registry (snd (main (Document (JObj Sample.read_event)) (Sample.with_mode "ai")))
    = registry (Sample.with_mode "ai") /\
  settings (snd (main (Document (JObj Sample.read_event)) (Sample.with_mode "ai")))
    = settings (Sample.with_mode "ai").
Proof.
  split; [reflexivity |].
  destruct (pipeline_disk_effect (Document (JObj Sample.read_event)) (Sample.with_mode "ai"))
    as (Hregistry & [Hsettings | (d & Hd & _ & Hnone & _)]).
  - intros d Hd. injection Hd as <-. right. reflexivity.
  - split; [exact Hregistry | exact Hsettings].
  - injection Hd as <-. discriminate Hnone.
Defined.

End Examples.

(** * Further properties *)

(** ** The registry: removal, shape errors, time stamps *)

Section RegistryMore.
Import HookUtils.

Lemma remove_session_step s records stamp w :
  fst (read_sessions w) = Ok (registry_doc records stamp) ->
  Forall (fun r => is_Some (sid_of r)) records ->
  remove_session (JStr s) w =
    (Ok true,
     set_registry
       (Some (Document (registry_doc
          (List.filter (fun r => negb (has_sid s r)) records)
          (JInt (clock_time w (ticks w))))))
       (set_ticks (S (ticks w)) w)).
Proof.
  intros Hread Hrecords. unfold remove_session.
  unfold mbind at 1, ST_bind at 1. rewrite read_sessions_eq, Hread.
  unfold mbind, ST_bind, lift, registry_doc, Py.getitem, Py.iter.
  cbn [Py.dict_get String.eqb Ascii.eqb Bool.eqb]. cbn match.
  rewrite (without_session_filter s records Hrecords). reflexivity.
Qed.

(** X1. [remove_session] takes out every record of the identifier and
    keeps the other records, in their order. *)
Theorem remove_session_removes s records w :
  holds_records w records ->
  fst (remove_session (JStr s) w) = Ok true /\
  sessions_of (snd (remove_session (JStr s) w))
    = List.filter (fun r => negb (has_sid s r)) records /\
  (forall r, In r (sessions_of (snd (remove_session (JStr s) w))) ->
             sid_of r <> Some s) /\
  (forall r, In r records -> sid_of r <> Some s ->
             In r (sessions_of (snd (remove_session (JStr s) w)))).
Proof.
  intros [[stamp Hread] Hrecords].
  rewrite (remove_session_step s records stamp w Hread Hrecords).
  cbn [fst snd]. rewrite sessions_of_written.
  split; [reflexivity |]. split; [reflexivity |]. split.
  - intros r Hr Hs. apply filter_In in Hr as [_ Hkeep].
    rewrite (proj2 (has_sid_true s r) Hs) in Hkeep. discriminate.
  - intros r Hr Hs. apply filter_In. split; [exact Hr |].
    destruct (has_sid s r) eqn:E; [| reflexivity].
    apply has_sid_true in E. contradiction.
Qed.

Lemma remove_session_removes_witness :
  holds_records Sample.with_sessions [Sample.session "a" "/x"; Sample.session "b" "/y"] /\
  sessions_of (snd (remove_session (JStr "a") Sample.with_sessions))
    = [Sample.session "b" "/y"].
Proof.
  assert (Hw : holds_records Sample.with_sessions
                 [Sample.session "a" "/x"; Sample.session "b" "/y"]).
  { split; [eexists; reflexivity | repeat constructor; eexists; reflexivity]. }
  split; [exact Hw |].
  exact (proj1 (proj2 (remove_session_removes "a" _ Sample.with_sessions Hw))).
Defined.

Lemma update_session_without_key d w session_id updates :
  registry w = Some (Document (JObj d)) ->
  Py.dict_get "sessions" d = None ->
  update_session session_id updates w = (Raise (KeyError "'sessions'"), w).
Proof.
  intros Hfile Hkey.
  assert (Hread : read_sessions w = (Ok (JObj d), w)).
  { unfold read_sessions. rewrite Hfile. reflexivity. }
  unfold update_session. unfold mbind at 1, ST_bind at 1. rewrite Hread.
  unfold mbind, ST_bind, lift, Py.getitem. rewrite Hkey. reflexivity.
Qed.

(** X2. A registry file that parses to a record without the [sessions]
    key is not recovered: the three operations raise a [KeyError] and
    leave the world as it is. *)
Theorem registry_without_sessions_key d w session_data session_id updates :
  registry w = Some (Document (JObj d)) ->
  Py.dict_get "sessions" d = None ->
  add_session (JObj session_data) w = (Raise (KeyError "'sessions'"), w) /\
  remove_session session_id w = (Raise (KeyError "'sessions'"), w) /\
  update_session session_id updates w = (Raise (KeyError "'sessions'"), w).
Proof.
  intros Hfile Hkey.
  assert (Hread : read_sessions w = (Ok (JObj d), w)).
  { unfold read_sessions. rewrite Hfile. reflexivity. }
  repeat split.
  - unfold add_session. unfold mbind at 1, ST_bind at 1. rewrite Hread.
    unfold mbind, ST_bind, lift, Py.get, Py.getitem. rewrite Hkey. reflexivity.
  - unfold remove_session. unfold mbind at 1, ST_bind at 1. rewrite Hread.
    unfold mbind, ST_bind, lift, Py.getitem. rewrite Hkey. reflexivity.
  - exact (update_session_without_key d w session_id updates Hfile Hkey).
Qed.

Lemma registry_without_sessions_key_witness :
  registry Sample.without_sessions_key = Some (Document (JObj [("last_updated", JNull)])) /\
  add_session (Sample.session "a" "/x") Sample.without_sessions_key
    = (Raise (KeyError "'sessions'"), Sample.without_sessions_key).
Proof.
  split; [reflexivity |].
  exact (proj1 (registry_without_sessions_key [("last_updated", JNull)]
                  Sample.without_sessions_key
                  [("session_id", JStr "a"); ("cwd", JStr "/x"); ("status", JStr "running")]
                  JNull [] eq_refl eq_refl)).
Defined.

(** X3. [update_session] with an identifier that no record carries
    returns [True] all the same: the records are written back as they
    were, under a new [last_updated]. *)
Theorem update_session_unknown_id s updates records w :
  holds_records w records ->
  Forall (fun r => sid_of r <> Some s) records ->
  update_session (JStr s) updates w =
    (Ok true,
     set_registry
       (Some (Document (registry_doc records (JInt (clock_time w (ticks w))))))
       (set_ticks (S (ticks w)) w)).
Proof.
  intros [[stamp Hread] Hrecords] Hnone.
  rewrite (update_session_step s updates records stamp w Hread Hrecords).
  rewrite (patch_first_none s updates records Hnone). reflexivity.
Qed.

Lemma update_session_unknown_id_witness :
  sessions_of (snd (update_session (JStr "c") [("status", JStr "waiting_for_input")]
                      Sample.with_sessions))
    = [Sample.session "a" "/x"; Sample.session "b" "/y"].
Proof.
  rewrite (update_session_unknown_id "c" [("status", JStr "waiting_for_input")]
             [Sample.session "a" "/x"; Sample.session "b" "/y"] Sample.with_sessions).
  - reflexivity.
  - split; [eexists; reflexivity | repeat constructor; eexists; reflexivity].
  - repeat constructor; discriminate.
Defined.

Lemma filter_twice {A} (keep : A -> bool) (l : list A) :
  List.filter keep (List.filter keep l) = List.filter keep l.
Proof.
  induction l as [|x l IH]; [reflexivity |]. cbn [List.filter].
  destruct (keep x) eqn:E; [| exact IH]. cbn [List.filter]. rewrite E, IH. reflexivity.
Qed.

(** X4. Removing a session after adding it leaves the records that do not
    carry its identifier; adding it after removing it gives the records
    that adding it alone gives. *)
Theorem add_and_remove_compose session_data s records w :
  holds_records w records ->
  sid_of session_data = Some s ->
  sessions_of (snd (remove_session (JStr s) (snd (add_session session_data w))))
    = List.filter (fun r => negb (has_sid s r)) records /\
  sessions_of (snd (add_session session_data (snd (remove_session (JStr s) w))))
    = sessions_of (snd (add_session session_data w)).
Proof.
  intros [[stamp Hread] Hrecords] Hsid.
  assert (Hkept : Forall (fun r => is_Some (sid_of r))
                    (List.filter (fun r => negb (has_sid s r)) records)).
  { apply List.Forall_forall. intros r Hr. apply filter_In in Hr as [Hr _].
    exact (proj1 (List.Forall_forall _ _) Hrecords r Hr). }
  rewrite (add_session_step session_data s records stamp w Hread Hrecords Hsid).
  rewrite (remove_session_step s records stamp w Hread Hrecords).
  cbn [snd]. split.
  - erewrite remove_session_step; [| reflexivity |].
    + cbn [snd]. rewrite sessions_of_written. unfold upsert. rewrite Hsid.
      rewrite List.filter_app, filter_twice. cbn [List.filter].
      rewrite (proj2 (has_sid_true s session_data) Hsid). cbn [negb].
      apply app_nil_r.
    + unfold upsert. rewrite Hsid. apply Forall_app. split; [exact Hkept |].
      repeat constructor. rewrite Hsid. eexists; reflexivity.
  - erewrite add_session_step; [| reflexivity | exact Hkept | exact Hsid].
    cbn [snd]. rewrite !sessions_of_written. unfold upsert. rewrite Hsid.
    rewrite filter_twice. reflexivity.
Qed.

Lemma add_and_remove_compose_witness :
  sessions_of (snd (remove_session (JStr "a")
                      (snd (add_session (Sample.session "a" "/z") Sample.with_sessions))))
    = [Sample.session "b" "/y"].
Proof.
  assert (Hw : holds_records Sample.with_sessions
                 [Sample.session "a" "/x"; Sample.session "b" "/y"]).
  { split; [eexists; reflexivity | repeat constructor; eexists; reflexivity]. }
  rewrite (proj1 (add_and_remove_compose (Sample.session "a" "/z") "a" _
                    Sample.with_sessions Hw eq_refl)).
  reflexivity.
Defined.

End RegistryMore.

(** ** The settings: setters, fail-open reads, reset *)

Section SettingsMore.
Import SessionSettings.

Lemma set_nested_dict d outer key value :
  Py.dict_get outer d = None \/ (exists m, Py.dict_get outer d = Some (JObj m)) ->
  exists d' m',
    set_nested (JObj d) outer key value = Ok (JObj d') /\
    Py.dict_get outer d' = Some (JObj m') /\
    Py.dict_get key m' = Some value /\
    (forall k, k <> key ->
       Py.dict_get k m' =
         match Py.dict_get outer d with
         | Some (JObj m) => Py.dict_get k m
         | _ => None
         end) /\
    (forall k, k <> outer -> Py.dict_get k d' = Py.dict_get k d).
Proof.
  intros [Hnone | [m Hsome]].
  - exists (Py.dict_set outer (JObj [(key, value)]) (Py.dict_set outer (JObj []) d)),
           [(key, value)].
    split; [| split; [| split; [| split]]].
    + unfold set_nested, Py.has. rewrite Hnone. cbn [mbind res_bind Py.setitem].
      unfold Py.getitem. rewrite dict_get_set_eq. reflexivity.
    + apply dict_get_set_eq.
    + cbn [Py.dict_get]. rewrite String.eqb_refl. reflexivity.
    + intros k Hk. rewrite Hnone. cbn [Py.dict_get].
      apply not_eq_sym, String.eqb_neq in Hk. rewrite Hk. reflexivity.
    + intros k Hk. rewrite !dict_get_set_ne by (apply not_eq_sym; exact Hk). reflexivity.
  - exists (Py.dict_set outer (JObj (Py.dict_set key value m)) d), (Py.dict_set key value m).
    split; [| split; [| split; [| split]]].
    + unfold set_nested, Py.has. rewrite Hsome. cbn [mbind res_bind].
      unfold Py.getitem. rewrite Hsome. reflexivity.
    + apply dict_get_set_eq.
    + apply dict_get_set_eq.
    + intros k Hk. rewrite Hsome. apply dict_get_set_ne, not_eq_sym, Hk.
    + intros k Hk. apply dict_get_set_ne, not_eq_sym, Hk.
Qed.

Lemma get_metadata_loaded sid key dflt w d :
  fst (load_settings sid w) = Ok (JObj d) ->
  fst (get_metadata sid key dflt w) =
    (metadata ← Py.get (JObj d) "metadata" (JObj []); Py.get metadata key dflt).
Proof.
  intros Hload. unfold get_metadata, mbind at 1 2, ST_bind.
  destruct (load_settings sid w) as [r w1]. cbn [fst] in Hload. subst r.
  unfold lift. destruct (Py.get (JObj d) "metadata" (JObj [])); reflexivity.
Qed.

Lemma is_hook_enabled_loaded sid hook_name w d :
  fst (load_settings sid w) = Ok (JObj d) ->
  fst (is_hook_enabled sid hook_name w) =
    (hooks_enabled ← Py.get (JObj d) "hooks_enabled" (JObj []);
     Py.get hooks_enabled hook_name (JBool true)).
Proof.
  intros Hload. unfold is_hook_enabled, mbind at 1 2, ST_bind.
  destruct (load_settings sid w) as [r w1]. cbn [fst] in Hload. subst r.
  unfold lift. destruct (Py.get (JObj d) "hooks_enabled" (JObj [])); reflexivity.
Qed.

(** A load that returns has found where the path of the session leads. *)
Lemma load_settings_resolves sid w doc :
  Py.truthy sid = true ->
  fst (load_settings sid w) = Ok doc ->
  exists place, resolve (snd (load_settings sid w)) sid = Ok place.
Proof.
  intros Hid Hload. destruct (resolve w sid) as [place|e] eqn:Hplace.
  - exists place.
    rewrite (resolve_elsewhere sid w _ (proj1 (proj2 (load_settings_oracles sid w)))).
    exact Hplace.
  - rewrite (load_settings_nowhere _ _ _ Hid Hplace) in Hload. discriminate Hload.
Qed.

(** The world after a setter has stored the changed dictionary [d']. *)
Lemma setter_stores sid w1 d' place :
  Py.truthy sid = true ->
  resolve w1 sid = Ok place ->
  (_ ← save_settings sid (JObj d'); mret tt) w1 =
    (Ok tt,
     write_slot place
       (Document (JObj (Py.dict_set "updated_at"
                          (JStr (clock_iso w1 (ticks w1) ++ "Z")) d')))
       (set_ticks (S (ticks w1)) w1)).
Proof.
  intros Hid Hplace. unfold mbind, ST_bind.
  rewrite (save_settings_at sid d' w1 place Hid Hplace). reflexivity.
Qed.

Lemma load_settings_stored sid w place doc :
  Py.truthy sid = true ->
  resolve w sid = Ok place ->
  fst (load_settings sid (write_slot place (Document doc) w)) = Ok doc.
Proof.
  intros Hid Hplace. rewrite (load_settings_reads sid _ doc Hid); [reflexivity |].
  apply file_of_written, Hplace.
Qed.

Lemma set_metadata_run sid key value w d d' :
  Py.truthy sid = true ->
  fst (load_settings sid w) = Ok (JObj d) ->
  set_nested (JObj d) "metadata" key value = Ok (JObj d') ->
  exists w1 stamp place,
    resolve w1 sid = Ok place /\
    set_metadata sid key value w =
      (Ok tt, write_slot place (Document (JObj (Py.dict_set "updated_at" stamp d'))) w1).
Proof.
  intros Hid Hload Hset.
  destruct (load_settings_resolves sid w _ Hid Hload) as [place Hplace].
  unfold set_metadata. unfold mbind at 1, ST_bind at 1.
  destruct (load_settings sid w) as [r w1]. cbn [fst snd] in Hload, Hplace. subst r.
  unfold mbind at 1, ST_bind at 1, lift. rewrite Hset.
  rewrite (setter_stores sid w1 d' place Hid Hplace).
  exists (set_ticks (S (ticks w1)) w1), (JStr (clock_iso w1 (ticks w1) ++ "Z")), place.
  split; [| reflexivity].
  rewrite (resolve_elsewhere sid w1 (set_ticks (S (ticks w1)) w1) eq_refl). exact Hplace.
Qed.

Lemma set_hook_enabled_run sid hook_name enabled w d d' :
  Py.truthy sid = true ->
  fst (load_settings sid w) = Ok (JObj d) ->
  set_nested (JObj d) "hooks_enabled" hook_name (JBool enabled) = Ok (JObj d') ->
  exists w1 stamp place,
    resolve w1 sid = Ok place /\
    set_hook_enabled sid hook_name enabled w =
      (Ok tt, write_slot place (Document (JObj (Py.dict_set "updated_at" stamp d'))) w1).
Proof.
  intros Hid Hload Hset.
  destruct (load_settings_resolves sid w _ Hid Hload) as [place Hplace].
  unfold set_hook_enabled. unfold mbind at 1, ST_bind at 1.
  destruct (load_settings sid w) as [r w1]. cbn [fst snd] in Hload, Hplace. subst r.
  unfold mbind at 1, ST_bind at 1, lift. rewrite Hset.
  rewrite (setter_stores sid w1 d' place Hid Hplace).
  exists (set_ticks (S (ticks w1)) w1), (JStr (clock_iso w1 (ticks w1) ++ "Z")), place.
  split; [| reflexivity].
  rewrite (resolve_elsewhere sid w1 (set_ticks (S (ticks w1)) w1) eq_refl). exact Hplace.
Qed.

(** X5. [set_metadata] then [get_metadata]: the value set under a key is
    the value read, whatever default is passed; the other keys of the
    metadata and the hook flags read as before. *)
Theorem set_metadata_then_get sid key value w doc :
  Py.truthy sid = true ->
  fst (load_settings sid w) = Ok doc ->
  nests "metadata" doc ->
  fst (set_metadata sid key value w) = Ok tt /\
  (forall dflt,
     fst (get_metadata sid key dflt (snd (set_metadata sid key value w))) = Ok value) /\
  (forall k dflt, k <> key ->
     fst (get_metadata sid k dflt (snd (set_metadata sid key value w)))
       = fst (get_metadata sid k dflt w)) /\
  (forall hook_name,
     fst (is_hook_enabled sid hook_name (snd (set_metadata sid key value w)))
       = fst (is_hook_enabled sid hook_name w)).
Proof.
  intros Hid Hload [d [-> Hnest]].
  destruct (set_nested_dict d "metadata" key value Hnest)
    as (d' & m' & Hset & Hmeta & Hkey & Hothers & Hframe).
  destruct (set_metadata_run sid key value w d d' Hid Hload Hset)
    as (w1 & stamp & place & Hplace & Hrun).
  rewrite Hrun. cbn [fst snd].
  assert (Hget : forall k, k <> "updated_at" ->
            Py.dict_get k (Py.dict_set "updated_at" stamp d') = Py.dict_get k d').
  { intros k Hk. apply dict_get_set_ne, not_eq_sym, Hk. }
  split; [reflexivity |]. split; [| split].
  - intros dflt.
    rewrite (get_metadata_loaded sid key dflt _ _
               (load_settings_stored sid w1 place _ Hid Hplace)).
    unfold Py.get at 2. rewrite Hget by discriminate. rewrite Hmeta.
    cbn [default from_option id mbind res_bind Py.get]. rewrite Hkey. reflexivity.
  - intros k dflt Hk.
    rewrite (get_metadata_loaded sid k dflt _ _
               (load_settings_stored sid w1 place _ Hid Hplace)).
    rewrite (get_metadata_loaded sid k dflt w d Hload).
    unfold Py.get at 2 4. rewrite Hget by discriminate. rewrite Hmeta.
    cbn [default from_option id mbind res_bind Py.get]. rewrite (Hothers k Hk).
    destruct Hnest as [Hnone | [m Hsome]].
    + rewrite Hnone. reflexivity.
    + rewrite Hsome. reflexivity.
  - intros hook_name.
    rewrite (is_hook_enabled_loaded sid hook_name _ _
               (load_settings_stored sid w1 place _ Hid Hplace)).
    rewrite (is_hook_enabled_loaded sid hook_name w d Hload).
    unfold Py.get at 2 4. rewrite Hget by discriminate.
    rewrite (Hframe "hooks_enabled") by discriminate. reflexivity.
Qed.

Lemma set_metadata_then_get_witness :
  fst (load_settings (JStr "s1") Sample.with_hooks_only)
    = Ok (JObj [("hooks_enabled", JObj [("stop-hook", JBool false)])]) /\
  fst (get_metadata (JStr "s1") "approval_mode" (JStr "ai")
         (snd (set_metadata (JStr "s1") "approval_mode" (JStr "strict")
                 Sample.with_hooks_only)))
    = Ok (JStr "strict").
Proof.
  assert (Hload : fst (load_settings (JStr "s1") Sample.with_hooks_only)
                  = Ok (JObj [("hooks_enabled", JObj [("stop-hook", JBool false)])])).
  { erewrite load_settings_document; reflexivity. }
  split; [exact Hload |].
  apply (set_metadata_then_get (JStr "s1") "approval_mode" (JStr "strict")
           Sample.with_hooks_only _ eq_refl Hload).
  eexists. split; [reflexivity |]. left. reflexivity.
Defined.

(** X6. [set_hook_enabled] then [is_hook_enabled]: the flag set for a hook
    is the flag read; the flags of the other hooks and the metadata read
    as before. *)
Theorem set_hook_enabled_then_read sid hook_name enabled w doc :
  Py.truthy sid = true ->
  fst (load_settings sid w) = Ok doc ->
  nests "hooks_enabled" doc ->
  fst (set_hook_enabled sid hook_name enabled w) = Ok tt /\
  fst (is_hook_enabled sid hook_name (snd (set_hook_enabled sid hook_name enabled w)))
    = Ok (JBool enabled) /\
  (forall other, other <> hook_name ->
     fst (is_hook_enabled sid other (snd (set_hook_enabled sid hook_name enabled w)))
       = fst (is_hook_enabled sid other w)) /\
  (forall key dflt,
     fst (get_metadata sid key dflt (snd (set_hook_enabled sid hook_name enabled w)))
       = fst (get_metadata sid key dflt w)).
Proof.
  intros Hid Hload [d [-> Hnest]].
  destruct (set_nested_dict d "hooks_enabled" hook_name (JBool enabled) Hnest)
    as (d' & m' & Hset & Hhooks & Hkey & Hothers & Hframe).
  destruct (set_hook_enabled_run sid hook_name enabled w d d' Hid Hload Hset)
    as (w1 & stamp & place & Hplace & Hrun).
  rewrite Hrun. cbn [fst snd].
  assert (Hget : forall k, k <> "updated_at" ->
            Py.dict_get k (Py.dict_set "updated_at" stamp d') = Py.dict_get k d').
  { intros k Hk. apply dict_get_set_ne, not_eq_sym, Hk. }
  split; [reflexivity |]. split; [| split].
  - rewrite (is_hook_enabled_loaded sid hook_name _ _
               (load_settings_stored sid w1 place _ Hid Hplace)).
    unfold Py.get at 2. rewrite Hget by discriminate. rewrite Hhooks.
    cbn [default from_option id mbind res_bind Py.get]. rewrite Hkey. reflexivity.
  - intros other Hother.
    rewrite (is_hook_enabled_loaded sid other _ _
               (load_settings_stored sid w1 place _ Hid Hplace)).
    rewrite (is_hook_enabled_loaded sid other w d Hload).
    unfold Py.get at 2 4. rewrite Hget by discriminate. rewrite Hhooks.
    cbn [default from_option id mbind res_bind Py.get]. rewrite (Hothers other Hother).
    destruct Hnest as [Hnone | [m Hsome]].
    + rewrite Hnone. reflexivity.
    + rewrite Hsome. reflexivity.
  - intros key dflt.
    rewrite (get_metadata_loaded sid key dflt _ _
               (load_settings_stored sid w1 place _ Hid Hplace)).
    rewrite (get_metadata_loaded sid key dflt w d Hload).
    unfold Py.get at 2 4. rewrite Hget by discriminate.
    rewrite (Hframe "metadata") by discriminate. reflexivity.
Qed.

Lemma set_hook_enabled_then_read_witness :
  fst (is_hook_enabled (JStr "s1") "stop-hook" Sample.blank) = Ok (JBool true) /\
  fst (is_hook_enabled (JStr "s1") "stop-hook"
         (snd (set_hook_enabled (JStr "s1") "stop-hook" false Sample.blank)))
    = Ok (JBool false).
Proof.
  split; [reflexivity |].
  apply (set_hook_enabled_then_read (JStr "s1") "stop-hook" false Sample.blank
           (fresh_settings (JStr "s1") Sample.blank) eq_refl).
  - rewrite load_settings_absent; reflexivity.
  - eexists. split; [reflexivity |]. right. eexists. reflexivity.
Defined.

Lemma default_hooks_enabled hook_name :
  default (JBool true)
    (Py.dict_get hook_name
       [("stop-hook", JBool true); ("notification-hook", JBool true);
        ("session-start", JBool true); ("session-end", JBool true)]) = JBool true.
Proof.
  unfold Py.dict_get.
  repeat match goal with |- context [String.eqb ?a ?b] => destruct (String.eqb a b) end;
  reflexivity.
Qed.

(** X7. [is_hook_enabled] fails open: without a session identifier, and
    for a session, named by a plain file name, whose settings file is
    absent or cannot be read (the read raises a [JSONDecodeError] or an
    [IOError]), every hook name reads as enabled. *)
Theorem is_hook_enabled_fails_open sid hook_name w :
  Py.truthy sid = false \/
  (plain_name sid = true /\
   (settings w !! get_settings_path sid = None \/
    exists e, settings w !! get_settings_path sid = Some (Unreadable e) /\
              is_JSONDecodeError_or_IOError e = true)) ->
  fst (is_hook_enabled sid hook_name w) = Ok (JBool true).
Proof.
  intros Hcase.
  assert (Hload : exists d, fst (load_settings sid w) = Ok (JObj d) /\
            Py.dict_get "hooks_enabled" d =
              Some (JObj [("stop-hook", JBool true); ("notification-hook", JBool true);
                          ("session-start", JBool true); ("session-end", JBool true)])).
  { destruct Hcase as [Hno | [Hid [Habsent | (e & Hbad & He)]]].
    - rewrite (load_settings_no_id sid w Hno), get_default_settings_eq.
      eexists. split; reflexivity.
    - rewrite (load_settings_absent sid w Hid Habsent).
      eexists. split; reflexivity.
    - rewrite (load_settings_garbage sid w e Hid Hbad He), get_default_settings_eq.
      eexists. split; reflexivity. }
  destruct Hload as (d & Hload & Hhooks).
  rewrite (is_hook_enabled_loaded sid hook_name w d Hload).
  unfold Py.get at 2. rewrite Hhooks.
  cbn [default from_option id mbind res_bind Py.get].
  rewrite default_hooks_enabled. reflexivity.
Qed.

Lemma is_hook_enabled_fails_open_witness :
  plain_name (JStr "s1") = true /\
  settings Sample.with_garbage !! get_settings_path (JStr "s1") = Some Garbage /\
  fst (is_hook_enabled (JStr "s1") "stop-hook" Sample.with_garbage) = Ok (JBool true) /\
  fst (is_hook_enabled (JStr "s1") "stop-hook" Sample.blank) = Ok (JBool true) /\
  fst (is_hook_enabled JNull "stop-hook" Sample.with_garbage) = Ok (JBool true).
Proof.
  split; [reflexivity |]. split; [reflexivity |]. split; [| split].
  - apply (is_hook_enabled_fails_open (JStr "s1") "stop-hook" Sample.with_garbage).
    right. split; [reflexivity |]. right. eexists. split; reflexivity.
  - apply (is_hook_enabled_fails_open (JStr "s1") "stop-hook" Sample.blank).
    right. split; [reflexivity |]. left. reflexivity.
  - apply (is_hook_enabled_fails_open JNull "stop-hook" Sample.with_garbage).
    left. reflexivity.
Defined.

(** X8. Without a session identifier nothing is written: the setters,
    [save_settings] and [clear_settings] return and leave the settings
    files and the registry as they are. *)
Theorem no_session_id_writes_nothing sid hook_name enabled key value doc w :
  Py.truthy sid = false ->
  (fst (set_hook_enabled sid hook_name enabled w) = Ok tt /\
   settings (snd (set_hook_enabled sid hook_name enabled w)) = settings w /\
   registry (snd (set_hook_enabled sid hook_name enabled w)) = registry w) /\
  (fst (set_metadata sid key value w) = Ok tt /\
   settings (snd (set_metadata sid key value w)) = settings w /\
   registry (snd (set_metadata sid key value w)) = registry w) /\
  save_settings sid doc w = (Ok doc, w) /\
  clear_settings sid w = (Ok tt, w).
Proof.
  intros Hid. split; [| split; [| split]].
  - assert (Hrun : set_hook_enabled sid hook_name enabled w
                   = (Ok tt, set_ticks (S (ticks w)) w)).
    { unfold set_hook_enabled, mbind at 1, ST_bind at 1.
      rewrite (load_settings_no_id sid w Hid), get_default_settings_eq.
      unfold mbind, ST_bind, lift, save_settings. rewrite Hid. reflexivity. }
    rewrite Hrun. repeat split; reflexivity.
  - assert (Hrun : set_metadata sid key value w = (Ok tt, set_ticks (S (ticks w)) w)).
    { unfold set_metadata, mbind at 1, ST_bind at 1.
      rewrite (load_settings_no_id sid w Hid), get_default_settings_eq.
      unfold mbind, ST_bind, lift, save_settings. rewrite Hid. reflexivity. }
    rewrite Hrun. repeat split; reflexivity.
  - unfold save_settings. rewrite Hid. reflexivity.
  - unfold clear_settings. rewrite Hid. reflexivity.
Qed.

Lemma no_session_id_writes_nothing_witness :
  clear_settings (JStr EmptyString) Sample.with_bare_settings
    = (Ok tt, Sample.with_bare_settings) /\
  settings (snd (set_metadata JNull "approval_mode" (JStr "auto") Sample.with_bare_settings))
    = settings Sample.with_bare_settings.
Proof.
  split.
  - apply (no_session_id_writes_nothing (JStr EmptyString) "stop-hook" false
             "approval_mode" (JStr "auto") JNull Sample.with_bare_settings eq_refl).
  - apply (no_session_id_writes_nothing JNull "stop-hook" false
             "approval_mode" (JStr "auto") JNull Sample.with_bare_settings eq_refl).
Defined.

(** X9. [clear_settings] resets a session named by a plain file name:
    whatever its file held, also when it could not be read, the file
    afterwards holds the stamped defaults (mode ai, the four hooks
    enabled), and the files of the other sessions and the registry are as
    they were. *)
Theorem clear_settings_resets sid w :
  plain_name sid = true ->
  fst (clear_settings sid w) = Ok tt /\
  settings (snd (clear_settings sid w)) !! get_settings_path sid
    = Some (Document (fresh_settings sid w)) /\
  fst (load_settings sid (snd (clear_settings sid w))) = Ok (fresh_settings sid w) /\
  (forall other, other <> get_settings_path sid ->
     settings (snd (clear_settings sid w)) !! other = settings w !! other) /\
  registry (snd (clear_settings sid w)) = registry w.
Proof.
  intros Hid. assert (Htruthy := plain_name_truthy sid Hid).
  assert (Hrun : clear_settings sid w =
            (Ok tt,
             set_settings
               (<[get_settings_path sid := Document (fresh_settings sid w)]>
                  (delete (get_settings_path sid) (settings w)))
               (set_ticks (S (S (ticks w))) w))).
  { unfold clear_settings. rewrite Htruthy. cbn [negb].
    unfold mbind at 1, ST_bind at 1, get_state. rewrite (resolve_plain sid w Hid).
    unfold mbind at 1, ST_bind at 1, modify. cbn [delete_slot].
    unfold mbind at 1, ST_bind at 1. rewrite get_default_settings_eq.
    unfold mbind at 1, ST_bind at 1. rewrite (save_settings_dict sid _ _ Hid).
    reflexivity. }
  rewrite Hrun. cbn [fst snd settings registry set_settings set_ticks].
  split; [reflexivity |]. split; [apply lookup_insert_eq |]. split; [| split].
  - erewrite load_settings_document; [reflexivity | exact Hid |].
    cbn [settings set_settings set_ticks]. apply lookup_insert_eq.
  - intros other Hother.
    rewrite lookup_insert_ne by (apply not_eq_sym; exact Hother).
    apply lookup_delete_ne, not_eq_sym, Hother.
  - reflexivity.
Qed.

Lemma clear_settings_resets_witness :
  plain_name (JStr "s1") = true /\
  settings Sample.with_latin1 !! "s1" = Some Sample.latin1_file /\
  fst (get_metadata (JStr "s1") "approval_mode" JNull
         (snd (clear_settings (JStr "s1") Sample.with_latin1)))
    = Ok (JStr "ai").
Proof.
  split; [reflexivity |]. split; [reflexivity |].
  rewrite (get_metadata_loaded (JStr "s1") "approval_mode" JNull _ _
             (proj1 (proj2 (proj2 (clear_settings_resets (JStr "s1") Sample.with_latin1
                                     eq_refl))))).
  reflexivity.
Defined.



End SettingsMore.

(** ** The stop hook: pending todos and the decision to block *)

Section StopMore.
Import HookUtils StopHook.

Lemma mem_status status :
  Py.mem status [JStr "pending"; JStr "in_progress"] =
    match status with
    | JStr t => String.eqb t "pending" || String.eqb t "in_progress"
    | _ => false
    end.
Proof.
  unfold Py.mem. cbn [existsb]. destruct status; try reflexivity.
  rewrite orb_false_r.
  destruct (Py.eq (JStr "pending") (JStr s)) eqn:E1.
  - apply eq_JStr_l in E1. injection E1 as ->. reflexivity.
  - apply eq_JStr_l_false in E1.
    destruct (String.eqb s "pending") eqn:E1'.
    { apply String.eqb_eq in E1'. subst s. contradiction. }
    destruct (Py.eq (JStr "in_progress") (JStr s)) eqn:E2.
    + apply eq_JStr_l in E2. injection E2 as ->. reflexivity.
    + apply eq_JStr_l_false in E2.
      destruct (String.eqb s "in_progress") eqn:E2'; [| reflexivity].
      apply String.eqb_eq in E2'. subst s. contradiction.
Qed.

Lemma incomplete_filter items :
  Forall (fun t => Py.is_dict t = true) items ->
  incomplete items = Ok (List.filter unfinished items).
Proof.
  induction 1 as [|t items Ht _ IH]; [reflexivity |].
  destruct t as [| ? | ? | ? | ? | d]; try discriminate.
  cbn [incomplete List.filter Py.get mbind res_bind]. rewrite IH. cbn [mbind res_bind].
  rewrite mem_status. unfold unfinished.
  destruct (Py.dict_get "status" d) as [[]|]; reflexivity.
Qed.

Lemma incomplete_raises before t after :
  Py.is_dict t = false ->
  exists e, incomplete (before ++ t :: after) = Raise e.
Proof.
  intros Ht. induction before as [|b before [e IH]].
  - destruct t; try discriminate; eexists; reflexivity.
  - cbn [app incomplete]. rewrite IH.
    destruct (Py.get b "status" JNull); eexists; reflexivity.
Qed.

(** X11. [get_pending_todos] keeps, in their order, the todos whose status
    is [pending] or [in_progress]; it returns the empty list for [None]
    and for an empty list, and raises, returning no todo, when an item of
    the list is not a record. *)
Theorem get_pending_todos_filters :
  (forall items,
     Forall (fun t => Py.is_dict t = true) items ->
     get_pending_todos (JArr items) = Ok (List.filter unfinished items)) /\
  get_pending_todos JNull = Ok [] /\
  (forall before t after,
     Py.is_dict t = false ->
     exists e, get_pending_todos (JArr (before ++ t :: after)) = Raise e).
Proof.
  split; [| split].
  - intros items Hitems. destruct items as [|t items]; [reflexivity |].
    unfold get_pending_todos. cbn [Py.truthy negb Py.iter mbind res_bind].
    apply incomplete_filter, Hitems.
  - reflexivity.
  - intros before t after Ht. unfold get_pending_todos.
    destruct before; cbn [app Py.truthy negb Py.iter mbind res_bind].
    + apply (incomplete_raises [] t after Ht).
    + apply (incomplete_raises (j :: before) t after Ht).
Qed.

Lemma get_pending_todos_filters_witness :
  get_pending_todos
    (JArr [JObj [("content", JStr "B"); ("status", JStr "completed")];
           Sample.todo_A;
           JObj [("content", JStr "C"); ("status", JStr "in_progress")]])
    = Ok [Sample.todo_A; JObj [("content", JStr "C"); ("status", JStr "in_progress")]].
Proof.
  rewrite (proj1 get_pending_todos_filters) by (repeat constructor). reflexivity.
Defined.

Lemma first_todos_truthy items v :
  first_todos items = Ok v -> v = JNull \/ Py.truthy v = true.
Proof.
  induction items as [|item rest IH]; intros H.
  - injection H as <-. left. reflexivity.
  - cbn [first_todos] in H.
    destruct (Py.is_dict item); [| auto].
    destruct (Py.get item "type" JNull) as [type|]; [| discriminate].
    cbn [mbind res_bind] in H.
    destruct (Py.eq type (JStr "tool_use")); [| auto].
    destruct (Py.get item "name" JNull) as [name|]; [| discriminate].
    cbn [mbind res_bind] in H.
    destruct (Py.eq name (JStr "TodoWrite")); [| auto].
    destruct (Py.get item "input" (JObj [])) as [input_data|]; [| discriminate].
    cbn [mbind res_bind] in H.
    destruct (Py.get input_data "todos" JNull) as [found|]; [| discriminate].
    cbn [mbind res_bind] in H.
    destruct (Py.truthy found) eqn:E; [| auto].
    injection H as <-. right. exact E.
Qed.

(** X12. [extract_todos_from_transcript_entry] never returns an empty
    list: what it returns is [None] or a value that is not empty, so a
    TodoWrite call that clears the list is not seen by
    [is_todo_write_tool_call]. *)
Theorem extract_skips_empty_lists entry :
  (forall v, extract_todos_from_transcript_entry entry = Ok v ->
             v = JNull \/ Py.truthy v = true) /\
  (forall b, is_todo_write_tool_call entry = Ok b ->
             (b = true <->
              exists v, extract_todos_from_entry entry = Ok v /\ Py.truthy v = true)).
Proof.
  assert (H1 : forall v, extract_todos_from_transcript_entry entry = Ok v ->
                         v = JNull \/ Py.truthy v = true).
  { intros v. unfold extract_todos_from_transcript_entry.
    destruct (Py.get entry "message" (JObj [])) as [message|]; [| discriminate].
    cbn [mbind res_bind].
    destruct (Py.get message "content" (JArr [])) as [content|]; [| discriminate].
    cbn [mbind res_bind].
    destruct (Py.iter content) as [items|]; [| discriminate].
    cbn [mbind res_bind]. apply first_todos_truthy. }
  split; [exact H1 |].
  intros b. unfold is_todo_write_tool_call, extract_todos_from_entry.
  destruct (extract_todos_from_transcript_entry entry) as [v|] eqn:E; [| discriminate].
  cbn [mbind res_bind]. intros Hb. injection Hb as <-.
  destruct (H1 v eq_refl) as [-> | Hv].
  - split; [discriminate |]. intros (v & Hv & Ht). injection Hv as <-. discriminate.
  - split.
    + intros _. exists v. split; [reflexivity | exact Hv].
    + intros _. destruct v; try reflexivity. discriminate.
Qed.

Lemma extract_skips_empty_lists_witness :
  is_todo_write_tool_call
    (JObj [("message", JObj [("content", JArr [JObj [
       ("type", JStr "tool_use"); ("id", JStr "toolu_02"); ("name", JStr "TodoWrite");
       ("input", JObj [("todos", JArr [])])]])])]) = Ok false /\
  (false = true <->
   exists v,
     extract_todos_from_entry
       (JObj [("message", JObj [("content", JArr [JObj [
          ("type", JStr "tool_use"); ("id", JStr "toolu_02"); ("name", JStr "TodoWrite");
          ("input", JObj [("todos", JArr [])])]])])]) = Ok v /\ Py.truthy v = true).
Proof.
  split; [reflexivity |].
  apply (proj2 (extract_skips_empty_lists _) false). reflexivity.
Defined.

Lemma incomplete_dicts items pending :
  incomplete items = Ok pending -> Forall (fun t => Py.is_dict t = true) pending.
Proof.
  revert pending. induction items as [|t items IH]; intros pending H.
  - injection H as <-. constructor.
  - cbn [incomplete] in H.
    destruct t as [| ? | ? | ? | ? | d]; try discriminate.
    cbn [Py.get mbind res_bind] in H.
    destruct (incomplete items) as [rest|]; [| discriminate].
    cbn [mbind res_bind] in H. injection H as <-.
    match goal with |- context [if ?c then _ else _] => destruct c end;
      [constructor; [reflexivity |] |]; apply IH; reflexivity.
Qed.

Lemma get_pending_todos_dicts latest pending :
  get_pending_todos latest = Ok pending -> Forall (fun t => Py.is_dict t = true) pending.
Proof.
  unfold get_pending_todos. destruct (Py.truthy latest); cbn [negb].
  - destruct (Py.iter latest) as [items|]; [| discriminate].
    cbn [mbind res_bind]. apply incomplete_dicts.
  - intros H. injection H as <-. constructor.
Qed.

Lemma task_lines_dicts shown :
  Forall (fun t => Py.is_dict t = true) shown -> exists lines, task_lines shown = Ok lines.
Proof.
  induction 1 as [|t shown Ht _ [lines IH]]; [eexists; reflexivity |].
  destruct t as [| ? | ? | ? | ? | d]; try discriminate.
  cbn [task_lines Py.get mbind res_bind]. rewrite IH. eexists. reflexivity.
Qed.

Lemma create_block_decision_dicts pending max_display :
  Forall (fun t => Py.is_dict t = true) pending ->
  exists out, create_block_decision pending max_display = Ok out /\ block_decision out.
Proof.
  intros Hp.
  assert (Hshown : Forall (fun t => Py.is_dict t = true) (Py.slice_to max_display pending)).
  { unfold Py.slice_to. destruct (0 <=? max_display); apply Forall_take, Hp. }
  destruct (task_lines_dicts _ Hshown) as [lines Hlines].
  unfold create_block_decision. rewrite Hlines. cbn [mbind res_bind].
  eexists. split; [reflexivity |]. eexists. reflexivity.
Qed.

Lemma is_hook_enabled_world sid hook_name w :
  snd (SessionSettings.is_hook_enabled sid hook_name w) = snd (SessionSettings.load_settings sid w).
Proof.
  unfold SessionSettings.is_hook_enabled, mbind, ST_bind.
  destruct (SessionSettings.load_settings sid w) as [[doc|e] w1]; [| reflexivity].
  unfold lift. destruct (Py.get doc "hooks_enabled" (JObj [])); reflexivity.
Qed.


Lemma bind_lift_ok {S A B} (a : A) (k : A -> ST S B) s : (lift (Ok a) ≫= k) s = k a s.
Proof. reflexivity. Qed.

Lemma bind_lift_raise {S A B} e (k : A -> ST S B) s : (lift (Raise e) ≫= k) s = (Raise e, s).
Proof. reflexivity. Qed.

Lemma bind_run {S A B} (m : ST S A) (k : A -> ST S B) s :
  (m ≫= k) s = match m s with (Ok a, s') => k a s' | (Raise e, s') => (Raise e, s') end.
Proof. reflexivity. Qed.

(** X16. The stop hook never fails and blocks only on pending todos:
    [main] always returns, and when it prints something it is a block
    decision, the input was a record, the transcript could be read and
    its latest todo list has a todo that is pending or in progress. *)
Theorem stop_blocks_only_on_pending transcript_at stdin w :
  exists out,
    fst (main transcript_at stdin w) = Ok out /\
    (forall o, out = Some o ->
       block_decision o /\
       exists ev transcript pending,
         stdin = Document (JObj ev) /\
         transcript_at (event_transcript ev) = Ok transcript /\
         get_pending_todos (parse_latest_todos transcript) = Ok pending /\
         pending <> []).
Proof.
  unfold main, try_except.
  destruct stdin as [error|input].
  - eexists. split; [reflexivity |]. discriminate.
  - unfold mbind at 1, ST_bind at 1, lift at 1. cbn [json_load].
    destruct input as [| ? | ? | ? | ? | ev];
      try (eexists; split; [reflexivity | discriminate]).
    cbn [Py.get]. rewrite bind_lift_ok. cbv beta. rewrite bind_lift_ok. cbv beta.
    rewrite bind_run.
    destruct (SessionSettings.is_hook_enabled _ "stop-hook" w) as [[flag|e] w1];
      [| eexists; split; [reflexivity | discriminate]].
    destruct (Py.truthy flag); cbn [negb];
      [| eexists; split; [reflexivity | discriminate]].
    unfold should_skip_hook.
    destruct (transcript_at _) as [transcript|e] eqn:Ht;
      [| eexists; split; [reflexivity | discriminate]].
    rewrite bind_lift_ok. cbv beta.
    destruct (get_pending_todos (parse_latest_todos transcript)) as [pending|e] eqn:Hp;
      [| eexists; split; [reflexivity | discriminate]].
    rewrite bind_lift_ok. cbv beta.
    destruct pending as [|t rest].
    + destruct (Py.truthy _).
      * rewrite bind_run. destruct (update_session_activity _ w1) as [[[]|e] w2];
          eexists; (split; [reflexivity | discriminate]).
      * eexists; split; [reflexivity | discriminate].
    + destruct (create_block_decision_dicts (t :: rest) 5 (get_pending_todos_dicts _ _ Hp))
        as (out & Hout & Hblock).
      rewrite Hout, bind_lift_ok. exists (Some out). split; [reflexivity |].
      intros o Ho. injection Ho as <-. split; [exact Hblock |].
      exists ev, transcript, (t :: rest). repeat split; try assumption. discriminate.
Qed.

Lemma read_sessions_registry w w' :
  registry w' = registry w -> fst (read_sessions w') = fst (read_sessions w).
Proof.
  intros H. unfold read_sessions. rewrite H.
  destruct (registry w) as [[e|doc]|]; [| reflexivity | reflexivity].
  unfold try_except, lift, json_load.
  destruct (is_JSONDecodeError_or_IOError e); reflexivity.
Qed.

Lemma is_hook_enabled_registry sid hook_name w :
  Py.truthy sid = false \/ SessionSettings.plain_name sid = true ->
  registry (snd (SessionSettings.is_hook_enabled sid hook_name w)) = registry w.
Proof. intros Hsid. rewrite is_hook_enabled_world. apply load_settings_registry, Hsid. Qed.

Lemma stop_main_enabled transcript_at ev w flag :
  fst (SessionSettings.is_hook_enabled (event_session ev) "stop-hook" w) = Ok flag ->
  Py.truthy flag = true ->
  main transcript_at (Document (JObj ev)) w =
    try_except
      (transcript ← lift (transcript_at (event_transcript ev));
       pending_todos ← lift (get_pending_todos (parse_latest_todos transcript));
       match pending_todos with
       | _ :: _ =>
           output ← lift (create_block_decision pending_todos 5);
           mret (Some output)
       | [] =>
           if Py.truthy (event_session ev) then
             _ ← update_session_activity (event_session ev);
             mret None
           else mret None
       end)
      any_exception (fun _ => mret None)
      (snd (SessionSettings.is_hook_enabled (event_session ev) "stop-hook" w)).
Proof.
  intros Hflag Htrue. unfold main, try_except.
  unfold mbind at 1, ST_bind at 1, lift at 1. cbn [json_load Py.get].
  rewrite bind_lift_ok. cbv beta. rewrite bind_lift_ok. cbv beta. rewrite bind_run.
  fold (event_session ev). fold (event_transcript ev).
  destruct (SessionSettings.is_hook_enabled (event_session ev) "stop-hook" w) as [r w1].
  cbn [fst snd] in *. subst r. rewrite Htrue. reflexivity.
Qed.

Lemma stop_main_disabled transcript_at ev w flag :
  fst (SessionSettings.is_hook_enabled (event_session ev) "stop-hook" w) = Ok flag ->
  Py.truthy flag = false ->
  main transcript_at (Document (JObj ev)) w =
    (Ok None, snd (SessionSettings.is_hook_enabled (event_session ev) "stop-hook" w)).
Proof.
  intros Hflag Hfalse. unfold main, try_except.
  unfold mbind at 1, ST_bind at 1, lift at 1. cbn [json_load Py.get].
  rewrite bind_lift_ok. cbv beta. rewrite bind_lift_ok. cbv beta. rewrite bind_run.
  fold (event_session ev). fold (event_transcript ev).
  destruct (SessionSettings.is_hook_enabled (event_session ev) "stop-hook" w) as [r w1].
  cbn [fst snd] in *. subst r. rewrite Hfalse. reflexivity.
Qed.

(** X13. With the hook enabled and a latest todo list that has pending
    todos, [main] prints the block decision made of them and does nothing
    after it has read the settings: the activity of the session is not
    recorded, and with a session identifier that is empty or a plain file
    name the registry is as it was. *)
Theorem stop_blocks_on_pending transcript_at ev w flag transcript t rest :
  fst (SessionSettings.is_hook_enabled (event_session ev) "stop-hook" w) = Ok flag ->
  Py.truthy flag = true ->
  transcript_at (event_transcript ev) = Ok transcript ->
  get_pending_todos (parse_latest_todos transcript) = Ok (t :: rest) ->
  exists out,
    fst (main transcript_at (Document (JObj ev)) w) = Ok (Some out) /\
    create_block_decision (t :: rest) 5 = Ok out /\
    block_decision out /\
    snd (main transcript_at (Document (JObj ev)) w)
      = snd (SessionSettings.is_hook_enabled (event_session ev) "stop-hook" w) /\
    (Py.truthy (event_session ev) = false \/
     SessionSettings.plain_name (event_session ev) = true ->
     registry (snd (main transcript_at (Document (JObj ev)) w)) = registry w).
Proof.
  intros Hflag Htrue Ht Hp.
  destruct (create_block_decision_dicts (t :: rest) 5 (get_pending_todos_dicts _ _ Hp))
    as (out & Hout & Hblock).
  exists out. rewrite (stop_main_enabled transcript_at ev w flag Hflag Htrue).
  unfold try_except. rewrite Ht, bind_lift_ok. cbv beta. rewrite Hp, bind_lift_ok.
  cbv beta iota. rewrite Hout, bind_lift_ok. cbn [fst snd mret ST_ret].
  repeat split; try assumption. apply is_hook_enabled_registry.
Qed.

Lemma update_session_activity_step s records stamp w :
  fst (read_sessions w) = Ok (registry_doc records stamp) ->
  Forall (fun r => is_Some (sid_of r)) records ->
  update_session_activity (JStr s) w =
    (Ok tt,
     set_registry
       (Some (Document (registry_doc
          (patch_first s
             [("last_activity", JInt (clock_time w (ticks w))); ("status", JStr "running")]
             records)
          (JInt (clock_time w (S (ticks w)))))))
       (set_ticks (S (S (ticks w))) w)).
Proof.
  intros Hread Hrecords. unfold update_session_activity.
  rewrite bind_run. unfold time_time at 1. rewrite bind_run.
  rewrite (update_session_step s _ records stamp (set_ticks (S (ticks w)) w)).
  - reflexivity.
  - rewrite read_sessions_ticks. exact Hread.
  - exact Hrecords.
Qed.

(** X14. With the hook enabled and no pending todo, [main] prints
    nothing and records the activity: the first record of the session
    takes the status [running] and the reading of the clock as
    [last_activity]; the settings are not touched. *)
Theorem stop_marks_running transcript_at ev w flag transcript s records :
  fst (SessionSettings.is_hook_enabled (event_session ev) "stop-hook" w) = Ok flag ->
  Py.truthy flag = true ->
  transcript_at (event_transcript ev) = Ok transcript ->
  get_pending_todos (parse_latest_todos transcript) = Ok [] ->
  event_session ev = JStr s ->
  s <> EmptyString ->
  holds_records w records ->
  let w1 := snd (SessionSettings.is_hook_enabled (event_session ev) "stop-hook" w) in
  fst (main transcript_at (Document (JObj ev)) w) = Ok None /\
  sessions_of (snd (main transcript_at (Document (JObj ev)) w)) =
    patch_first s
      [("last_activity", JInt (clock_time w1 (ticks w1))); ("status", JStr "running")]
      records /\
  settings (snd (main transcript_at (Document (JObj ev)) w)) = settings w1.
Proof.
  intros Hflag Htrue Ht Hp Hs Hne [[stamp Hread] Hrecords] w1.
  assert (Hsid : Py.truthy (JStr s) = true) by (destruct s; [contradiction | reflexivity]).
  assert (Hmain : main transcript_at (Document (JObj ev)) w =
            try_except (_ ← update_session_activity (JStr s); mret None)
              any_exception (fun _ => mret None) w1).
  { rewrite (stop_main_enabled transcript_at ev w flag Hflag Htrue). fold w1.
    unfold try_except. rewrite Ht, bind_lift_ok. cbv beta. rewrite Hp, bind_lift_ok.
    cbv beta iota. rewrite Hs, Hsid. reflexivity. }
  (* the path of the settings may lead to the file of the registry, which
     the load then creates when it is absent *)
  assert (Hcases : registry w1 = registry w \/
            (registry w = None /\
             registry w1 = Some (Document (SessionSettings.fresh_settings (JStr s) w)))).
  { unfold w1. rewrite is_hook_enabled_world, Hs.
    destruct (load_settings_world (JStr s) w)
      as [-> | [-> | [-> | (place & _ & _ & Hnone & ->)]]]; try (left; reflexivity).
    destruct place; [left; reflexivity | right].
    split; [exact Hnone | reflexivity]. }
  rewrite Hmain. unfold try_except. rewrite bind_run.
  destruct Hcases as [Hreg | [Hnone Hnew]].
  - assert (Hread1 : fst (read_sessions w1) = Ok (registry_doc records stamp)).
    { rewrite <- Hread. apply read_sessions_registry, Hreg. }
    rewrite (update_session_activity_step s records stamp w1 Hread1 Hrecords).
    cbn [fst snd mret ST_ret]. rewrite sessions_of_written. repeat split.
  - assert (Hempty : records = []).
    { unfold read_sessions in Hread. rewrite Hnone in Hread. cbn [fst] in Hread.
      injection Hread as Hr _. symmetry. exact Hr. }
    subst records.
    assert (Hrun : update_session_activity (JStr s) w1 =
              (Raise (KeyError "'sessions'"), set_ticks (S (ticks w1)) w1)).
    { unfold update_session_activity. rewrite bind_run. unfold time_time at 1.
      rewrite bind_run.
      erewrite update_session_without_key; [reflexivity | exact Hnew | reflexivity]. }
    rewrite Hrun. cbn [any_exception fst snd mret ST_ret].
    split; [reflexivity |]. split; [| reflexivity].
    unfold sessions_of, read_sessions. cbn [registry set_ticks]. rewrite Hnew.
    reflexivity.
Qed.

(** X15. Once [set_hook_enabled] has disabled the stop hook of a session,
    [main] prints nothing for that session and changes nothing, whatever
    the transcript holds and whether or not it can be read. *)
Theorem disabled_stop_hook_is_silent transcript_at ev doc w :
  Py.truthy (event_session ev) = true ->
  fst (SessionSettings.load_settings (event_session ev) w) = Ok doc ->
  SessionSettings.nests "hooks_enabled" doc ->
  main transcript_at (Document (JObj ev))
       (snd (SessionSettings.set_hook_enabled (event_session ev) "stop-hook" false w))
    = (Ok None, snd (SessionSettings.set_hook_enabled (event_session ev) "stop-hook" false w)).
Proof.
  intros Hid Hload [d [-> Hnest]].
  destruct (set_nested_dict d "hooks_enabled" "stop-hook" (JBool false) Hnest)
    as (d' & m' & Hset & Hhooks & Hkey & _ & _).
  destruct (set_hook_enabled_run _ "stop-hook" false w d d' Hid Hload Hset)
    as (w1 & stamp & place & Hplace & Hrun).
  rewrite Hrun. cbn [snd].
  set (w' := write_slot place _ w1).
  assert (Hfile : SessionSettings.load_settings (event_session ev) w'
                  = (Ok (JObj (Py.dict_set "updated_at" stamp d')), w')).
  { apply load_settings_reads; [exact Hid |]. apply file_of_written, Hplace. }
  assert (Hflag : SessionSettings.is_hook_enabled (event_session ev) "stop-hook" w'
                  = (Ok (JBool false), w')).
  { unfold SessionSettings.is_hook_enabled. rewrite bind_run, Hfile.
    cbn [Py.get]. rewrite dict_get_set_ne by discriminate. rewrite Hhooks.
    cbn [default from_option id]. rewrite bind_lift_ok. cbn [Py.get]. rewrite Hkey.
    reflexivity. }
  rewrite (stop_main_disabled transcript_at ev w' (JBool false));
    [rewrite Hflag; reflexivity | rewrite Hflag; reflexivity | reflexivity].
Qed.

Lemma stop_blocks_on_pending_witness :
  SessionSettings.plain_name (event_session Sample.stop_event) = true /\
  exists out,
    fst (main (Sample.transcript_file [Sample.todo_write_line "toolu_01" [Sample.todo_A]])
           (Document (JObj Sample.stop_event)) Sample.with_sessions) = Ok (Some out) /\
    block_decision out /\
    registry (snd (main (Sample.transcript_file
                           [Sample.todo_write_line "toolu_01" [Sample.todo_A]])
                     (Document (JObj Sample.stop_event)) Sample.with_sessions))
      = registry Sample.with_sessions.
Proof.
  split; [reflexivity |].
  destruct (stop_blocks_on_pending
              (Sample.transcript_file [Sample.todo_write_line "toolu_01" [Sample.todo_A]])
              Sample.stop_event Sample.with_sessions (JBool true)
              (Some [Sample.todo_write_line "toolu_01" [Sample.todo_A]])
              Sample.todo_A [] eq_refl eq_refl eq_refl eq_refl)
    as (out & Hout & _ & Hblock & _ & Hregistry).
  exists out. split; [exact Hout |]. split; [exact Hblock |].
  apply Hregistry. right. reflexivity.
Defined.

Lemma stop_marks_running_witness :
  fst (main (Sample.transcript_file Sample.cleared_transcript)
         (Document (JObj Sample.stop_event)) Sample.with_sessions) = Ok None /\
  sessions_of (snd (main (Sample.transcript_file Sample.cleared_transcript)
                      (Document (JObj Sample.stop_event)) Sample.with_sessions))
    = [Sample.session "a" "/x";
       JObj [("session_id", JStr "b"); ("cwd", JStr "/y"); ("status", JStr "running");
             ("last_activity", JInt 1761000002)]].
Proof.
  assert (Hw : holds_records Sample.with_sessions
                 [Sample.session "a" "/x"; Sample.session "b" "/y"]).
  { split; [eexists; reflexivity | repeat constructor; eexists; reflexivity]. }
  destruct (stop_marks_running (Sample.transcript_file Sample.cleared_transcript)
              Sample.stop_event Sample.with_sessions (JBool true)
              (Some Sample.cleared_transcript) "b" _
              eq_refl eq_refl eq_refl eq_refl eq_refl ltac:(discriminate) Hw)
    as (Hout & Hrecords & _).
  split; [exact Hout |]. rewrite Hrecords. reflexivity.
Defined.

Lemma disabled_stop_hook_is_silent_witness :
  fst (main (Sample.transcript_file [Sample.todo_write_line "toolu_01" [Sample.todo_A]])
         (Document (JObj Sample.stop_event))
         (snd (SessionSettings.set_hook_enabled (JStr "b") "stop-hook" false
                 Sample.with_sessions))) = Ok None.
Proof.
  assert (Hload : fst (SessionSettings.load_settings (event_session Sample.stop_event)
                         Sample.with_sessions)
                  = Ok (SessionSettings.fresh_settings (JStr "b") Sample.with_sessions)).
  { change (event_session Sample.stop_event) with (JStr "b").
    rewrite load_settings_absent; reflexivity. }
  assert (Hnest : SessionSettings.nests "hooks_enabled"
                    (SessionSettings.fresh_settings (JStr "b") Sample.with_sessions)).
  { eexists. split; [reflexivity |]. right. eexists. reflexivity. }
  exact (f_equal fst
           (disabled_stop_hook_is_silent
              (Sample.transcript_file [Sample.todo_write_line "toolu_01" [Sample.todo_A]])
              Sample.stop_event _ Sample.with_sessions eq_refl Hload Hnest)).
Defined.

End StopMore.

(** ** The hooks at the start and at the end of a session *)

Section Lifecycle.
Import HookUtils SessionSettings.

Lemma load_settings_ok sid w :
  plain_name sid = true ->
  (forall e, settings w !! get_settings_path sid = Some (Unreadable e) ->
             is_JSONDecodeError_or_IOError e = true) ->
  exists doc, fst (load_settings sid w) = Ok doc.
Proof.
  intros Hid Hcaught.
  destruct (settings w !! get_settings_path sid) as [[e|doc]|] eqn:Hfile.
  - rewrite (load_settings_garbage _ _ e Hid Hfile (Hcaught e eq_refl)).
    eexists. reflexivity.
  - rewrite (load_settings_document _ _ _ Hid Hfile). eexists. reflexivity.
  - rewrite (load_settings_absent _ _ Hid Hfile). eexists. reflexivity.
Qed.

Lemma load_settings_ensures sid w :
  plain_name sid = true ->
  is_Some (settings (snd (load_settings sid w)) !! get_settings_path sid).
Proof.
  intros Hid.
  destruct (settings w !! get_settings_path sid) as [[e|doc]|] eqn:Hfile.
  - rewrite (load_settings_unreadable _ w e (plain_name_truthy _ Hid))
      by (rewrite (file_of_plain _ w Hid); exact Hfile).
    destruct (is_JSONDecodeError_or_IOError e); rewrite ?get_default_settings_eq;
      cbn [snd settings set_ticks]; rewrite Hfile; eauto.
  - rewrite (load_settings_document _ _ _ Hid Hfile). cbn [snd]. rewrite Hfile. eauto.
  - rewrite (load_settings_absent _ _ Hid Hfile). cbn [snd settings set_settings].
    rewrite lookup_insert_eq. eauto.
Qed.

Lemma plain_name_text s : plain_name (JStr s) = true -> s <> EmptyString.
Proof. intros H ->. discriminate H. Qed.

Lemma start_main_run ev s records stamp w :
  default JNull (Py.dict_get "session_id" ev) = JStr s ->
  plain_name (JStr s) = true ->
  (forall e, settings w !! get_settings_path (JStr s) = Some (Unreadable e) ->
             is_JSONDecodeError_or_IOError e = true) ->
  fst (read_sessions w) = Ok (registry_doc records stamp) ->
  Forall (fun r => is_Some (sid_of r)) records ->
  let w1 := snd (load_settings (JStr s) w) in
  SessionStart.main (Document (JObj ev)) w =
    (Ok tt,
     set_registry
       (Some (Document (registry_doc
          (upsert records
             (SessionStart.session_record ev (clock_time w1 (ticks w1))
                (clock_time w1 (S (ticks w1)))))
          (JInt (clock_time w1 (S (S (ticks w1))))))))
       (set_ticks (S (S (S (ticks w1)))) w1)).
Proof.
  intros Hs Hplain Hcaught Hread Hrecords w1.
  assert (Hsid : Py.truthy (JStr s) = true) by exact (plain_name_truthy _ Hplain).
  unfold SessionStart.main, try_except.
  unfold mbind at 1, ST_bind at 1, lift at 1. cbn [json_load Py.get].
  rewrite bind_lift_ok. cbv beta. rewrite Hs, Hsid. cbn [negb].
  rewrite bind_run. fold w1.
  destruct (load_settings_ok (JStr s) w Hplain Hcaught) as [doc Hdoc].
  destruct (load_settings (JStr s) w) as [r w1'] eqn:Hload. cbn [fst snd] in *. subst r w1.
  rewrite !bind_lift_ok. cbv beta.
  rewrite bind_run. unfold time_time at 1. rewrite bind_run. unfold time_time at 1.
  rewrite bind_run.
  erewrite (add_session_step _ s records stamp).
  - unfold SessionStart.session_record. rewrite Hs. reflexivity.
  - rewrite !read_sessions_ticks. rewrite <- Hread. apply read_sessions_registry.
    change w1' with (snd (Ok doc, w1')). rewrite <- Hload.
    apply load_settings_registry. right. exact Hplain.
  - exact Hrecords.
  - reflexivity.
Qed.

(** X17. The session-start hook registers the session: for an event whose
    session identifier is a plain file name, when the settings file of
    the session is absent, parses, or fails to be read with an exception
    that [load_settings] catches, the registry afterwards holds the other
    records followed by one record of the session, with the fields of
    the event, the status [running] and two readings of the clock; and
    the session has a settings file. *)
Theorem session_start_registers ev s records w :
  default JNull (Py.dict_get "session_id" ev) = JStr s ->
  plain_name (JStr s) = true ->
  (forall e, settings w !! get_settings_path (JStr s) = Some (Unreadable e) ->
             is_JSONDecodeError_or_IOError e = true) ->
  holds_records w records ->
  let w1 := snd (load_settings (JStr s) w) in
  let record :=
    SessionStart.session_record ev (clock_time w1 (ticks w1)) (clock_time w1 (S (ticks w1))) in
  fst (SessionStart.main (Document (JObj ev)) w) = Ok tt /\
  sessions_of (snd (SessionStart.main (Document (JObj ev)) w))
    = (List.filter (fun r => negb (has_sid s r)) records ++ [record])%list /\
  is_Some (settings (snd (SessionStart.main (Document (JObj ev)) w))
             !! get_settings_path (JStr s)).
Proof.
  intros Hs Hplain Hcaught [[stamp Hread] Hrecords] w1 record.
  rewrite (start_main_run ev s records stamp w Hs Hplain Hcaught Hread Hrecords). fold w1.
  cbn [fst snd]. rewrite sessions_of_written. split; [reflexivity |]. split.
  - unfold upsert. fold record.
    assert (Hsid : sid_of record = Some s).
    { unfold record, SessionStart.session_record, sid_of.
      cbn [Py.dict_get String.eqb Ascii.eqb Bool.eqb]. rewrite Hs. reflexivity. }
    rewrite Hsid. reflexivity.
  - cbn [settings set_registry set_ticks]. apply load_settings_ensures, Hplain.
Qed.

Lemma end_main_run ev s w :
  default JNull (Py.dict_get "session_id" ev) = JStr s ->
  s <> EmptyString ->
  SessionEnd.main (Document (JObj ev)) w =
    match remove_session (JStr s) w with
    | (Ok _, w') => (Ok tt, w')
    | (Raise _, w') => (Ok tt, w')
    end.
Proof.
  intros Hs Hne.
  assert (Hsid : Py.truthy (JStr s) = true) by (destruct s; [contradiction | reflexivity]).
  unfold SessionEnd.main, try_except.
  unfold mbind at 1, ST_bind at 1, lift at 1. cbn [json_load Py.get].
  rewrite bind_lift_ok. cbv beta. rewrite Hs, Hsid. cbn [negb].
  rewrite bind_run. destruct (remove_session (JStr s) w) as [[b|e] w']; reflexivity.
Qed.

(** X18. The session-end hook takes every record of the session out of
    the registry, keeps the other records in their order, and leaves the
    settings files, that of the ended session too, as they are. *)
Theorem session_end_unregisters ev s records w :
  default JNull (Py.dict_get "session_id" ev) = JStr s ->
  s <> EmptyString ->
  holds_records w records ->
  fst (SessionEnd.main (Document (JObj ev)) w) = Ok tt /\
  sessions_of (snd (SessionEnd.main (Document (JObj ev)) w))
    = List.filter (fun r => negb (has_sid s r)) records /\
  settings (snd (SessionEnd.main (Document (JObj ev)) w)) = settings w.
Proof.
  intros Hs Hne [[stamp Hread] Hrecords].
  rewrite (end_main_run ev s w Hs Hne).
  rewrite (remove_session_step s records stamp w Hread Hrecords).
  cbn [fst snd]. rewrite sessions_of_written. repeat split.
Qed.

(** X19. A session that starts and then ends, with an identifier that is
    a plain file name and a settings file that is absent, parses, or
    fails to be read with an exception that [load_settings] catches,
    leaves the registry with the records of the other sessions only, and
    leaves its settings file on the disk. *)
Theorem start_then_end ev ev' s records w :
  default JNull (Py.dict_get "session_id" ev) = JStr s ->
  default JNull (Py.dict_get "session_id" ev') = JStr s ->
  plain_name (JStr s) = true ->
  (forall e, settings w !! get_settings_path (JStr s) = Some (Unreadable e) ->
             is_JSONDecodeError_or_IOError e = true) ->
  holds_records w records ->
  let w' := snd (SessionEnd.main (Document (JObj ev'))
                   (snd (SessionStart.main (Document (JObj ev)) w))) in
  sessions_of w' = List.filter (fun r => negb (has_sid s r)) records /\
  is_Some (settings w' !! get_settings_path (JStr s)).
Proof.
  intros Hs Hs' Hplain Hcaught [[stamp Hread] Hrecords] w'.
  assert (Hne : s <> EmptyString) by exact (plain_name_text s Hplain).
  unfold w'. rewrite (start_main_run ev s records stamp w Hs Hplain Hcaught Hread Hrecords).
  cbn [snd]. rewrite (end_main_run ev' s _ Hs' Hne).
  set (w1 := snd (load_settings (JStr s) w)).
  set (record := SessionStart.session_record ev _ _).
  assert (Hrec : sid_of record = Some s).
  { unfold record, SessionStart.session_record, sid_of.
    cbn [Py.dict_get String.eqb Ascii.eqb Bool.eqb]. rewrite Hs. reflexivity. }
  erewrite remove_session_step; [| reflexivity |].
  - cbn [snd]. rewrite sessions_of_written. split.
    + unfold upsert. rewrite Hrec. rewrite List.filter_app, filter_twice.
      cbn [List.filter]. rewrite (proj2 (has_sid_true s record) Hrec). cbn [negb].
      apply app_nil_r.
    + cbn [settings set_registry set_ticks]. apply load_settings_ensures, Hplain.
  - unfold upsert. rewrite Hrec. apply Forall_app. split.
    + apply List.Forall_forall. intros r Hr. apply filter_In in Hr as [Hr _].
      exact (proj1 (List.Forall_forall _ _) Hrecords r Hr).
    + repeat constructor. rewrite Hrec. eexists; reflexivity.
Qed.

(** X20. Without a session identifier the session-start, session-end and
    notification hooks do nothing: when the input does not parse, is not
    a record, or has no [session_id] or an empty one, they return and the
    world is as it was. *)
Theorem hooks_skip_without_session stdin w :
  (forall ev, stdin = Document (JObj ev) ->
              Py.truthy (default JNull (Py.dict_get "session_id" ev)) = false) ->
  SessionStart.main stdin w = (Ok tt, w) /\
  SessionEnd.main stdin w = (Ok tt, w) /\
  NotificationHook.main stdin w = (Ok tt, w).
Proof.
  intros Hno. destruct stdin as [error|[| ? | ? | ? | ? | ev]];
    try (repeat split; reflexivity).
  specialize (Hno ev eq_refl).
  split; [| split].
  - unfold SessionStart.main, try_except.
    unfold mbind at 1, ST_bind at 1, lift at 1. cbn [json_load Py.get].
    rewrite bind_lift_ok. cbv beta. rewrite Hno. reflexivity.
  - unfold SessionEnd.main, try_except.
    unfold mbind at 1, ST_bind at 1, lift at 1. cbn [json_load Py.get].
    rewrite bind_lift_ok. cbv beta. rewrite Hno. reflexivity.
  - unfold NotificationHook.main, try_except.
    unfold mbind at 1, ST_bind at 1, lift at 1. cbn [json_load Py.get].
    rewrite bind_lift_ok. cbv beta. rewrite bind_lift_ok. cbv beta.
    rewrite Hno. reflexivity.
Qed.

(** X21. A notification whose message is not text records nothing: the
    registry keeps its records and its time stamp. *)
Theorem notification_ignores_non_text ev message w :
  Py.truthy (default JNull (Py.dict_get "session_id" ev)) = true ->
  Py.dict_get "message" ev = Some message ->
  (forall t, message <> JStr t) ->
  NotificationHook.main (Document (JObj ev)) w = (Ok tt, w).
Proof.
  intros Hid Hmessage Hnot.
  unfold NotificationHook.main, try_except.
  unfold mbind at 1, ST_bind at 1, lift at 1. cbn [json_load Py.get].
  rewrite bind_lift_ok. cbv beta. rewrite bind_lift_ok. cbv beta.
  rewrite Hid, Hmessage. cbn [negb default from_option id].
  destruct message as [| ? | ? | t | ? | ?]; try reflexivity.
  destruct (Hnot t eq_refl).
Qed.

Lemma session_start_registers_witness :
  sessions_of (snd (SessionStart.main (Document (JObj Sample.start_event))
                      Sample.with_sessions))
    = [Sample.session "a" "/x"; Sample.session "b" "/y";
       JObj [("session_id", JStr "c"); ("cwd", JStr "/home/max/project");
             ("transcript_path", JStr "/home/max/.claude/projects/demo/c.jsonl");
             ("permission_mode", JStr "default"); ("status", JStr "running");
             ("started_at", JInt 1761000002); ("last_activity", JInt 1761000003)]] /\
  is_Some (settings (snd (SessionStart.main (Document (JObj Sample.start_event))
                            Sample.with_sessions)) !! "c").
Proof.
  assert (Hw : holds_records Sample.with_sessions
                 [Sample.session "a" "/x"; Sample.session "b" "/y"]).
  { split; [eexists; reflexivity | repeat constructor; eexists; reflexivity]. }
  destruct (session_start_registers Sample.start_event "c" _ Sample.with_sessions
              eq_refl eq_refl ltac:(discriminate) Hw) as (_ & Hrecords & Hfile).
  split; [rewrite Hrecords; reflexivity | exact Hfile].
Defined.

Lemma session_end_unregisters_witness :
  sessions_of (snd (SessionEnd.main (Document (JObj [("session_id", JStr "a")]))
                      Sample.with_sessions))
    = [Sample.session "b" "/y"].
Proof.
  assert (Hw : holds_records Sample.with_sessions
                 [Sample.session "a" "/x"; Sample.session "b" "/y"]).
  { split; [eexists; reflexivity | repeat constructor; eexists; reflexivity]. }
  rewrite (proj1 (proj2 (session_end_unregisters [("session_id", JStr "a")] "a" _
                           Sample.with_sessions eq_refl ltac:(discriminate) Hw))).
  reflexivity.
Defined.

Lemma start_then_end_witness :
  sessions_of (snd (SessionEnd.main (Document (JObj [("session_id", JStr "c")]))
                      (snd (SessionStart.main (Document (JObj Sample.start_event))
                              Sample.with_sessions))))
    = [Sample.session "a" "/x"; Sample.session "b" "/y"].
Proof.
  assert (Hw : holds_records Sample.with_sessions
                 [Sample.session "a" "/x"; Sample.session "b" "/y"]).
  { split; [eexists; reflexivity | repeat constructor; eexists; reflexivity]. }
  rewrite (proj1 (start_then_end Sample.start_event [("session_id", JStr "c")] "c" _
                    Sample.with_sessions eq_refl eq_refl eq_refl ltac:(discriminate) Hw)).
  reflexivity.
Defined.

Lemma hooks_skip_without_session_witness :
  SessionStart.main (Document (JObj [("cwd", JStr "/home/max/project")])) Sample.with_sessions
    = (Ok tt, Sample.with_sessions) /\
  SessionEnd.main Garbage Sample.with_sessions = (Ok tt, Sample.with_sessions).
Proof.
  split.
  - apply (hooks_skip_without_session
             (Document (JObj [("cwd", JStr "/home/max/project")])) Sample.with_sessions).
    intros ev Hev. injection Hev as <-. reflexivity.
  - apply (hooks_skip_without_session Garbage Sample.with_sessions).
    intros ev Hev. discriminate.
Defined.

Lemma notification_ignores_non_text_witness :
  NotificationHook.main
    (Document (JObj [("session_id", JStr "b"); ("message", JNull)])) Sample.with_sessions
    = (Ok tt, Sample.with_sessions).
Proof.
  apply (notification_ignores_non_text
           [("session_id", JStr "b"); ("message", JNull)] JNull Sample.with_sessions
           eq_refl eq_refl).
  intros t. discriminate.
Defined.

End Lifecycle.

(** ** The approval hook: the rules, the Judge and the errors *)

Section ApprovalMore.
Import SessionSettings ApprovalHook.

Lemma mem_texts v names :
  Py.mem v (map JStr names) = true -> exists name, v = JStr name /\ In name names.
Proof.
  unfold Py.mem. induction names as [|n names IH]; [discriminate |].
  cbn [map existsb]. intros H. apply orb_true_iff in H as [H | H].
  - apply eq_JStr_l in H. exists n. split; [exact H | left; reflexivity].
  - destruct (IH H) as (name & Hv & Hin). exists name. split; [exact Hv | right; exact Hin].
Qed.



Lemma judge_range tool_name tool_input cwd w :
  exists decision,
    fst (judge_with_grok tool_name tool_input cwd w) = Ok decision /\
    In decision ["allow"; "deny"; "ask"].
Proof.
  destruct (grok w tool_name tool_input cwd) as [r|e] eqn:Hg.
  - rewrite (judge_with_grok_answer _ _ _ _ _ Hg). cbv zeta.
    destruct (Py.mem _ _) eqn:Hmem.
    + destruct (mem_texts _ ["ALLOW"; "DENY"; "ASK"] Hmem) as (name & Hname & Hin).
      injection Hname as ->. eexists. split; [reflexivity |].
      cbn in Hin. destruct Hin as [<- | [<- | [<- | []]]]; cbn; auto.
    + eexists. split; [reflexivity |]. cbn; auto.
  - rewrite (judge_with_grok_raise _ _ _ _ _ Hg). eexists. split; [reflexivity |]. cbn; auto.
Qed.

(** X23. The approval hook always answers: whatever comes on the standard
    input, [main] returns; it prints a decision that is one of allow,
    deny and ask, and it prints nothing only when the mode of the session
    is [disabled]. *)
Theorem approval_always_answers stdin w :
  (exists decision reason,
     fst (main stdin w) = Ok (Some (output decision reason)) /\
     In decision ["allow"; "deny"; "ask"]) \/
  (fst (main stdin w) = Ok None /\
   exists ev, stdin = Document (JObj ev) /\
              fst (session_mode ev w) = Ok (JStr "disabled")).
Proof.
  assert (Hask : forall reason w',
            exists decision reason',
              fst (Ok (Some (output "ask" reason)), w' : world)
                = Ok (Some (output decision reason')) /\
              In decision ["allow"; "deny"; "ask"]).
  { intros reason w'. eexists _, _. split; [reflexivity |]. cbn; auto. }
  destruct stdin as [error|[| ? | ? | ? | ? | ev]]; try (left; apply Hask).
  rewrite main_event. unfold try_except. rewrite bind_run.
  destruct (session_mode ev w) as [[mode|e] w1] eqn:Hmode; [| left; apply Hask].
  unfold decide.
  destruct (Py.eq mode (JStr "disabled")) eqn:E1.
  { right. split; [reflexivity |]. apply eq_JStr_r in E1. subst mode.
    exists ev. split; [reflexivity | rewrite Hmode; reflexivity]. }
  left.
  destruct (Py.eq mode (JStr "strict")); [apply Hask |].
  destruct (Py.eq mode (JStr "auto")).
  { eexists _, _. split; [reflexivity |]. cbn; auto. }
  destruct (Py.eq mode (JStr "ai")); [| apply Hask].
  destruct (is_safe_operation _ _ _) as [[[|] reason]|e]; [| | apply Hask].
  { rewrite bind_lift_ok. eexists _, _. split; [reflexivity |]. cbn; auto. }
  rewrite bind_lift_ok. cbv beta iota. rewrite bind_run.
  destruct (judge_range (event_tool_name ev) (event_tool_input ev) (event_cwd ev) w1)
    as (decision & Hjudge & Hin).
  destruct (judge_with_grok _ _ _ w1) as [r w2]. cbn [fst] in Hjudge. subst r.
  eexists _, _. split; [reflexivity | exact Hin].
Qed.

Lemma session_mode_oracle ev w : grok (snd (session_mode ev w)) = grok w.
Proof.
  unfold session_mode. rewrite get_metadata_world.
  exact (proj1 (load_settings_oracles (event_session ev) w)).
Qed.

Lemma main_ai_judged ev w r :
  fst (session_mode ev w) = Ok (JStr "ai") ->
  is_safe_operation (event_tool_name ev) (event_tool_input ev) (event_cwd ev)
    = Ok (false, r) ->
  exists decision,
    fst (judge_with_grok (event_tool_name ev) (event_tool_input ev) (event_cwd ev)
           (snd (session_mode ev w))) = Ok decision /\
    main (Document (JObj ev)) w =
      (Ok (Some (output decision
         (default "Unknown"
            (snd <$> find (fun kv => String.eqb (fst kv) decision)
               [("allow", "Grok judged this " ++ Py.str (event_tool_name ev)
                            ++ " operation as safe - auto-approved");
                ("deny", "Grok judged this " ++ Py.str (event_tool_name ev)
                            ++ " operation as dangerous - blocked");
                ("ask", "Grok needs user input to judge this "
                            ++ Py.str (event_tool_name ev) ++ " operation")])))),
       set_judged
         (judged w ++ [(event_tool_name ev, event_tool_input ev, event_cwd ev)])%list
         (snd (session_mode ev w))).
Proof.
  intros Hmode Hsafe.
  pose proof (session_mode_judged ev w) as Hlog.
  destruct (session_mode ev w) as [m w1] eqn:Hrun. cbn [fst snd] in *. subst m.
  destruct (judge_range (event_tool_name ev) (event_tool_input ev) (event_cwd ev) w1)
    as (decision & Hjudge & _).
  exists decision. split; [exact Hjudge |].
  rewrite (main_with_mode ev w w1 (JStr "ai") Hrun).
  unfold decide, try_except.
  change (Py.eq (JStr "ai") (JStr "disabled")) with false.
  change (Py.eq (JStr "ai") (JStr "strict")) with false.
  change (Py.eq (JStr "ai") (JStr "auto")) with false.
  change (Py.eq (JStr "ai") (JStr "ai")) with true.
  cbv iota. rewrite Hsafe, bind_lift_ok. cbv beta iota. rewrite bind_run.
  pose proof (judge_with_grok_world (event_tool_name ev) (event_tool_input ev)
                (event_cwd ev) w1) as Hw.
  destruct (judge_with_grok _ _ _ w1) as [j w2]. cbn [fst snd] in *. subst j w2.
  rewrite Hlog. reflexivity.
Qed.

(** X24. In mode ai, for an operation that the rules do not accept, the
    decision is the one of the Judge: the answer ALLOW (in any case,
    with spaces around it) gives allow, the answer DENY gives deny, each
    with its reason; and exactly one request goes to the Judge, with the
    tool name, the tool input and the working directory of the event. *)
Theorem judge_decides ev w answer r :
  fst (session_mode ev w) = Ok (JStr "ai") ->
  is_safe_operation (event_tool_name ev) (event_tool_input ev) (event_cwd ev)
    = Ok (false, r) ->
  grok w (event_tool_name ev) (event_tool_input ev) (event_cwd ev) = Ok answer ->
  (Py.upper (Py.strip answer) = "ALLOW" ->
   decision_of (main (Document (JObj ev)) w) = Some (JStr "allow") /\
   reason_of (main (Document (JObj ev)) w) =
     Some (JStr ("Grok judged this " ++ Py.str (event_tool_name ev)
                   ++ " operation as safe - auto-approved"))) /\
  (Py.upper (Py.strip answer) = "DENY" ->
   decision_of (main (Document (JObj ev)) w) = Some (JStr "deny") /\
   reason_of (main (Document (JObj ev)) w) =
     Some (JStr ("Grok judged this " ++ Py.str (event_tool_name ev)
                   ++ " operation as dangerous - blocked"))) /\
  judged (snd (main (Document (JObj ev)) w)) =
    (judged w ++ [(event_tool_name ev, event_tool_input ev, event_cwd ev)])%list.
Proof.
  intros Hmode Hsafe Hanswer.
  destruct (main_ai_judged ev w r Hmode Hsafe) as (decision & Hjudge & Hrun).
  rewrite <- (session_mode_oracle ev w) in Hanswer.
  rewrite (judge_with_grok_answer _ _ _ _ _ Hanswer) in Hjudge. cbv zeta in Hjudge.
  rewrite Hrun. split; [| split; [| reflexivity]].
  - intros Htoken. rewrite Htoken in Hjudge. injection Hjudge as <-. split; reflexivity.
  - intros Htoken. rewrite Htoken in Hjudge. injection Hjudge as <-. split; reflexivity.
Qed.

(** X25. In mode ai, a Write or an Edit whose [file_path] is not text is
    neither accepted by the rules nor shown to the Judge: the error is
    caught, the decision is ask and the reason reports the error. *)
Theorem malformed_request_asks ev w tool_name d file_path :
  fst (session_mode ev w) = Ok (JStr "ai") ->
  event_tool_name ev = tool_name ->
  In tool_name [JStr "Write"; JStr "Edit"] ->
  event_tool_input ev = JObj d ->
  Py.dict_get "file_path" d = Some file_path ->
  (forall path, file_path <> JStr path) ->
  fst (main (Document (JObj ev)) w) =
    Ok (Some (output "ask"
      ("Hook error: '" ++ Py.type_name file_path
         ++ "' object has no attribute 'startswith' - defaulting to ask"))) /\
  judged (snd (main (Document (JObj ev)) w)) = judged w.
Proof.
  intros Hmode Hname Htool Hinput Hpath Hnot.
  pose proof (session_mode_judged ev w) as Hlog.
  destruct (session_mode ev w) as [m w1] eqn:Hrun. cbn [fst snd] in *. subst m.
  rewrite (main_with_mode ev w w1 (JStr "ai") Hrun).
  unfold decide, try_except.
  change (Py.eq (JStr "ai") (JStr "disabled")) with false.
  change (Py.eq (JStr "ai") (JStr "strict")) with false.
  change (Py.eq (JStr "ai") (JStr "auto")) with false.
  change (Py.eq (JStr "ai") (JStr "ai")) with true.
  cbv iota. rewrite Hname, (is_safe_operation_write _ _ _ Htool), Hinput.
  cbn [Py.get]. rewrite Hpath. cbn [default from_option id mbind res_bind].
  destruct file_path as [| ? | ? | path | ? | ?];
    try (cbn [fst snd]; split; [reflexivity | exact Hlog]).
  destruct (Hnot path eq_refl).
Qed.

Lemma judge_decides_witness :
  decision_of (main (Document (JObj Sample.bash_event))
                 (set_grok (Sample.judge_says " deny ") (Sample.with_mode "ai")))
    = Some (JStr "deny") /\
  judged (snd (main (Document (JObj Sample.bash_event))
                 (set_grok (Sample.judge_says " deny ") (Sample.with_mode "ai"))))
    = [(JStr "Bash", JObj [("command", JStr "rm -rf build")], JStr "/home/max/project")].
Proof.
  destruct (judge_decides Sample.bash_event
              (set_grok (Sample.judge_says " deny ") (Sample.with_mode "ai"))
              " deny " "Operation requires review" eq_refl eq_refl eq_refl)
    as (_ & Hdeny & Hlog).
  split; [exact (proj1 (Hdeny eq_refl)) | exact Hlog].
Defined.

Lemma malformed_request_asks_witness :
  decision_of (main (Document (JObj Sample.write_nowhere_event)) (Sample.with_mode "ai"))
    = Some (JStr "ask") /\
  judged (snd (main (Document (JObj Sample.write_nowhere_event)) (Sample.with_mode "ai")))
    = [].
Proof.
  destruct (malformed_request_asks Sample.write_nowhere_event (Sample.with_mode "ai")
              (JStr "Write") [("file_path", JNull); ("content", JStr "x")] JNull
              eq_refl eq_refl ltac:(left; reflexivity) eq_refl eq_refl
              ltac:(intros path; discriminate))
    as (Hout & Hlog).
  split; [| exact Hlog]. unfold decision_of. rewrite Hout. reflexivity.
Defined.

End ApprovalMore.

(** ** The retries of the language-model client *)

Section Retries.
Import LLMUtils.

Lemma attempts_answer invoke attempt rest backoff t text :
  invoke (requests t) = Ok text ->
  attempts invoke (attempt :: rest) backoff t
    = (Ok text, Trace (S (requests t)) (pauses t)).
Proof. intros H. cbn [attempts]. unfold request. rewrite H. reflexivity. Qed.

Lemma attempts_retry invoke attempt rest backoff t e :
  invoke (requests t) = Raise e ->
  attempt <> 6%nat ->
  attempts invoke (attempt :: rest) backoff t
    = attempts invoke rest (Z.min (backoff * 2) 16)
        (Trace (S (requests t)) (pauses t ++ [backoff])).
Proof.
  intros H Hne. cbn [attempts]. unfold request. rewrite H.
  apply Nat.eqb_neq in Hne. rewrite Hne. reflexivity.
Qed.

Lemma attempts_last invoke rest backoff t e :
  invoke (requests t) = Raise e ->
  attempts invoke (6%nat :: rest) backoff t
    = (Raise e, Trace (S (requests t)) (pauses t)).
Proof. intros H. cbn [attempts]. unfold request. rewrite H. reflexivity. Qed.

Ltac answer_now Hok :=
  match goal with
  | |- attempts _ (?attempt :: ?rest) ?backoff ?t = _ =>
      exact (attempts_answer _ attempt rest backoff t _ Hok)
  end.

Ltac retry_once Hfail :=
  match goal with
  | |- attempts _ (_ :: _) _ ?t = _ =>
      let e := fresh "e" in
      let He := fresh "He" in
      destruct (Hfail (requests t)) as [e He]; [cbn [requests]; lia |];
      rewrite (attempts_retry _ _ _ _ _ e He) by discriminate;
      cbn [requests pauses app]
  end.

(** X26. [chat] returns the first answer that it gets: when the requests
    before the request number [k], for [k] below seven, fail and that
    one succeeds, [chat] returns its text after [k + 1] requests, having
    paused before each retry for 1, 2, 4, 8, 16 and 16 seconds. *)
Theorem chat_returns_first_answer invoke (k : nat) text :
  (k < 7)%nat ->
  (forall n, (n < k)%nat -> exists e, invoke n = Raise e) ->
  invoke k = Ok text ->
  chat (Ok tt) invoke (Trace 0 [])
    = (Ok text, Trace (S k) (firstn k [1; 2; 4; 8; 16; 16])).
Proof.
  intros Hk Hfail Hok. unfold chat. rewrite bind_lift_ok. cbn [seq].
  destruct k as [|k]; [answer_now Hok |].
  retry_once Hfail.
  destruct k as [|k]; [answer_now Hok |].
  retry_once Hfail.
  destruct k as [|k]; [answer_now Hok |].
  retry_once Hfail.
  destruct k as [|k]; [answer_now Hok |].
  retry_once Hfail.
  destruct k as [|k]; [answer_now Hok |].
  retry_once Hfail.
  destruct k as [|k]; [answer_now Hok |].
  retry_once Hfail.
  destruct k as [|k]; [answer_now Hok |].
  lia.
Qed.

Lemma chat_returns_first_answer_witness :
  chat (Ok tt) Sample.third_time_lucky (Trace 0 []) = (Ok "ALLOW", Trace 3 [1; 2]).
Proof.
  apply (chat_returns_first_answer Sample.third_time_lucky 2 "ALLOW").
  - lia.
  - intros n Hn. destruct n as [|[|n]]; [eexists; reflexivity | eexists; reflexivity | lia].
  - reflexivity.
Defined.

(** X27. [chat] gives up after seven requests: when the seven requests
    fail, it raises the exception of the last one, having paused six
    times, for 1, 2, 4, 8, 16 and 16 seconds; and when the messages
    cannot be converted it raises without a request. *)
Theorem chat_gives_up invoke :
  (forall n, (n < 7)%nat -> exists e, invoke n = Raise e) ->
  (exists e, invoke 6%nat = Raise e /\
             chat (Ok tt) invoke (Trace 0 []) = (Raise e, Trace 7 [1; 2; 4; 8; 16; 16])) /\
  (forall e t, chat (Raise e) invoke t = (Raise e, t)).
Proof.
  intros Hfail. split; [| reflexivity].
  destruct (Hfail 6%nat) as [e6 H6]; [lia |].
  exists e6. split; [exact H6 |].
  unfold chat. rewrite bind_lift_ok. cbn [seq].
  do 6 retry_once Hfail.
  match goal with
  | |- attempts _ (_ :: ?rest) ?backoff ?t = _ =>
      exact (attempts_last _ rest backoff t e6 H6)
  end.
Qed.

Lemma chat_gives_up_witness :
  chat (Ok tt) (fun _ => Raise (RuntimeError "Connection error.")) (Trace 0 [])
    = (Raise (RuntimeError "Connection error."), Trace 7 [1; 2; 4; 8; 16; 16]).
Proof.
  destruct (proj1 (chat_gives_up (fun _ => Raise (RuntimeError "Connection error."))
                     (fun n _ => ex_intro _ (RuntimeError "Connection error.") eq_refl)))
    as (e & He & Hrun).
  injection He as <-. exact Hrun.
Defined.

End Retries.

(** ** The commands of update_session_settings.py *)

Section Commands.
Import SessionSettings UpdateSessionSettings.

Lemma setter_file sid outer key value w d
      (setter : M unit) :
  setter = (settings_dict ← load_settings sid;
            settings_dict ← lift (set_nested settings_dict outer key value);
            _ ← save_settings sid settings_dict;
            mret tt) ->
  outer <> "updated_at" ->
  plain_name sid = true ->
  file_holds sid w d ->
  Py.dict_get outer d = None \/ (exists m, Py.dict_get outer d = Some (JObj m)) ->
  exists w' d' m',
    setter w = (Ok tt, w') /\
    file_holds sid w' d' /\
    registry w' = registry w /\
    Py.dict_get outer d' = Some (JObj m') /\
    Py.dict_get key m' = Some value /\
    (forall k, k <> key ->
       Py.dict_get k m' =
         match Py.dict_get outer d with
         | Some (JObj m) => Py.dict_get k m
         | _ => None
         end) /\
    (forall k, k <> outer -> k <> "updated_at" -> Py.dict_get k d' = Py.dict_get k d).
Proof.
  intros -> Houter Hid Hfile Hnest. assert (Htruthy := plain_name_truthy sid Hid).
  destruct (set_nested_dict d outer key value Hnest)
    as (d' & m' & Hset & Hm & Hkey & Hothers & Hframe).
  rewrite bind_run, (load_settings_reads sid w (JObj d) Htruthy Hfile).
  rewrite bind_run. unfold lift at 1. rewrite Hset.
  rewrite (setter_stores sid w d' _ Htruthy (resolve_plain sid w Hid)).
  eexists _, _, m'. split; [reflexivity |]. split; [| split; [reflexivity |]].
  - unfold file_holds. apply file_of_written, resolve_plain, Hid.
  - split; [| split; [exact Hkey | split; [exact Hothers |]]].
    + rewrite dict_get_set_ne by (apply not_eq_sym; exact Houter). exact Hm.
    + intros k Hk Hk'. rewrite dict_get_set_ne by (apply not_eq_sym; exact Hk').
      apply Hframe, Hk.
Qed.

Lemma fix_hooks_run sid h0 names :
  plain_name sid = true ->
  List.NoDup names ->
  forall w d,
    file_holds sid w d ->
    Py.dict_get "hooks_enabled" d = None \/
      (exists m, Py.dict_get "hooks_enabled" d = Some (JObj m)) ->
    (forall n, In n names -> hooks_view d n = Py.dict_get n h0) ->
    exists printed w' d',
      fix_hooks sid (JObj h0) names w = (Ok printed, w') /\
      file_holds sid w' d' /\
      registry w' = registry w /\
      Py.dict_get "metadata" d' = Py.dict_get "metadata" d /\
      (forall n, In n names ->
         exists v, hooks_view d' n = Some v /\ Py.truthy v = true) /\
      (forall k, ~ In k names -> hooks_view d' k = hooks_view d k).
Proof.
  intros Hid. induction 1 as [|n rest Hn _ IH]; intros w d Hfile Hnest Hagree.
  - exists [], w, d. repeat split; try assumption. intros n [].
  - cbn [fix_hooks]. rewrite bind_run. unfold fix_hook. cbn [Py.get].
    rewrite bind_lift_ok. cbv beta.
    destruct (Py.truthy (default (JBool false) (Py.dict_get n h0))) eqn:Hflag; cbn [negb].
    + destruct (IH w d Hfile Hnest (fun k Hk => Hagree k (or_intror Hk)))
        as (printed & w' & d' & Hrun & Hfile' & Hreg & Hmeta & Hon & Hframe).
      cbn [mret ST_ret]. rewrite bind_run, Hrun.
      eexists _, w', d'. split; [reflexivity |]. repeat split; try assumption.
      * intros k [<- | Hk]; [| exact (Hon k Hk)].
        rewrite (Hframe n Hn), (Hagree n (or_introl eq_refl)).
        destruct (Py.dict_get n h0) as [v|]; [| discriminate].
        exists v. split; [reflexivity | exact Hflag].
      * intros k Hk. apply Hframe. intros Hin. apply Hk. right. exact Hin.
    + destruct (setter_file sid "hooks_enabled" n (JBool true) w d
                  (set_hook_enabled sid n true) eq_refl ltac:(discriminate) Hid Hfile Hnest)
        as (w1 & d1 & m1 & Hset & Hfile1 & Hreg1 & Hm1 & Hkey1 & Hothers1 & Hframe1).
      assert (Hview1 : forall k, k <> n -> hooks_view d1 k = hooks_view d k).
      { intros k Hk. unfold hooks_view. rewrite Hm1. apply Hothers1, Hk. }
      destruct (IH w1 d1 Hfile1 (or_intror (ex_intro _ m1 Hm1))) 
        as (printed & w' & d' & Hrun & Hfile' & Hreg & Hmeta & Hon & Hframe).
      { intros k Hk. rewrite Hview1; [apply Hagree; right; exact Hk |].
        intros ->. contradiction. }
      rewrite bind_run, Hset. cbn [mret ST_ret]. rewrite bind_run, Hrun.
      eexists _, w', d'. split; [reflexivity |]. repeat split; try assumption.
      * rewrite Hreg. exact Hreg1.
      * rewrite Hmeta. apply Hframe1; discriminate.
      * intros k [<- | Hk]; [| exact (Hon k Hk)].
        rewrite (Hframe n Hn). unfold hooks_view. rewrite Hm1, Hkey1.
        exists (JBool true). split; reflexivity.
      * intros k Hk. rewrite Hframe by (intros Hin; apply Hk; right; exact Hin).
        apply Hview1. intros ->. apply Hk. left. reflexivity.
Qed.

Lemma get_metadata_file sid key dflt w d :
  Py.truthy sid = true ->
  file_holds sid w d ->
  get_metadata sid key dflt w =
    ((metadata ← Py.get (JObj d) "metadata" (JObj []); Py.get metadata key dflt), w).
Proof.
  intros Hid Hfile. unfold get_metadata.
  rewrite bind_run, (load_settings_reads sid w (JObj d) Hid Hfile).
  rewrite bind_run. unfold lift.
  destruct (Py.get (JObj d) "metadata" (JObj [])); reflexivity.
Qed.

Lemma is_hook_enabled_file sid hook_name w d :
  Py.truthy sid = true ->
  file_holds sid w d ->
  is_hook_enabled sid hook_name w =
    ((hooks_enabled ← Py.get (JObj d) "hooks_enabled" (JObj []);
      Py.get hooks_enabled hook_name (JBool true)), w).
Proof.
  intros Hid Hfile. unfold is_hook_enabled.
  rewrite bind_run, (load_settings_reads sid w (JObj d) Hid Hfile).
  rewrite bind_run. unfold lift.
  destruct (Py.get (JObj d) "hooks_enabled" (JObj [])); reflexivity.
Qed.

Lemma four_hooks_NoDup : List.NoDup four_hooks.
Proof.
  unfold four_hooks.
  repeat (constructor; [cbn [In]; intuition discriminate |]).
  constructor.
Qed.

Lemma fix_defaults_document sid w d :
  plain_name sid = true ->
  file_holds sid w d ->
  nests "metadata" (JObj d) ->
  nests "hooks_enabled" (JObj d) ->
  exists printed w' d' m' mode,
    fix_defaults sid w = (Ok printed, w') /\
    file_holds sid w' d' /\
    registry w' = registry w /\
    Py.dict_get "metadata" d' = Some (JObj m') /\
    Py.dict_get "approval_mode" m' = Some mode /\
    Py.truthy mode = true /\ mode <> JStr "not_set" /\
    (forall n, In n four_hooks ->
       exists v, hooks_view d' n = Some v /\ Py.truthy v = true).
Proof.
  intros Hid Hfile (d0 & Hd0 & Hmeta) (d0' & Hd0' & Hhooks).
  injection Hd0 as <-. injection Hd0' as <-.
  unfold fix_defaults.
  rewrite bind_run, (load_settings_reads sid w (JObj d) (plain_name_truthy sid Hid) Hfile).
  cbn [Py.get]. rewrite bind_lift_ok. cbv beta.
  (* the approval mode *)
  assert (Hget : exists mode0,
            Py.get (default (JObj []) (Py.dict_get "metadata" d)) "approval_mode" JNull
              = Ok mode0 /\
            (Py.truthy mode0 = true ->
             exists m, Py.dict_get "metadata" d = Some (JObj m) /\
                       Py.dict_get "approval_mode" m = Some mode0)).
  { destruct Hmeta as [-> | [m ->]]; cbn [default from_option id Py.get].
    - eexists. split; [reflexivity |]. cbn. discriminate.
    - destruct (Py.dict_get "approval_mode" m) as [v|] eqn:Hv.
      + exists v. split; [reflexivity |]. intros _. exists m. split; [reflexivity | exact Hv].
      + eexists. split; [reflexivity |]. cbn. discriminate. }
  destruct Hget as (mode0 & -> & Hmode0).
  rewrite bind_lift_ok. cbv beta. rewrite bind_run.
  assert (Hstep1 : exists printed1 w1 d1 m1 mode,
            (if negb (Py.truthy mode0) || Py.eq mode0 (JStr "not_set")
             then _ ← set_metadata sid "approval_mode" (JStr "ai");
                  mret [check_mark ++ " Fixed approval_mode to: ai"]
             else mret []) w = (Ok printed1, w1) /\
            file_holds sid w1 d1 /\ registry w1 = registry w /\
            Py.dict_get "metadata" d1 = Some (JObj m1) /\
            Py.dict_get "approval_mode" m1 = Some mode /\
            Py.truthy mode = true /\ mode <> JStr "not_set" /\
            Py.dict_get "hooks_enabled" d1 = Py.dict_get "hooks_enabled" d).
  { destruct (negb (Py.truthy mode0) || Py.eq mode0 (JStr "not_set")) eqn:Hfix.
    - destruct (setter_file sid "metadata" "approval_mode" (JStr "ai") w d
                  (set_metadata sid "approval_mode" (JStr "ai")) eq_refl
                  ltac:(discriminate) Hid Hfile Hmeta)
        as (w1 & d1 & m1 & Hset & Hfile1 & Hreg1 & Hm1 & Hkey1 & _ & Hframe1).
      rewrite bind_run, Hset.
      eexists _, w1, d1, m1, (JStr "ai"). split; [reflexivity |].
      repeat split; try assumption; try discriminate.
      apply Hframe1; discriminate.
    - apply orb_false_iff in Hfix as [Htruthy Hnot].
      apply negb_false_iff in Htruthy. apply eq_JStr_r_false in Hnot.
      destruct (Hmode0 Htruthy) as (m & Hm & Hkey).
      eexists _, w, d, m, mode0. split; [reflexivity |].
      repeat split; assumption. }
  destruct Hstep1 as (printed1 & w1 & d1 & m1 & mode & -> & Hfile1 & Hreg1 & Hm1 & Hmode
                      & Htruthy & Hnot & Hsame).
  (* the hooks *)
  set (h0 := match Py.dict_get "hooks_enabled" d with Some (JObj m) => m | _ => [] end).
  assert (Hh0 : default (JObj []) (Py.dict_get "hooks_enabled" d) = JObj h0).
  { unfold h0. destruct Hhooks as [-> | [m ->]]; reflexivity. }
  rewrite Hh0, bind_lift_ok. cbv beta. rewrite bind_run.
  destruct (fix_hooks_run sid h0 four_hooks Hid four_hooks_NoDup w1 d1 Hfile1)
    as (printed2 & w2 & d2 & Hrun2 & Hfile2 & Hreg2 & Hmeta2 & Hon & _).
  { rewrite Hsame. exact Hhooks. }
  { intros n _. unfold hooks_view. rewrite Hsame. unfold h0.
    destruct Hhooks as [-> | [m ->]]; reflexivity. }
  fold four_hooks. rewrite Hrun2.
  eexists _, w2, d2, m1, mode. split; [reflexivity |].
  repeat split; try assumption.
  - rewrite Hreg2. exact Hreg1.
  - rewrite Hmeta2. exact Hm1.
Qed.

Lemma defaults_in_place_file sid w d m mode :
  Py.truthy sid = true ->
  file_holds sid w d ->
  Py.dict_get "metadata" d = Some (JObj m) ->
  Py.dict_get "approval_mode" m = Some mode ->
  Py.truthy mode = true -> mode <> JStr "not_set" ->
  (forall n, In n four_hooks -> exists v, hooks_view d n = Some v /\ Py.truthy v = true) ->
  defaults_in_place sid w.
Proof.
  intros Hid Hfile Hm Hmode Htruthy Hnot Hon. split.
  - exists mode. rewrite (get_metadata_file sid _ _ w d Hid Hfile).
    cbn [fst Py.get]. rewrite Hm. cbn [default from_option id mbind res_bind Py.get].
    rewrite Hmode. repeat split; assumption.
  - intros n Hn. destruct (Hon n Hn) as (v & Hv & Htv). exists v.
    rewrite (is_hook_enabled_file sid n w d Hid Hfile). cbn [fst Py.get].
    unfold hooks_view in Hv.
    destruct (Py.dict_get "hooks_enabled" d) as [[| ? | ? | ? | ? | h]|]; try discriminate.
    cbn [default from_option id mbind res_bind Py.get]. rewrite Hv. split; [reflexivity | exact Htv].
Qed.

Lemma defaults_in_place_loaded sid w d :
  fst (load_settings sid w) = Ok (JObj d) ->
  Py.dict_get "metadata" d = Some (JObj [("approval_mode", JStr "ai")]) ->
  Py.dict_get "hooks_enabled" d =
    Some (JObj [("stop-hook", JBool true); ("notification-hook", JBool true);
                ("session-start", JBool true); ("session-end", JBool true)]) ->
  defaults_in_place sid w.
Proof.
  intros Hload Hm Hh. split.
  - exists (JStr "ai"). rewrite (get_metadata_loaded sid _ _ w d Hload).
    cbn [Py.get]. rewrite Hm. repeat split; discriminate.
  - intros n Hn. exists (JBool true). rewrite (is_hook_enabled_loaded sid n w d Hload).
    cbn [Py.get]. rewrite Hh. cbn [default from_option id mbind res_bind Py.get].
    rewrite default_hooks_enabled. split; reflexivity.
Qed.

(** X28. The command [fix_defaults] puts the defaults in place: for a
    session named by a plain file name whose file is absent, cannot be
    read (the read raises a [JSONDecodeError] or an [IOError]), or holds
    a record whose [metadata] and [hooks_enabled], if any, are records,
    the command completes with status 0 and afterwards the approval mode
    that the hooks read is set and is not [not_set], and each of the
    four hooks reads as enabled; the registry is not touched. *)
Theorem fix_defaults_restores prog s w :
  plain_name (JStr s) = true ->
  settings w !! get_settings_path (JStr s) = None \/
  (exists e, settings w !! get_settings_path (JStr s) = Some (Unreadable e) /\
             is_JSONDecodeError_or_IOError e = true) \/
  (exists d, settings w !! get_settings_path (JStr s) = Some (Document (JObj d)) /\
             nests "metadata" (JObj d) /\ nests "hooks_enabled" (JObj d)) ->
  exists printed,
    fst (main [prog; s; "fix_defaults"] w) = Ok (0, printed) /\
    defaults_in_place (JStr s) (snd (main [prog; s; "fix_defaults"] w)) /\
    registry (snd (main [prog; s; "fix_defaults"] w)) = registry w.
Proof.
  intros Hid Hcase. assert (Htruthy := plain_name_truthy _ Hid).
  change (main [prog; s; "fix_defaults"] w)
    with ((printed ← fix_defaults (JStr s); mret (0, printed)) w).
  rewrite bind_run.
  destruct Hcase as [Habsent | [(e & Hbad & He) | (d & Hfile & Hmeta & Hhooks)]].
  - assert (Hrun : fix_defaults (JStr s) w =
              (Ok [check_mark ++ " Defaults fixed"], snd (load_settings (JStr s) w))).
    { unfold fix_defaults. rewrite bind_run, (load_settings_absent _ w Hid Habsent).
      reflexivity. }
    rewrite Hrun, (load_settings_absent _ w Hid Habsent). cbn [fst snd].
    eexists. split; [reflexivity |]. split; [| reflexivity].
    eapply defaults_in_place_loaded;
      [ erewrite load_settings_document;
          [ reflexivity | exact Hid
          | cbn [settings set_settings set_ticks]; apply lookup_insert_eq ]
      | reflexivity | reflexivity ].
  - assert (Hrun : fix_defaults (JStr s) w =
              (Ok [check_mark ++ " Defaults fixed"], set_ticks (S (ticks w)) w)).
    { unfold fix_defaults.
      rewrite bind_run, (load_settings_garbage _ w e Hid Hbad He), get_default_settings_eq.
      reflexivity. }
    rewrite Hrun. cbn [fst snd].
    eexists. split; [reflexivity |]. split; [| reflexivity].
    eapply defaults_in_place_loaded.
    + erewrite load_settings_garbage;
        [rewrite get_default_settings_eq; reflexivity | exact Hid | exact Hbad | exact He].
    + reflexivity.
    + reflexivity.
  - assert (Hholds : file_holds (JStr s) w d).
    { unfold file_holds. rewrite (file_of_plain _ w Hid). exact Hfile. }
    destruct (fix_defaults_document (JStr s) w d Hid Hholds Hmeta Hhooks)
      as (printed & w' & d' & m' & mode & Hrun & Hfile' & Hreg & Hm & Hmode & Hmode_set
          & Hnot & Hon).
    rewrite Hrun. cbn [fst snd mret ST_ret].
    exists printed. split; [reflexivity |]. split; [| exact Hreg].
    exact (defaults_in_place_file (JStr s) w' d' m' mode Htruthy Hfile' Hm Hmode Hmode_set
             Hnot Hon).
Qed.

Lemma setter_loaded sid outer key value w d (setter : M unit) :
  setter = (settings_dict ← load_settings sid;
            settings_dict ← lift (set_nested settings_dict outer key value);
            _ ← save_settings sid settings_dict;
            mret tt) ->
  outer <> "updated_at" ->
  Py.truthy sid = true ->
  fst (load_settings sid w) = Ok (JObj d) ->
  Py.dict_get outer d = None \/ (exists m, Py.dict_get outer d = Some (JObj m)) ->
  exists w' d' m',
    setter w = (Ok tt, w') /\
    file_holds sid w' d' /\
    Py.dict_get outer d' = Some (JObj m') /\
    Py.dict_get key m' = Some value.
Proof.
  intros -> Houter Hid Hload Hnest.
  destruct (set_nested_dict d outer key value Hnest)
    as (d' & m' & Hset & Hm & Hkey & _ & _).
  destruct (load_settings_resolves sid w _ Hid Hload) as [place Hplace].
  rewrite bind_run. destruct (load_settings sid w) as [r w1].
  cbn [fst snd] in Hload, Hplace. subst r.
  rewrite bind_run. unfold lift at 1. rewrite Hset.
  rewrite (setter_stores sid w1 d' place Hid Hplace).
  eexists _, _, m'. split; [reflexivity |]. split; [| split; [| exact Hkey]].
  - unfold file_holds. apply file_of_written.
    rewrite (resolve_elsewhere sid w1 (set_ticks (S (ticks w1)) w1) eq_refl). exact Hplace.
  - rewrite dict_get_set_ne by (apply not_eq_sym; exact Houter). exact Hm.
Qed.

(** X29. The command [set_approval_mode] stores the mode as it is given,
    without checking it, and the approval hook follows it on the next
    event of the session: [auto] gives allow, [strict] gives ask,
    [disabled] silences the hook, and a word that is none of the four
    modes gives ask with a reason that quotes the word. *)
Theorem set_approval_mode_takes_effect prog s mode w doc ev :
  s <> EmptyString ->
  fst (load_settings (JStr s) w) = Ok doc ->
  nests "metadata" doc ->
  ApprovalHook.event_session ev = JStr s ->
  fst (main [prog; s; "set_approval_mode"; mode] w)
    = Ok (0, [check_mark ++ " Approval mode set to: " ++ mode]) /\
  (mode = "auto" ->
   ApprovalHook.decision_of
     (ApprovalHook.main (Document (JObj ev))
        (snd (main [prog; s; "set_approval_mode"; mode] w))) = Some (JStr "allow")) /\
  (mode = "strict" ->
   ApprovalHook.decision_of
     (ApprovalHook.main (Document (JObj ev))
        (snd (main [prog; s; "set_approval_mode"; mode] w))) = Some (JStr "ask")) /\
  (mode = "disabled" ->
   fst (ApprovalHook.main (Document (JObj ev))
          (snd (main [prog; s; "set_approval_mode"; mode] w))) = Ok None) /\
  (mode <> "ai" -> mode <> "auto" -> mode <> "strict" -> mode <> "disabled" ->
   ApprovalHook.decision_of
     (ApprovalHook.main (Document (JObj ev))
        (snd (main [prog; s; "set_approval_mode"; mode] w))) = Some (JStr "ask") /\
   ApprovalHook.reason_of
     (ApprovalHook.main (Document (JObj ev))
        (snd (main [prog; s; "set_approval_mode"; mode] w)))
     = Some (JStr ("Unknown approval mode '" ++ mode ++ "' - defaulting to ask"))).
Proof.
  intros Hne Hload [d [-> Hnest]] Hev.
  assert (Hid : Py.truthy (JStr s) = true) by (destruct s; [contradiction | reflexivity]).
  change (main [prog; s; "set_approval_mode"; mode] w)
    with ((_ ← set_metadata (JStr s) "approval_mode" (JStr mode);
           mret (0, [check_mark ++ " Approval mode set to: " ++ mode])) w).
  rewrite bind_run.
  destruct (setter_loaded (JStr s) "metadata" "approval_mode" (JStr mode) w d
              (set_metadata (JStr s) "approval_mode" (JStr mode)) eq_refl
              ltac:(discriminate) Hid Hload Hnest)
    as (w' & d' & m' & -> & Hfile & Hm & Hkey).
  cbn [fst snd mret ST_ret].
  assert (Hmode : ApprovalHook.session_mode ev w' = (Ok (JStr mode), w')).
  { unfold ApprovalHook.session_mode. rewrite Hev.
    rewrite (get_metadata_file (JStr s) _ _ w' d' Hid Hfile).
    cbn [Py.get]. rewrite Hm. cbn [default from_option id mbind res_bind Py.get].
    rewrite Hkey. reflexivity. }
  split; [reflexivity |]. split; [| split; [| split]].
  - intros ->. rewrite (main_auto ev w' w' Hmode). reflexivity.
  - intros ->. rewrite (main_strict ev w' w' Hmode). reflexivity.
  - intros ->. rewrite (main_disabled ev w' w' Hmode). reflexivity.
  - intros Hai Hauto Hstrict Hdisabled.
    rewrite (main_unknown ev w' w' (JStr mode) Hmode) by congruence.
    split; reflexivity.
Qed.

Lemma mem_says_yes word :
  Py.mem (JStr (Py.lower word)) [JStr "true"; JStr "1"; JStr "yes"] = true
  <-> says_yes word.
Proof.
  unfold Py.mem, says_yes. cbn [existsb Py.eq].
  rewrite !orb_true_iff, !String.eqb_eq. split.
  - intros [H | [H | [H | H]]];
      [exists "true" | exists "1" | exists "yes" | discriminate H];
      (split; [cbn [In]; auto | apply lower_spells; [reflexivity | congruence]]).
  - intros (yes & Hin & Hyes).
    destruct Hin as [<- | [<- | [<- | []]]];
      apply lower_spells in Hyes; try reflexivity; rewrite Hyes; auto.
Qed.

(** X30. The command [set_hook] enables the hook when its last argument
    is [true], [1] or [yes] with each letter in either case, and disables
    it for every other word; [is_hook_enabled] then reads that flag. *)
Theorem set_hook_reads_word prog s hook_name word w doc :
  s <> EmptyString ->
  fst (load_settings (JStr s) w) = Ok doc ->
  nests "hooks_enabled" doc ->
  (says_yes word ->
   fst (main [prog; s; "set_hook"; hook_name; word] w)
     = Ok (0, [check_mark ++ " " ++ hook_name ++ ": enabled"]) /\
   fst (is_hook_enabled (JStr s) hook_name
          (snd (main [prog; s; "set_hook"; hook_name; word] w)))
     = Ok (JBool true)) /\
  (~ says_yes word ->
   fst (main [prog; s; "set_hook"; hook_name; word] w)
     = Ok (0, [check_mark ++ " " ++ hook_name ++ ": disabled"]) /\
   fst (is_hook_enabled (JStr s) hook_name
          (snd (main [prog; s; "set_hook"; hook_name; word] w)))
     = Ok (JBool false)).
Proof.
  intros Hne Hload [d [-> Hnest]].
  assert (Hid : Py.truthy (JStr s) = true) by (destruct s; [contradiction | reflexivity]).
  assert (Hrun : forall enabled,
            Py.mem (JStr (Py.lower word)) [JStr "true"; JStr "1"; JStr "yes"] = enabled ->
            fst (main [prog; s; "set_hook"; hook_name; word] w)
              = Ok (0, [check_mark ++ " " ++ hook_name ++ ": "
                          ++ (if enabled then "enabled" else "disabled")]) /\
            fst (is_hook_enabled (JStr s) hook_name
                   (snd (main [prog; s; "set_hook"; hook_name; word] w)))
              = Ok (JBool enabled)).
  { intros enabled Henabled.
    change (main [prog; s; "set_hook"; hook_name; word] w)
      with ((let enabled :=
               Py.mem (JStr (Py.lower word)) [JStr "true"; JStr "1"; JStr "yes"] in
             _ ← set_hook_enabled (JStr s) hook_name enabled;
             mret (0, [check_mark ++ " " ++ hook_name ++ ": "
                         ++ (if enabled then "enabled" else "disabled")])) w).
    cbv zeta. rewrite Henabled, bind_run.
    destruct (setter_loaded (JStr s) "hooks_enabled" hook_name (JBool enabled) w d
                (set_hook_enabled (JStr s) hook_name enabled) eq_refl
                ltac:(discriminate) Hid Hload Hnest)
      as (w' & d' & m' & -> & Hfile & Hm & Hkey).
    cbn [fst snd mret ST_ret]. split; [reflexivity |].
    rewrite (is_hook_enabled_file (JStr s) hook_name w' d' Hid Hfile).
    cbn [fst Py.get]. rewrite Hm. cbn [default from_option id mbind res_bind Py.get].
    rewrite Hkey. reflexivity. }
  split.
  - intros Hyes. apply (Hrun true), mem_says_yes, Hyes.
  - intros Hno. apply (Hrun false).
    destruct (Py.mem _ _) eqn:Hmem; [| reflexivity].
    destruct (Hno (proj1 (mem_says_yes word) Hmem)).
Qed.

Lemma fix_defaults_restores_witness :
  plain_name (JStr "s1") = true /\
  approval_mode_in (JObj [("hooks_enabled", JObj [("stop-hook", JBool false)])]) = None /\
  defaults_in_place (JStr "s1")
    (snd (main ["update_session_settings.py"; "s1"; "fix_defaults"] Sample.with_hooks_only)) /\
  registry (snd (main ["update_session_settings.py"; "s1"; "fix_defaults"]
                   Sample.with_hooks_only))
    = registry Sample.with_hooks_only.
Proof.
  split; [reflexivity |]. split; [reflexivity |].
  destruct (fix_defaults_restores "update_session_settings.py" "s1" Sample.with_hooks_only)
    as (printed & _ & Hplace & Hregistry).
  - reflexivity.
  - right; right. eexists. split; [reflexivity |]. split.
    + eexists. split; [reflexivity |]. left. reflexivity.
    + eexists. split; [reflexivity |]. right. eexists. reflexivity.
  - split; [exact Hplace | exact Hregistry].
Defined.

Lemma set_approval_mode_takes_effect_witness :
  ApprovalHook.decision_of
    (ApprovalHook.main (Document (JObj Sample.bash_event))
       (snd (main ["update_session_settings.py"; "s1"; "set_approval_mode"; "auto"]
               Sample.with_bare_settings))) = Some (JStr "allow").
Proof.
  assert (Hload : fst (load_settings (JStr "s1") Sample.with_bare_settings)
                  = Ok Sample.bare_settings).
  { erewrite load_settings_document; reflexivity. }
  assert (Hnest : nests "metadata" Sample.bare_settings).
  { eexists. split; [reflexivity |]. right. eexists. reflexivity. }
  exact (proj1 (proj2 (set_approval_mode_takes_effect "update_session_settings.py" "s1"
                         "auto" Sample.with_bare_settings Sample.bare_settings
                         Sample.bash_event ltac:(discriminate) Hload Hnest eq_refl))
           eq_refl).
Defined.

Lemma set_hook_reads_word_witness :
  says_yes "YES" /\
  ~ says_yes "on" /\
  fst (is_hook_enabled (JStr "s1") "stop-hook"
         (snd (main ["update_session_settings.py"; "s1"; "set_hook"; "stop-hook"; "on"]
                 Sample.blank))) = Ok (JBool false) /\
  fst (is_hook_enabled (JStr "s1") "stop-hook" Sample.with_hooks_only) = Ok (JBool false) /\
  fst (is_hook_enabled (JStr "s1") "stop-hook"
         (snd (main ["update_session_settings.py"; "s1"; "set_hook"; "stop-hook"; "YES"]
                 Sample.with_hooks_only))) = Ok (JBool true).
Proof.
  assert (Hyes : says_yes "YES").
  { exists "yes". split; [cbn [In]; auto |]. cbn [Words.spells].
    repeat split; right; repeat split; try reflexivity; vm_compute; discriminate. }
  assert (Hno : ~ says_yes "on").
  { intros (yes & Hin & Hspells).
    destruct Hin as [<- | [<- | [<- | []]]]; cbn [Words.spells] in Hspells;
      destruct Hspells as [[H | (_ & _ & H)] _]; vm_compute in H; discriminate H. }
  assert (Hload : fst (load_settings (JStr "s1") Sample.blank)
                  = Ok (fresh_settings (JStr "s1") Sample.blank)).
  { rewrite load_settings_absent; reflexivity. }
  assert (Hnest : nests "hooks_enabled" (fresh_settings (JStr "s1") Sample.blank)).
  { eexists. split; [reflexivity |]. right. eexists. reflexivity. }
  assert (Hload' : fst (load_settings (JStr "s1") Sample.with_hooks_only)
                   = Ok (JObj [("hooks_enabled", JObj [("stop-hook", JBool false)])])).
  { erewrite load_settings_document; reflexivity. }
  assert (Hnest' : nests "hooks_enabled"
                     (JObj [("hooks_enabled", JObj [("stop-hook", JBool false)])])).
  { eexists. split; [reflexivity |]. right. eexists. reflexivity. }
  split; [exact Hyes |]. split; [exact Hno |]. split; [| split].
  - exact (proj2 (proj2 (set_hook_reads_word "update_session_settings.py" "s1" "stop-hook"
                           "on" Sample.blank _ ltac:(discriminate) Hload Hnest) Hno)).
  - rewrite (is_hook_enabled_loaded _ "stop-hook" _ _ Hload'). reflexivity.
  - exact (proj2 (proj1 (set_hook_reads_word "update_session_settings.py" "s1" "stop-hook"
                           "YES" Sample.with_hooks_only _ ltac:(discriminate) Hload' Hnest')
                    Hyes)).
Defined.

End Commands.
